(** * pdfdeal: the Doc2X v2 client (Doc2X/ConvertV2.py) and the legacy
    rate-limit path of doc2x.py, as a shallow embedding.

    Python values that travel through the client are JSON values; every
    coroutine is a computation over an explicit world (file system, remote
    service, event trace) that either returns a value or raises. *)

From Stdlib Require Import ZArith List String Ascii Bool Lia.
Import ListNotations.
Open Scope string_scope.
Open Scope Z_scope.

(** ** Python values *)

(** What [json.loads] builds.  A dict is kept as the list of its items in
    order; [json.loads] never builds two items with the same key, and lookup
    takes the first one.  Only integer numbers are represented: no branch of
    the client computes with a number, it only passes them on. *)
#[warnings="-register-all"]
Inductive json : Type :=
| JNull
| JBool (b : bool)
| JNum (n : Z)
| JStr (s : string)
| JArr (items : list json)
| JObj (items : list (string * json)).

(** The exceptions the client raises or lets through. *)
Inductive exn : Type :=
| RateLimit
| FileError (msg : string)
| RequestError (msg : string)
| ValueError (msg : string)
| RuntimeError (msg : string)
| PyException (msg : string)          (* raise Exception(...) *)
| KeyError (key : string)
| TypeError
| AttributeError
| OSError (path : string)             (* os.path.getsize on a missing file *)
| JSONDecodeError
| TransportError (msg : string)       (* httpx timeout or connection failure *)
| RecursionError
| RetryExhausted (last : exn).

Inductive result (A : Type) : Type :=
| Ok (a : A)
| Err (e : exn).
Arguments Ok {A} a.
Arguments Err {A} e.

(** ** The world: file system, remote service, trace of effects *)

Inductive http_method : Type := GET | POST.

Inductive http_body : Type :=
| NoBody
| Content (bytes : string)                        (* content=... *)
| JsonBody (payload : json)                       (* json=... *)
| Multipart (form : json) (file_path : string).   (* data=..., files=... *)

Record request : Type := mkRequest {
  req_method : http_method;
  req_url : string;
  req_params : list (string * string);
  req_headers : list (string * string);
  req_body : http_body
}.

(** An HTTP response: [json_body] is what [json.loads] makes of the content,
    [None] when the content is not JSON. *)
Record response : Type := mkResponse {
  status_code : Z;
  text : string;
  json_body : option json
}.

Inductive reply : Type :=
| Replied (r : response)
| Failed (e : exn).

Inductive event : Type :=
| EvWarn (msg : string)         (* logging.warning *)
| EvPrint (msg : string)        (* print *)
| EvOpen (path : string)        (* open(path, "rb") *)
| EvNet (r : request)           (* one HTTP round trip *)
| EvSleep (seconds : Z)         (* asyncio.sleep / time.sleep *)
| EvMakedirs (path : string)    (* os.makedirs(path, exist_ok=True) *)
| EvWrite (path bytes : string) (* open(path, "wb") and write *)
| EvExtract (zip dest : string) (* ZipFile(zip).extractall(dest) *)
| EvRemove (path : string).     (* os.remove *)

(** The service answers the k-th round trip of a run as [net k request];
    [local_ok] tells whether a write to the local file system succeeds. *)
Record World : Type := mkWorld {
  getsize : string -> option Z;
  file_content : string -> option string;
  local_ok : event -> bool;
  net : nat -> request -> reply;
  trace : list event
}.

Definition log (e : event) (w : World) : World :=
  mkWorld (getsize w) (file_content w) (local_ok w) (net w) (trace w ++ [e]).

Definition is_net (e : event) : bool :=
  match e with EvNet _ => true | _ => false end.

Definition net_calls (tr : list event) : nat :=
  List.length (filter is_net tr).

(** ** Computations that may raise *)

Definition M (A : Type) : Type := World -> result A * World.

Definition ret {A} (a : A) : M A := fun w => (Ok a, w).

Definition raise {A} (e : exn) : M A := fun w => (Err e, w).

Definition bind {A B} (m : M A) (k : A -> M B) : M B :=
  fun w => match m w with
           | (Ok a, w') => k a w'
           | (Err e, w') => (Err e, w')
           end.

Definition lift {A} (r : result A) : M A := fun w => (r, w).

Declare Scope py_scope.
Delimit Scope py_scope with py.
Notation "x <- m ;; k" := (bind m (fun x => k))
  (at level 100, m at next level, right associativity) : py_scope.
Notation "m ;; k" := (bind m (fun _ => k))
  (at level 100, right associativity) : py_scope.
Open Scope py_scope.

Definition warning (msg : string) : M unit := fun w => (Ok tt, log (EvWarn msg) w).

Definition print (msg : string) : M unit := fun w => (Ok tt, log (EvPrint msg) w).

Definition sleep (seconds : Z) : M unit := fun w => (Ok tt, log (EvSleep seconds) w).

(** [os.path.getsize]: [OSError] when the path does not exist. *)
Definition os_path_getsize (path : string) : M Z :=
  fun w => match getsize w path with
           | Some n => (Ok n, w)
           | None => (Err (OSError path), w)
           end.

(** A write to the local file system: recorded, [OSError] when it fails. *)
Definition local (e : event) (path : string) : M unit :=
  fun w => if local_ok w e then (Ok tt, log e w) else (Err (OSError path), log e w).

(** One round trip with [httpx] or [requests]: the request is recorded, then
    the service's answer is a response or a transport exception. *)
Definition send (r : request) : M response :=
  fun w => match net w (net_calls (trace w)) r with
           | Replied resp => (Ok resp, log (EvNet r) w)
           | Failed e => (Err e, log (EvNet r) w)
           end.

(** ** Dict and container operations of Python on JSON values *)

Fixpoint lookup (k : string) (items : list (string * json)) : option json :=
  match items with
  | [] => None
  | (k', v) :: rest => if (k' =? k)%string then Some v else lookup k rest
  end.

(** [d[k]] *)
Definition getitem (d : json) (k : string) : result json :=
  match d with
  | JObj items =>
      match lookup k items with
      | Some v => Ok v
      | None => Err (KeyError k)
      end
  | _ => Err TypeError
  end.

(** [d.get(k, default)] *)
Definition get (d : json) (k : string) (default : json) : result json :=
  match d with
  | JObj items =>
      match lookup k items with
      | Some v => Ok v
      | None => Ok default
      end
  | _ => Err AttributeError
  end.

Fixpoint prefixb (p s : string) : bool :=
  match p, s with
  | EmptyString, _ => true
  | String a p', String b s' => if Ascii.eqb a b then prefixb p' s' else false
  | String _ _, EmptyString => false
  end.

Fixpoint substringb (p s : string) : bool :=
  if prefixb p s then true
  else match s with
       | EmptyString => false
       | String _ s' => substringb p s'
       end.

Definition is_str (k : string) (v : json) : bool :=
  match v with JStr s => (s =? k)%string | _ => false end.

(** [k in c]: key test on a dict, element test on a list, substring test on
    a string, [TypeError] on anything else. *)
Definition contains (k : string) (c : json) : result bool :=
  match c with
  | JObj items => Ok (match lookup k items with Some _ => true | None => false end)
  | JArr items => Ok (existsb (is_str k) items)
  | JStr s => Ok (substringb k s)
  | _ => Err TypeError
  end.

Fixpoint chars (s : string) : list json :=
  match s with
  | EmptyString => []
  | String c s' => JStr (String c EmptyString) :: chars s'
  end.

(** [for x in c]: the elements of a list, the keys of a dict, the characters
    of a string, [TypeError] on anything else. *)
Definition iter (c : json) : result (list json) :=
  match c with
  | JArr items => Ok items
  | JObj items => Ok (map (fun kv => JStr (fst kv)) items)
  | JStr s => Ok (chars s)
  | _ => Err TypeError
  end.

(** ** Collaborators that are not part of ConvertV2.py *)

(** [code_check] receives [data.get("code", default)]: the code of the
    response envelope, or the default the caller passed (the decoded body in
    the upload functions, the response object in [uid_status]). *)
Inductive code_arg : Type :=
| CodeValue (v : json)
| CodeResponse (r : response).

(** Modelled from the spec: the transport retry policy (the decorator
    [async_retry] of Doc2X/Exception.py): a bounded number of retries with a
    backoff delay before each one.  The spec names rate-limit and transient
    failures as retried and input and business errors as never retried; it
    does not classify the remaining failures, so that choice is a field. *)
Record RetryPolicy : Type := mkPolicy {
  max_retries : nat;
  backoff : nat -> Z;
  retry_unclassified : bool
}.

(** [code_check] is the error-code table of Doc2X/Exception.py: [None] when
    the code is accepted, the exception it raises otherwise.  [py_str] and
    [exn_str] are Python's [str] as an f-string applies it to a value and to
    a caught exception; [getcwd] is [os.getcwd()]; the [os_path] functions
    are those of Python's [os.path]. *)
Class Collaborators : Type := {
  code_check : code_arg -> option exn;
  py_str : json -> string;
  exn_str : exn -> string;
  getcwd : string;
  os_path_join : string -> string -> string;
  os_path_dirname : string -> string;
  os_path_splitext : string -> string * string;
  policy : RetryPolicy
}.

(** Modelled from the spec: the classification of failures by the retry
    policy.  Input errors (unreadable or missing file, oversized file,
    invalid format) and business failures are permanent. *)
Definition permanent (e : exn) : bool :=
  match e with
  | FileError _ | RequestError _ | ValueError _ | OSError _ => true
  | _ => false
  end.

(** Modelled from the spec: the input errors of its error taxonomy, which
    are local: an unreadable or oversized file ([FileError] in the
    docstrings of the uploaders), a missing file, an unsupported format.  A
    [RequestError] is its business or request error. *)
Definition input_error (e : exn) : bool :=
  match e with
  | FileError _ | ValueError _ | OSError _ => true
  | _ => false
  end.

(** Modelled from the spec: rate-limit and transport failures are retried,
    permanent ones and an exhausted inner retry are not. *)
Definition retryable (p : RetryPolicy) (e : exn) : bool :=
  match e with
  | RateLimit | TransportError _ => true
  | FileError _ | RequestError _ | ValueError _ | OSError _ => false
  | RetryExhausted _ => false
  | _ => retry_unclassified p
  end.

(** Modelled from the spec: the retry loop of [async_retry].  [attempt]
    counts the attempts already made, [left] the retries that remain; a
    retryable failure with no retry left surfaces as [RetryExhausted]. *)
Fixpoint retry_loop {A} (p : RetryPolicy) (left attempt : nat) (op : M A) : M A :=
  fun w =>
    match op w with
    | (Ok a, w') => (Ok a, w')
    | (Err e, w') =>
        if retryable p e then
          match left with
          | O => (Err (RetryExhausted e), w')
          | S left' =>
              retry_loop p left' (S attempt) op (log (EvSleep (backoff p attempt)) w')
          end
        else (Err e, w')
    end.

(** Modelled from the spec: [@async_retry()] around a coroutine. *)
Definition async_retry {A} (p : RetryPolicy) (op : M A) : M A :=
  retry_loop p (max_retries p) 0 op.

(** ** Helpers for the Python idioms of the client *)

Definition Base_URL : string := "https://v2.doc2x.noedgeai.com/api".

Definition MB : Z := 1024 * 1024.

Definition bearer (apikey : string) : string * string :=
  ("Authorization", "Bearer " ++ apikey).

(** [str(b).lower()] *)
Definition str_lower_bool (b : bool) : string :=
  if b then "true" else "false".

Fixpoint has_slash (s : string) : bool :=
  match s with
  | EmptyString => false
  | String c s' => if Ascii.eqb c "/" then true else has_slash s'
  end.

(** [os.path.basename]: what follows the last slash. *)
Fixpoint basename (s : string) : string :=
  match s with
  | EmptyString => EmptyString
  | String _ s' => if has_slash s then basename s' else s
  end.

(** A byte that continues a character of more than one byte in UTF-8: its
    two high bits are 1 and 0. *)
Definition is_continuation (c : ascii) : bool :=
  match c with
  | Ascii _ _ _ _ _ _ b6 b7 => (b7 && negb b6)%bool
  end.

(** [s[:n]]: the first [n] characters of a text.  A text is the string of
    its UTF-8 bytes, so the cut takes whole characters: a byte that starts a
    character counts, the bytes that continue it go with it. *)
Fixpoint take_chars (n : nat) (s : string) : string :=
  match s with
  | EmptyString => EmptyString
  | String c s' =>
      if is_continuation c then String c (take_chars n s')
      else match n with
           | O => EmptyString
           | S n' => String c (take_chars n' s')
           end
  end.


(** [json.loads(res.content.decode("utf-8"))] and [res.json()] *)
Definition json_loads (res : response) : result json :=
  match json_body res with
  | Some j => Ok j
  | None => Err JSONDecodeError
  end.

(** A value used where [httpx] wants a [str]. *)
Definition as_str (v : json) : result string :=
  match v with
  | JStr s => Ok s
  | _ => Err TypeError
  end.

(** [v == "literal"] *)
Definition eq_str (v : json) (s : string) : bool := is_str s v.

(** [x in [a, b, ...]] for strings *)
Definition in_strs (x : string) (l : list string) : bool :=
  existsb (String.eqb x) l.

(** ** [re.sub] for the two patterns of [decode_data] *)

Definition backslash : ascii := "\"%char.

Definition is_paren (c : ascii) : bool :=
  (Ascii.eqb c "(" || Ascii.eqb c ")")%bool.

Definition is_bracket (c : ascii) : bool :=
  (Ascii.eqb c "[" || Ascii.eqb c "]")%bool.

(** [re.sub] with a pattern "backslash, then one character of a class" and a
    literal replacement: a scan from the left; at a backslash followed by a
    character of the class the replacement is emitted and both characters
    are skipped, otherwise the character is copied.  A text is the string
    of its UTF-8 bytes; the characters of both patterns are ASCII, which no
    byte of a longer UTF-8 sequence can be. *)
Fixpoint re_sub_escaped (cls : ascii -> bool) (repl : string) (s : string) : string :=
  match s with
  | EmptyString => EmptyString
  | String c s' =>
      if Ascii.eqb c backslash then
        match s' with
        | String d s'' =>
            if cls d then repl ++ re_sub_escaped cls repl s''
            else String c (re_sub_escaped cls repl s')
        | EmptyString => String c EmptyString
        end
      else String c (re_sub_escaped cls repl s')
  end.

(** [re.sub(pattern, repl, text)] on a Python value: [TypeError] unless the
    value is a string. *)
Definition re_sub (cls : ascii -> bool) (repl : string) (v : json) : result json :=
  match v with
  | JStr s => Ok (JStr (re_sub_escaped cls repl s))
  | _ => Err TypeError
  end.

(** The two substitutions of the escape flag, in the order of the source. *)
Definition escape_to_dollar (s : string) : string :=
  re_sub_escaped is_bracket "$$" (re_sub_escaped is_paren "$" s).

(** ** Doc2X/ConvertV2.py *)

Section ConvertV2.
Context `{Collaborators}.

(** [await code_check(...)] *)
Definition check (c : code_arg) : M unit :=
  match code_check c with
  | None => ret tt
  | Some e => raise e
  end.

(** [with open(pdffile, "rb") as f: file = f.read()] inside the [try] that
    turns every failure into a [FileError]. *)
Definition read_file (path : string) : M string :=
  fun w => match file_content w path with
           | Some bytes => (Ok bytes, log (EvOpen path) w)
           | None =>
               (Err (FileError ("Open file error! " ++ exn_str (OSError path))),
                log (EvOpen path) w)
           end.

(** [open(pdffile, "rb")] inside the same [try]: the handle stands for the
    path it was opened on. *)
Definition open_file (path : string) : M string :=
  fun w => match file_content w path with
           | Some _ => (Ok path, log (EvOpen path) w)
           | None =>
               (Err (FileError ("Open file error! " ++ exn_str (OSError path))),
                log (EvOpen path) w)
           end.

Definition parse_pdf_url : string := Base_URL ++ "/v2/parse/pdf".

Definition preupload_url : string := Base_URL ++ "/v2/parse/preupload".

Definition upload_error (res : response) : exn :=
  PyException ("Upload file error! " ++ py_str (JNum (status_code res)) ++ ":" ++ text res).

(** The body of [upload_pdf_big], without its decorator. *)
Definition upload_pdf_big_body (apikey pdffile : string) (ocr : bool) : M json :=
  size <- os_path_getsize pdffile ;;
  if size <? 100 * 1024 * 1024 then
    raise (FileError "PDF file size should be bigger than 100MB!")
  else
    file <- open_file pdffile ;;
    let url := preupload_url in
    let filename := take_chars 20 (basename pdffile) in
    post_res <- send (mkRequest POST url [] [bearer apikey]
                        (JsonBody (JObj [("file_name", JStr filename); ("ocr", JBool ocr)]))) ;;
    if status_code post_res =? 200 then
      response_data <- lift (json_loads post_res) ;;
      code <- lift (get response_data "code" response_data) ;;
      check (CodeValue code) ;;
      upload_data <- lift (getitem response_data "data") ;;
      upload_url <- lift (getitem upload_data "url") ;;
      form <- lift (getitem upload_data "form") ;;
      uid <- lift (getitem form "x-amz-meta-uid") ;;
      target <- lift (as_str upload_url) ;;
      s3_res <- send (mkRequest POST target [] [] (Multipart form file)) ;;
      if status_code s3_res =? 204 then ret uid
      else raise (RequestError (text s3_res))
    else if status_code post_res =? 400 then
      raise (RequestError (text post_res))
    else raise (upload_error post_res).

Definition upload_pdf_big (apikey pdffile : string) (ocr : bool) : M json :=
  async_retry policy (upload_pdf_big_body apikey pdffile ocr).

(** The body of [upload_pdf], without its decorator.  The statements after
    the [raise] of the first branch are kept where the source has them. *)
Definition upload_pdf_body (apikey pdffile : string) (ocr : bool) : M json :=
  let url := parse_pdf_url in
  size <- os_path_getsize pdffile ;;
  if 300 * 1024 * 1024 <=? size then
    warning "Now not support PDF file > 300MB!" ;;
    (raise (RequestError "parse_file_too_large") : M unit) ;;
    warning "File size is too large, will auto switch to S3 file upload way, this may take a while" ;;
    upload_pdf_big apikey pdffile ocr
  else
    file <- read_file pdffile ;;
    post_res <- send (mkRequest POST url [("ocr", str_lower_bool ocr)]
                        [bearer apikey; ("Content-Type", "application/pdf")]
                        (Content file)) ;;
    if status_code post_res =? 200 then
      response_data <- lift (json_loads post_res) ;;
      code <- lift (get response_data "code" response_data) ;;
      check (CodeValue code) ;;
      data <- lift (getitem response_data "data") ;;
      lift (getitem data "uid")
    else if status_code post_res =? 429 then raise RateLimit
    else if status_code post_res =? 400 then raise (RequestError (text post_res))
    else raise (upload_error post_res).

Definition upload_pdf (apikey pdffile : string) (ocr : bool) : M json :=
  async_retry policy (upload_pdf_body apikey pdffile ocr).

(** One page of [decode_data]'s loop: the text appended to [texts] and the
    record appended to [locations]. *)
Definition decode_page (convert : bool) (page : json) : result (json * json) :=
  match get page "md" (JStr "") with
  | Err e => Err e
  | Ok text =>
      match (if convert then
               match re_sub is_paren "$" text with
               | Ok t => re_sub is_bracket "$$" t
               | Err e => Err e
               end
             else Ok text) with
      | Err e => Err e
      | Ok text' =>
          match get page "url" (JStr ""), get page "page_idx" (JNum 0),
                get page "page_width" (JNum 0), get page "page_height" (JNum 0) with
          | Ok u, Ok i, Ok pw, Ok ph =>
              Ok (text',
                  JObj [("url", u); ("page_idx", i); ("page_width", pw); ("page_height", ph)])
          | Err e, _, _, _ => Err e
          | _, Err e, _, _ => Err e
          | _, _, Err e, _ => Err e
          | _, _, _, Err e => Err e
          end
      end
  end.

(** The [for] loop of [decode_data], with the two lists it appends to. *)
Fixpoint decode_pages (convert : bool) (pages texts locations : list json)
  : result (list json * list json) :=
  match pages with
  | [] => Ok (texts, locations)
  | page :: rest =>
      match decode_page convert page with
      | Err e => Err e
      | Ok (text, location) =>
          decode_pages convert rest (texts ++ [text]) (locations ++ [location])
      end
  end.

Definition decode_data (data : json) (convert : bool) : M (list json * list json) :=
  let texts : list json := [] in
  let locations : list json := [] in
  no_result <- lift (match contains "result" data with
                     | Ok b => Ok (negb b)
                     | Err e => Err e
                     end) ;;
  no_pages <- (if no_result then ret true
               else result_ <- lift (getitem data "result") ;;
                    lift (match contains "pages" result_ with
                          | Ok b => Ok (negb b)
                          | Err e => Err e
                          end)) ;;
  if no_pages then
    warning "Although parsed successfully, the content is empty!" ;;
    ret ([], [])
  else
    result_ <- lift (getitem data "result") ;;
    pages <- lift (getitem result_ "pages") ;;
    items <- lift (iter pages) ;;
    lift (decode_pages convert items texts locations).

Definition status_url (uid : string) : string :=
  Base_URL ++ "/v2/parse/status?uid=" ++ uid.

(** [data.get("code", response_data)] of [uid_status]: the default is the
    response object, not the decoded body. *)
Definition get_code (data : json) (res : response) : result code_arg :=
  match data with
  | JObj items =>
      match lookup "code" items with
      | Some v => Ok (CodeValue v)
      | None => Ok (CodeResponse res)
      end
  | _ => Err AttributeError
  end.

(** The body of [uid_status], without its decorator.  The snapshot is
    (progress, status, texts, locations). *)
Definition uid_status_body (apikey uid : string) (convert : bool)
  : M (json * json * list json * list json) :=
  let url := status_url uid in
  response_data <- send (mkRequest GET url [] [bearer apikey] NoBody) ;;
  if negb (status_code response_data =? 200) then
    raise (PyException ("Get status error! " ++ py_str (JNum (status_code response_data))
                          ++ ":" ++ text response_data))
  else
    data <- (match json_loads response_data with
             | Ok j => ret j
             | Err e =>
                 raise (PyException ("Get status error with " ++ exn_str e ++ "! "
                                       ++ py_str (JNum (status_code response_data))
                                       ++ ":" ++ text response_data))
             end) ;;
    code <- lift (get_code data response_data) ;;
    check code ;;
    inner <- lift (getitem data "data") ;;
    progress <- lift (get inner "progress" (JNum 0)) ;;
    inner' <- lift (getitem data "data") ;;
    status <- lift (get inner' "status" (JStr "")) ;;
    if eq_str status "processing" then
      ret (progress, JStr "Processing file", [], [])
    else if eq_str status "success" then
      inner'' <- lift (getitem data "data") ;;
      decoded <- decode_data inner'' convert ;;
      ret (JNum 100, JStr "Success", fst decoded, snd decoded)
    else if eq_str status "failed" then
      raise (RequestError ("Failed to deal with file! " ++ text response_data))
    else
      warning ("Unknown status: " ++ py_str status) ;;
      ret (progress, status, [], []).

Definition uid_status (apikey uid : string) (convert : bool)
  : M (json * json * list json * list json) :=
  async_retry policy (uid_status_body apikey uid convert).

Definition convert_url : string := Base_URL ++ "/api/v2/convert/parse".

Definition convert_result_url : string := Base_URL ++ "/api/v2/convert/parse/result".

(** [if filename and to in ["md", "tex"]]: a filename that is neither
    [None] nor empty. *)
Definition truthy (filename : option string) : bool :=
  match filename with
  | Some EmptyString => false
  | Some _ => true
  | None => false
  end.

Definition convert_payload (uid to : string) (filename : option string) : json :=
  let payload := [("uid", JStr uid); ("to", JStr to)] in
  match filename with
  | Some name =>
      if (truthy filename && in_strs to ["md"; "tex"])%bool
      then JObj (payload ++ [("filename", JStr name)])
      else JObj payload
  | None => JObj payload
  end.

(** The body of [convert_parse], without its decorator: the status label and
    the artifact location. *)
Definition convert_parse_body (apikey uid to : string) (filename : option string)
  : M (string * json) :=
  let url := convert_url in
  if negb (in_strs to ["md"; "tex"; "docx"]) then
    raise (ValueError "Invalid export format. Supported formats are: md, tex, docx")
  else
    let payload := convert_payload uid to filename in
    response_data <- send (mkRequest POST url [] [bearer apikey] (JsonBody payload)) ;;
    if negb (status_code response_data =? 200) then
      raise (PyException ("Conversion request failed: "
                            ++ py_str (JNum (status_code response_data))
                            ++ ":" ++ text response_data))
    else
      data <- lift (json_loads response_data) ;;
      inner <- lift (getitem data "data") ;;
      status <- lift (getitem inner "status") ;;
      inner' <- lift (getitem data "data") ;;
      url <- lift (get inner' "url" (JStr "")) ;;
      if eq_str status "processing" then ret ("Processing", JStr "")
      else if eq_str status "success" then ret ("Success", url)
      else raise (RequestError ("Conversion uid " ++ uid ++ " file failed: " ++ py_str data)).

Definition convert_parse (apikey uid to : string) (filename : option string)
  : M (string * json) :=
  async_retry policy (convert_parse_body apikey uid to filename).

(** The body of [get_convert_result], without its decorator. *)
Definition get_convert_result_body (apikey uid : string) : M (string * json) :=
  let url := convert_result_url in
  let params := [("uid", uid)] in
  response_ <- send (mkRequest GET url params [bearer apikey] NoBody) ;;
  if negb (status_code response_ =? 200) then
    raise (PyException ("Get conversion result failed: "
                          ++ py_str (JNum (status_code response_))
                          ++ ":" ++ text response_))
  else
    data <- lift (json_loads response_) ;;
    inner <- lift (getitem data "data") ;;
    status <- lift (getitem inner "status") ;;
    inner' <- lift (getitem data "data") ;;
    url <- lift (get inner' "url" (JStr "")) ;;
    if eq_str status "processing" then ret ("Processing", JStr "")
    else if eq_str status "success" then ret ("Success", url)
    else raise (RequestError ("Get conversion result for uid " ++ uid
                                ++ " failed: " ++ py_str data)).

Definition get_convert_result (apikey uid : string) : M (string * json) :=
  async_retry policy (get_convert_result_body apikey uid).

End ConvertV2.

(** ** doc2x.py: the legacy synchronous client, export path *)

Section Legacy.
Context `{Collaborators}.

Definition Legacy_Base_URL : string := "https://api.doc2x.noedgeai.com/api".

(** [s.endswith(suffix)] *)
Fixpoint endswith (s suffix : string) : bool :=
  if (s =? suffix)%string then true
  else match s with
       | EmptyString => false
       | String _ s' => endswith s' suffix
       end.

Definition get_limit (api_key : string) : M json :=
  let url := Legacy_Base_URL ++ "/platform/limit" in
  get_res <- send (mkRequest GET url [] [bearer api_key] NoBody) ;;
  if status_code get_res =? 200 then
    body <- lift (json_loads get_res) ;;
    data <- lift (getitem body "data") ;;
    lift (getitem data "remain")
  else
    raise (RuntimeError ("Get limit failed, status code: "
                           ++ py_str (JNum (status_code get_res)) ++ ":" ++ text get_res)).

(** [un_zip]: every failure of the extraction or of the removal becomes a
    [RuntimeError]. *)
Definition un_zip (zip_path : string) : M string :=
  let folder_name := fst (os_path_splitext (basename zip_path)) in
  let extract_path := os_path_join (os_path_dirname zip_path) folder_name in
  fun w =>
    match (local (EvExtract zip_path extract_path) zip_path ;;
           local (EvRemove zip_path) zip_path) w with
    | (Ok _, w') => (Ok extract_path, w')
    | (Err e, w') => (Err (RuntimeError ("Unzip failed: " ++ exn_str e)), w')
    end.

(** [uuid2file].  Python's call stack is the only limit of the recursion on
    a rate-limit response: [depth] is the number of frames left, and running
    out of them is Python's [RecursionError]. *)
Fixpoint uuid2file (depth : nat) (api_key uuid output_format : string)
  (output_path : option string) : M string :=
  match depth with
  | O => raise RecursionError
  | S depth' =>
      let url := Legacy_Base_URL ++ "/export?request_id=" ++ uuid ++ "&to=" ++ output_format in
      let output_format := if (output_format =? "docx")%string then output_format else "zip" in
      get_res <- send (mkRequest GET url [] [bearer api_key] NoBody) ;;
      if status_code get_res =? 200 then
        let output_path :=
          match output_path with
          | None =>
              let path := getcwd in
              os_path_join (os_path_join path "doc2xoutput") (uuid ++ "." ++ output_format)
          | Some given =>
              if negb (endswith given output_format)
              then os_path_join given (uuid ++ "." ++ output_format)
              else given
          end in
        local (EvMakedirs (os_path_dirname output_path)) output_path ;;
        local (EvWrite output_path (text get_res)) output_path ;;
        output_path <- (if (output_format =? "zip")%string then un_zip output_path
                        else ret output_path) ;;
        remaining <- get_limit api_key ;;
        print ("Doc2x remaining page limit: " ++ py_str remaining) ;;
        ret output_path
      else if status_code get_res =? 429 then
        print "Too many requests, wait for 20s and try again" ;;
        sleep 10 ;;
        print "10s left" ;;
        sleep 10 ;;
        temp <- uuid2file depth' api_key uuid output_format output_path ;;
        ret temp
      else
        raise (RuntimeError ("Uuid2file failed, status code: "
                               ++ py_str (JNum (status_code get_res)) ++ ":" ++ text get_res))
  end.

End Legacy.

(** ** Observations on a trace *)

Definition is_sleep (e : event) : bool :=
  match e with EvSleep _ => true | _ => false end.

(** The backoff delays slept so far: one per retry of a wrapped operation
    that does not sleep itself. *)
Definition sleeps (tr : list event) : nat :=
  List.length (filter is_sleep tr).

Definition is_call_to (url : string) (e : event) : bool :=
  match e with
  | EvNet r => (req_url r =? url)%string
  | _ => false
  end.

(** The round trips made to one endpoint. *)
Definition calls_to (url : string) (tr : list event) : nat :=
  List.length (filter (is_call_to url) tr).

(** The request of the direct path. *)
Definition direct_request (apikey : string) (ocr : bool) (bytes : string) : request :=
  mkRequest POST parse_pdf_url [("ocr", str_lower_bool ocr)]
    [bearer apikey; ("Content-Type", "application/pdf")] (Content bytes).

(** The text of a page given as a dict: its "md" entry when that is a
    string, the empty string when the entry is absent. *)
Definition page_md (page : list (string * json)) : option string :=
  match lookup "md" page with
  | None => Some ""
  | Some (JStr s) => Some s
  | Some _ => None
  end.

Definition entry (page : list (string * json)) (k : string) (default : json) : json :=
  match lookup k page with
  | Some v => v
  | None => default
  end.

(** The record that [decode_data] appends to [locations] for a page. *)
Definition page_location (page : list (string * json)) : json :=
  JObj [("url", entry page "url" (JStr ""));
        ("page_idx", entry page "page_idx" (JNum 0));
        ("page_width", entry page "page_width" (JNum 0));
        ("page_height", entry page "page_height" (JNum 0))].

(** An occurrence of a backslash followed by a character of the class. *)
Fixpoint has_escaped (cls : ascii -> bool) (s : string) : bool :=
  match s with
  | EmptyString => false
  | String c s' =>
      match s' with
      | String d _ => ((Ascii.eqb c backslash && cls d) || has_escaped cls s')%bool
      | EmptyString => false
      end
  end.

(** The request of one status poll. *)
Definition status_request (apikey uid : string) : request :=
  mkRequest GET (status_url uid) [] [bearer apikey] NoBody.

(** What [uid_status] hands to [code_check] for a decoded envelope. *)
Definition envelope_code (data : list (string * json)) (res : response) : code_arg :=
  match lookup "code" data with
  | Some v => CodeValue v
  | None => CodeResponse res
  end.

(** The request of [convert_parse]. *)
Definition convert_request (apikey uid to : string) (filename : option string) : request :=
  mkRequest POST convert_url [] [bearer apikey] (JsonBody (convert_payload uid to filename)).

(** The request of [get_convert_result]. *)
Definition convert_result_request (apikey uid : string) : request :=
  mkRequest GET convert_result_url [("uid", uid)] [bearer apikey] NoBody.

(** The error of [convert_parse] on an unsupported format. *)
Definition invalid_format : exn :=
  ValueError "Invalid export format. Supported formats are: md, tex, docx".

(** The facts about the world that one attempt of the direct path relies
    on and leaves as they are, with the calls counted so far. *)
Definition direct_only (pdffile : string) (size : Z) (bytes : string)
    (staged others direct : nat) (w : World) : Prop :=
  getsize w pdffile = Some size
  /\ file_content w pdffile = Some bytes
  /\ calls_to preupload_url (trace w) = staged
  /\ (net_calls (trace w) = others + calls_to parse_pdf_url (trace w))%nat
  /\ (direct <= calls_to parse_pdf_url (trace w))%nat.

(** A service that answers 429 to every round trip. *)
Definition answers_429 (w : World) : Prop :=
  forall k r, exists res, net w k r = Replied res /\ status_code res = 429.

(** A readable file of a known size and a service that answers 429 to every
    round trip. *)
Definition rate_limited (pdffile : string) (size : Z) (bytes : string) (w : World) : Prop :=
  getsize w pdffile = Some size
  /\ file_content w pdffile = Some bytes
  /\ answers_429 w.

(** The request of [uuid2file]. *)
Definition export_request (api_key uuid output_format : string) : request :=
  mkRequest GET (Legacy_Base_URL ++ "/export?request_id=" ++ uuid ++ "&to=" ++ output_format)
    [] [bearer api_key] NoBody.

(** The world of [uuid2file] after an answer 429, when it calls itself. *)
Definition after_rate_limit (r : request) (w : World) : World :=
  log (EvSleep 10) (log (EvPrint "10s left") (log (EvSleep 10)
    (log (EvPrint "Too many requests, wait for 20s and try again") (log (EvNet r) w)))).

(** ** A concrete client and concrete services, for the examples *)

Definition sample_code_check (c : code_arg) : option exn :=
  match c with
  | CodeValue (JStr s) =>
      if in_strs s ["ok"; "success"] then None
      else if in_strs s ["parse_page_limit_exceeded"; "parse_concurrency_limit"]
           then Some RateLimit
           else Some (RequestError s)
  | _ => Some (PyException "Unknown error code")
  end.

Definition sample_str (v : json) : string :=
  match v with
  | JStr s => s
  | JNum 200 => "200"
  | JNum 429 => "429"
  | JNum _ => "<int>"
  | JNull => "None"
  | JBool true => "True"
  | JBool false => "False"
  | JArr _ => "[...]"
  | JObj _ => "{...}"
  end.

Definition sample_join (a b : string) : string := a ++ "/" ++ b.

Definition sample_policy : RetryPolicy := mkPolicy 2 (fun attempt => 2 ^ Z.of_nat attempt) false.

Definition sample_client : Collaborators := {|
  code_check := sample_code_check;
  py_str := sample_str;
  exn_str := fun _ => "<exception>";
  getcwd := "/home/user";
  os_path_join := sample_join;
  os_path_dirname := fun p => p;
  os_path_splitext := fun p => (p, "");
  policy := sample_policy
|}.

(** A world with one file, [doc.pdf], of the given size, and a service. *)
Definition sample_world (size : Z) (service : nat -> request -> reply) : World :=
  mkWorld (fun path => if (path =? "doc.pdf")%string then Some size else None)
          (fun path => if (path =? "doc.pdf")%string then Some "%PDF-1.7" else None)
          (fun _ => true)
          service
          [].

Definition envelope (data : list (string * json)) : json :=
  JObj [("code", JStr "success"); ("data", JObj data)].

Definition ok_response (body : json) : response := mkResponse 200 "{...}" (Some body).

Definition too_many : response := mkResponse 429 "Too Many Requests" None.

(** Every round trip is answered 200 with the given body. *)
Definition answers (body : json) : nat -> request -> reply :=
  fun _ _ => Replied (ok_response body).

(** Every round trip is answered 429. *)
Definition always_429 : nat -> request -> reply :=
  fun _ _ => Replied too_many.

(** The first round trip is answered 429, the later ones 200 with a uid. *)
Definition limited_once : nat -> request -> reply :=
  fun k _ => match k with
             | O => Replied too_many
             | S _ => Replied (ok_response (envelope [("uid", JStr "u-1")]))
             end.

(** The pre-upload is accepted, the object storage answers 429. *)
Definition storage_limited : nat -> request -> reply :=
  fun k _ => match k with
             | O => Replied (ok_response
                       (envelope [("url", JStr "https://oss.example/bucket");
                                  ("form", JObj [("x-amz-meta-uid", JStr "u-2")])]))
             | S _ => Replied too_many
             end.

(** ** Requests and worlds for the further properties *)

(** The first request of the staged path: the file name is the base name
    of the path, cut to twenty characters. *)
Definition preupload_request (apikey pdffile : string) (ocr : bool) : request :=
  mkRequest POST preupload_url [] [bearer apikey]
    (JsonBody (JObj [("file_name", JStr (take_chars 20 (basename pdffile)));
                     ("ocr", JBool ocr)])).

(** The second request of the staged path, to the destination the
    pre-upload returned. *)
Definition storage_request (target : string) (form : json) (file : string) : request :=
  mkRequest POST target [] [] (Multipart form file).

(** What the upload functions hand to [code_check] for a decoded body. *)
Definition body_code (data : list (string * json)) : code_arg :=
  CodeValue (entry data "code" (JObj data)).

(** A world whose file [doc.pdf] has a size but cannot be opened. *)
Definition locked_world (size : Z) (service : nat -> request -> reply) : World :=
  mkWorld (fun path => if (path =? "doc.pdf")%string then Some size else None)
          (fun _ => None)
          (fun _ => true)
          service
          [].

(** Every round trip is answered with the given response. *)
Definition replies (res : response) : nat -> request -> reply :=
  fun _ _ => Replied res.

(** The pre-upload is accepted and the object storage answers 204. *)
Definition storage_accepts : nat -> request -> reply :=
  fun k _ => match k with
             | O => Replied (ok_response
                       (envelope [("url", JStr "https://oss.example/bucket");
                                  ("form", JObj [("x-amz-meta-uid", JStr "u-2")])]))
             | S _ => Replied (mkResponse 204 "" None)
             end.

(** Whether a text starts with a character of the class. *)
Definition head_cls (cls : ascii -> bool) (s : string) : bool :=
  match s with
  | String c _ => cls c
  | EmptyString => false
  end.

(** The network events of a trace, in order. *)
Definition round_trips (tr : list event) : list request :=
  flat_map (fun e => match e with EvNet r => [r] | _ => [] end) tr.

(** ** doc2x.py: the rest of the legacy client *)

(** Python's truth value of a value. *)
Definition truth (v : json) : bool :=
  match v with
  | JNull => false
  | JBool b => b
  | JNum n => negb (n =? 0)
  | JStr s => negb (s =? "")%string
  | JArr items => match items with [] => false | _ => true end
  | JObj items => match items with [] => false | _ => true end
  end.

(** ["true" if flag else "false"] *)
Definition flag_text (flag : json) : string :=
  if truth flag then "true" else "false".

Definition newline : ascii := ascii_of_nat 10.

(** [s.split("\n")] *)
Fixpoint split_lines (s : string) : list string :=
  match s with
  | EmptyString => [EmptyString]
  | String c s' =>
      if Ascii.eqb c newline then EmptyString :: split_lines s'
      else match split_lines s' with
           | line :: lines => String c line :: lines
           | [] => [String c EmptyString]
           end
  end.

(** [s[n:]] *)
Fixpoint drop (n : nat) (s : string) : string :=
  match n, s with
  | O, _ => s
  | S n', String _ s' => drop n' s'
  | S _, EmptyString => EmptyString
  end.

(** [event["data"]["pages"][0]["md"]] inside the [try] whose [except]
    passes: the text of the first page when every step succeeds and the
    text is a string, nothing otherwise. *)
Definition first_page_md (event : json) : option string :=
  match getitem event "data" with
  | Ok data =>
      match getitem data "pages" with
      | Ok (JArr (page :: _)) =>
          match getitem page "md" with
          | Ok (JStr s) => Some s
          | _ => None
          end
      | _ => None
      end
  | Err _ => None
  end.

(** The loop that adds the texts of the events up. *)
Fixpoint join_texts (events : list json) (text : string) : string :=
  match events with
  | [] => text
  | event :: rest =>
      match first_page_md event with
      | Some s => join_texts rest (text ++ s)
      | None => join_texts rest text
      end
  end.

(** A value inside an f-string: a string as it is, anything else through
    [str]. *)
Definition format_value `{Collaborators} (v : json) : string :=
  match v with
  | JStr s => s
  | _ => py_str v
  end.

Section LegacyClient.
Context `{Collaborators}.

(** [json.loads] on one line of a streamed answer, and the [IndexError] of
    Python's list indexing. *)
Variable loads : string -> option json.
Variable index_error : exn.

Definition refresh_key (personal_key : string) : M json :=
  let url := Legacy_Base_URL ++ "/token/refresh" in
  get_res <- send (mkRequest POST url [] [bearer personal_key] NoBody) ;;
  if status_code get_res =? 200 then
    body <- lift (json_loads get_res) ;;
    data <- lift (getitem body "data") ;;
    lift (getitem data "token")
  else
    raise (RuntimeError ("Refresh key failed, status code: "
                           ++ py_str (JNum (status_code get_res)) ++ ":" ++ text get_res)).

(** [open(path, "rb")] outside any [try]. *)
Definition open_rb (path : string) : M string :=
  fun w => match file_content w path with
           | Some _ => (Ok path, log (EvOpen path) w)
           | None => (Err (OSError path), log (EvOpen path) w)
           end.

(** The loop over the lines of a streamed answer: the lines that start
    with "data:" are decoded from their seventh character on. *)
Fixpoint parse_lines (lines : list string) (text_json : list json) : result (list json) :=
  match lines with
  | [] => Ok text_json
  | line :: rest =>
      if (0 <? String.length line)%nat then
        if prefixb "data:" line then
          match loads (drop (String.length "data: ") line) with
          | Some v => parse_lines rest (text_json ++ [v])
          | None => Err JSONDecodeError
          end
        else parse_lines rest text_json
      else parse_lines rest text_json
  end.

(** The request of [pdf2file] and [pic2file]: the file and one form field. *)
Definition platform_request (endpoint field api_key file flag : string) : request :=
  mkRequest POST (Legacy_Base_URL ++ endpoint) [] [bearer api_key]
    (Multipart (JObj [(field, JStr flag)]) file).

(** The common text of [pic2file] and [pdf2file], which differ in the
    endpoint, in the name of the form field and in the message of the
    failure.  [flag] is the caller's [ocr] or [img_correction]: a boolean at
    first, the text it was turned into when the function calls itself. *)
Fixpoint platform2file (endpoint field failed : string) (depth : nat)
    (api_key file : string) (output_path : option string) (output_format : string)
    (flag : json) : M string :=
  match depth with
  | O => raise RecursionError
  | S depth' =>
      let flag := flag_text flag in
      handle <- open_rb file ;;
      get_res <- send (platform_request endpoint field api_key handle flag) ;;
      if status_code get_res =? 200 then
        text_json <- lift (parse_lines (split_lines (text get_res)) []) ;;
        first <- (match text_json with
                  | [] => raise index_error
                  | first :: _ => ret first
                  end) ;;
        uuid <- lift (getitem first "uuid") ;;
        let text := join_texts text_json "" in
        if (output_format =? "text")%string then
          remaining <- get_limit api_key ;;
          print ("Doc2x remaining page limit: " ++ py_str remaining) ;;
          ret text
        else if negb (in_strs output_format ["md"; "latex"; "docx"; "md_dollar"]) then
          raise (ValueError
                   "output_format should be one of 'text', 'md', 'latex', 'docx', 'md_dollar'")
        else
          fun w =>
            match uuid2file depth' api_key (format_value uuid) output_format output_path w with
            | (Ok path, w') => (Ok path, w')
            | (Err e, w') =>
                (Err (RuntimeError ("Deal with uuid: " ++ String newline " "
                                      ++ format_value uuid ++ " " ++ String newline " failed: "
                                      ++ exn_str e)), w')
            end
      else if status_code get_res =? 429 then
        print "Too many requests, wait for 20s and try again" ;;
        sleep 10 ;;
        print "10s left" ;;
        sleep 10 ;;
        temp <- platform2file endpoint field failed depth' api_key file output_path
                  output_format (JStr flag) ;;
        ret temp
      else
        raise (RuntimeError (failed ++ py_str (JNum (status_code get_res))
                               ++ ":" ++ text get_res))
  end.

Definition pic2file (depth : nat) (api_key image_file : string)
    (output_path : option string) (output_format : string) (img_correction : json)
  : M string :=
  platform2file "/platform/img" "img_correction" "Pic2file failed, status code: "
    depth api_key image_file output_path output_format img_correction.

Definition pdf2file (depth : nat) (api_key pdf_file : string)
    (output_path : option string) (output_format : string) (ocr : json) : M string :=
  platform2file "/platform/pdf" "ocr" "Pdf2file failed, status code: "
    depth api_key pdf_file output_path output_format ocr.

End LegacyClient.

(** A computation only adds events to the trace. *)
Definition grows {A} (m : M A) : Prop :=
  forall w, exists evs, trace (snd (m w)) = (trace w ++ evs)%list.

(** The output format that [uuid2file] works with: "docx" as it is,
    anything else as "zip". *)
Definition archive_format (output_format : string) : string :=
  if (output_format =? "docx")%string then output_format else "zip".

(** Where [uuid2file] writes the answer. *)
Definition export_target `{Collaborators} (uuid saved_as : string)
    (output_path : option string) : string :=
  match output_path with
  | None => os_path_join (os_path_join getcwd "doc2xoutput") (uuid ++ "." ++ saved_as)
  | Some given =>
      if negb (endswith given saved_as)
      then os_path_join given (uuid ++ "." ++ saved_as)
      else given
  end.

(** Where [un_zip] extracts an archive. *)
Definition extract_path `{Collaborators} (zip_path : string) : string :=
  os_path_join (os_path_dirname zip_path) (fst (os_path_splitext (basename zip_path))).

(** The request of [get_limit]. *)
Definition limit_request (api_key : string) : request :=
  mkRequest GET (Legacy_Base_URL ++ "/platform/limit") [] [bearer api_key] NoBody.

(** ** FileTools/extract_img.py: what [mds_replace_imgs] reports *)

(** The [replace] argument: a string, a callable, or anything else. *)
Inductive replace_arg : Type :=
| ReplaceText (s : string)
| ReplaceCallable
| ReplaceOther.

(** The test on [replace] that both functions start with. *)
Definition replace_accepted (replace : replace_arg) : bool :=
  match replace with
  | ReplaceText s => (s =? "local")%string
  | ReplaceCallable => true
  | ReplaceOther => false
  end.

Section ReplaceImages.
Context `{Collaborators}.

(** The loop over the finished tasks of [mds_replace_imgs], in the order in
    which [as_completed] yields them: each task is a markdown file with the
    exception [process_mdfile] caught for it, if any. *)
Fixpoint collect_finished (finished : list (string * option exn))
    (success_files : list string) (fail_files : list json) (Fail_flag : bool)
  : M (list string * list json * bool) :=
  match finished with
  | [] => ret (success_files, fail_files, Fail_flag)
  | (mdfile, Some error) :: rest =>
      let Fail_flag := false in
      let fail_files :=
        (fail_files ++ [JObj [("error", JStr (exn_str error)); ("path", JStr mdfile)]])%list in
      print ("Error to process the markdown file: " ++ mdfile ++ ", " ++ exn_str error) ;;
      print "Continue to process the next markdown file." ;;
      collect_finished rest success_files fail_files Fail_flag
  | (mdfile, None) :: rest =>
      collect_finished rest (success_files ++ [mdfile])%list fail_files Fail_flag
  end.

(** [mds_replace_imgs], given the markdown files that [gen_folder_list]
    found and the tasks as they finish.  The tasks run [md_replace_imgs] in
    the pool; what they print themselves is not recorded here. *)
Definition mds_replace_imgs (replace : replace_arg) (mdfiles : list string)
    (finished : list (string * option exn)) : M (list string * list json * bool) :=
  if negb (replace_accepted replace) then
    raise (ValueError "The replace must be 'local' or a function.")
  else
    if (List.length mdfiles =? 0)%nat then
      print "No markdown file found in the path." ;;
      ret ([], [], true)
    else
      collected <- collect_finished finished [] [] true ;;
      let '(success_files, fail_files, Fail_flag) := collected in
      print (String newline "[MARKDOWN REPLACE] Successfully processed "
               ++ py_str (JNum (Z.of_nat (List.length success_files))) ++ "/"
               ++ py_str (JNum (Z.of_nat (List.length mdfiles))) ++ " markdown files.") ;;
      if negb Fail_flag then
        print "Some markdown files process failed." ;;
        ret (success_files, fail_files, true)
      else ret (success_files, fail_files, false).

End ReplaceImages.

(** The tasks that failed and the tasks that did not. *)
Definition task_failed (task : string * option exn) : bool :=
  match snd task with Some _ => true | None => false end.

(** ** Concrete answers for the legacy client *)

Definition limit_response : response :=
  ok_response (JObj [("data", JObj [("remain", JNum 42)])]).

(** The export is answered with a file, the limit query with a number. *)
Definition export_then_limit : nat -> request -> reply :=
  fun k _ => match k with
             | O => Replied (mkResponse 200 "PK-archive" None)
             | S _ => Replied limit_response
             end.

(** The lines of a streamed answer: two events, a blank line and a comment. *)
Definition sample_stream : string :=
  "data: EVENT-1" ++ String newline "" ++ String newline ": keep-alive"
    ++ String newline "data: EVENT-2".

Definition sample_events : list json :=
  [JObj [("uuid", JStr "u-9");
         ("data", JObj [("pages", JArr [JObj [("md", JStr "Hello, ")]])])];
   JObj [("data", JObj [("pages", JArr [JObj [("md", JStr "world")]])])]].

Definition sample_loads (line : string) : option json :=
  if (line =? "EVENT-1")%string then Some (nth 0 sample_events JNull)
  else if (line =? "EVENT-2")%string then Some (nth 1 sample_events JNull)
  else None.

(** The conversion is answered with the stream, the limit query with a
    number. *)
Definition stream_then_limit : nat -> request -> reply :=
  fun k _ => match k with
             | O => Replied (mkResponse 200 sample_stream None)
             | S _ => Replied limit_response
             end.

Definition sample_index_error : exn := PyException "list index out of range".

(** The export is answered with a file, the limit query with 429. *)
Definition export_then_limited : nat -> request -> reply :=
  fun k _ => match k with
             | O => Replied (mkResponse 200 "PK-archive" None)
             | S _ => Replied too_many
             end.

(** * Properties *)

(** ** The retry loop *)

Section RetryLoop.
Context {A : Type} (p : RetryPolicy) (op : M A).

Lemma retry_loop_unfold (left attempt : nat) (w : World) :
  retry_loop p left attempt op w =
  match op w with
  | (Ok a, w') => (Ok a, w')
  | (Err e, w') =>
      if retryable p e then
        match left with
        | O => (Err (RetryExhausted e), w')
        | S left' =>
            retry_loop p left' (S attempt) op (log (EvSleep (backoff p attempt)) w')
        end
      else (Err e, w')
  end.
Proof. destruct left; reflexivity. Qed.

Lemma async_retry_returns (w w' : World) (a : A) :
  op w = (Ok a, w') -> async_retry p op w = (Ok a, w').
Proof.
  intros Hop. unfold async_retry. rewrite retry_loop_unfold, Hop. reflexivity.
Qed.

Lemma async_retry_surfaces (w w' : World) (e : exn) :
  op w = (Err e, w') -> retryable p e = false -> async_retry p op w = (Err e, w').
Proof.
  intros Hop He. unfold async_retry. rewrite retry_loop_unfold, Hop, He. reflexivity.
Qed.

(** A loop whose every attempt fails returns no value. *)
Lemma retry_loop_fails (Inv : World -> Prop) :
  (forall w, Inv w -> exists e w', op w = (Err e, w') /\ Inv w') ->
  (forall w d, Inv w -> Inv (log (EvSleep d) w)) ->
  forall left attempt w, Inv w ->
    exists e w', retry_loop p left attempt op w = (Err e, w').
Proof.
  intros Hop Hsleep left.
  induction left as [|left IH]; intros attempt w Hw;
    rewrite retry_loop_unfold;
    destruct (Hop w Hw) as (e & w' & Hrun & Hw'); rewrite Hrun;
    destruct (retryable p e); eauto.
Qed.

(** An invariant of the world kept by every attempt and by the backoff is
    kept by the whole loop. *)
Lemma retry_loop_invariant (Inv : World -> Prop) :
  (forall w, Inv w -> Inv (snd (op w))) ->
  (forall w d, Inv w -> Inv (log (EvSleep d) w)) ->
  forall left attempt w, Inv w -> Inv (snd (retry_loop p left attempt op w)).
Proof.
  intros Hop Hsleep left.
  induction left as [|left IH]; intros attempt w Hw;
    rewrite retry_loop_unfold; specialize (Hop w Hw);
    destruct (op w) as [[a|e] w']; simpl in *; auto;
    destruct (retryable p e); simpl; auto.
Qed.

End RetryLoop.

Lemma permanent_not_retryable (p : RetryPolicy) (e : exn) :
  permanent e = true -> retryable p e = false.
Proof. destruct e; simpl; congruence. Qed.

(** ** Traces *)

Lemma trace_log (e : event) (w : World) : trace (log e w) = (trace w ++ [e])%list.
Proof. reflexivity. Qed.

Lemma sleeps_app (t1 t2 : list event) : sleeps (t1 ++ t2)%list = (sleeps t1 + sleeps t2)%nat.
Proof. unfold sleeps. rewrite filter_app, length_app. reflexivity. Qed.

Lemma net_calls_app (t1 t2 : list event) :
  net_calls (t1 ++ t2)%list = (net_calls t1 + net_calls t2)%nat.
Proof. unfold net_calls. rewrite filter_app, length_app. reflexivity. Qed.

Lemma calls_to_app (url : string) (t1 t2 : list event) :
  calls_to url (t1 ++ t2)%list = (calls_to url t1 + calls_to url t2)%nat.
Proof. unfold calls_to. rewrite filter_app, length_app. reflexivity. Qed.

Lemma sleeps_cons (e : event) (t : list event) :
  sleeps (e :: t) = ((if is_sleep e then 1 else 0) + sleeps t)%nat.
Proof. unfold sleeps. simpl. destruct (is_sleep e); reflexivity. Qed.

Lemma net_calls_cons (e : event) (t : list event) :
  net_calls (e :: t) = ((if is_net e then 1 else 0) + net_calls t)%nat.
Proof. unfold net_calls. simpl. destruct (is_net e); reflexivity. Qed.

Lemma calls_to_cons (url : string) (e : event) (t : list event) :
  calls_to url (e :: t) = ((if is_call_to url e then 1 else 0) + calls_to url t)%nat.
Proof. unfold calls_to. simpl. destruct (is_call_to url e); reflexivity. Qed.

Lemma sleeps_nil : sleeps [] = 0%nat.
Proof. reflexivity. Qed.

Lemma net_calls_nil : net_calls [] = 0%nat.
Proof. reflexivity. Qed.

Lemma calls_to_nil (url : string) : calls_to url [] = 0%nat.
Proof. reflexivity. Qed.

(** Counting the events of a trace that ends in a known list of events. *)
Ltac count_events :=
  rewrite ?trace_log;
  rewrite ?sleeps_app, ?net_calls_app, ?calls_to_app;
  rewrite ?sleeps_cons, ?net_calls_cons, ?calls_to_cons;
  rewrite ?sleeps_nil, ?net_calls_nil, ?calls_to_nil;
  cbn [is_sleep is_net is_call_to req_url].

(** ** The upload functions *)

Section Upload.
Context `{Collaborators}.

(** C10: the staged uploader rejects a file below 100 MB with a
    [FileError] before it opens the file or sends anything: the world,
    and so the trace, is the one it started from; the decorated function
    surfaces the same error at once. *)
Theorem upload_pdf_big_lower_bound (apikey pdffile : string) (ocr : bool)
    (w : World) (size : Z) :
  getsize w pdffile = Some size ->
  size < 100 * MB ->
  upload_pdf_big_body apikey pdffile ocr w
    = (Err (FileError "PDF file size should be bigger than 100MB!"), w)
  /\ upload_pdf_big apikey pdffile ocr w
    = (Err (FileError "PDF file size should be bigger than 100MB!"), w).
Proof.
  intros Hsize Hlt.
  assert (Hbody : upload_pdf_big_body apikey pdffile ocr w
                  = (Err (FileError "PDF file size should be bigger than 100MB!"), w)).
  { unfold upload_pdf_big_body, bind, os_path_getsize. rewrite Hsize.
    replace (size <? 100 * 1024 * 1024) with true; [reflexivity|].
    symmetry. apply Z.ltb_lt. unfold MB in Hlt. lia. }
  split; [exact Hbody|].
  unfold upload_pdf_big. apply async_retry_surfaces; [exact Hbody | reflexivity].
Qed.

(** C2, where the code departs from it: a file of 300 MB or more makes
    [upload_pdf] fail at once, after the warning alone: no round trip is
    made, no backoff is slept, and the staged uploader that follows the
    [raise] in the source is never entered.  But what it raises is not the
    input error that the docstring of [upload_pdf] names ([FileError]): it
    is [RequestError "parse_file_too_large"], the class and the value that
    the same function raises when the service answers 400 with that text
    for a file below the ceiling, so a caller cannot tell the local
    rejection from a remote one. *)
Theorem upload_pdf_ceiling (apikey pdffile : string) (ocr : bool)
    (w : World) (size : Z) :
  getsize w pdffile = Some size ->
  300 * MB <= size ->
  upload_pdf apikey pdffile ocr w
    = (Err (RequestError "parse_file_too_large"),
       log (EvWarn "Now not support PDF file > 300MB!") w)
  /\ input_error (RequestError "parse_file_too_large") = false
  /\ (forall msg, fst (upload_pdf apikey pdffile ocr w) <> Err (FileError msg))
  /\ (forall w2 size2 bytes res,
        getsize w2 pdffile = Some size2 ->
        size2 < 300 * MB ->
        file_content w2 pdffile = Some bytes ->
        net w2 (net_calls (trace w2)) (direct_request apikey ocr bytes) = Replied res ->
        status_code res = 400 ->
        text res = "parse_file_too_large" ->
        fst (upload_pdf apikey pdffile ocr w2) = fst (upload_pdf apikey pdffile ocr w))
  /\ permanent (RequestError "parse_file_too_large") = true
  /\ retryable policy (RequestError "parse_file_too_large") = false
  /\ net_calls (trace (snd (upload_pdf apikey pdffile ocr w))) = net_calls (trace w)
  /\ calls_to preupload_url (trace (snd (upload_pdf apikey pdffile ocr w)))
     = calls_to preupload_url (trace w).
Proof.
  intros Hsize Hge.
  assert (Hrun : upload_pdf apikey pdffile ocr w
                 = (Err (RequestError "parse_file_too_large"),
                    log (EvWarn "Now not support PDF file > 300MB!") w)).
  { unfold upload_pdf. apply async_retry_surfaces; [|reflexivity].
    unfold upload_pdf_body, bind, os_path_getsize. rewrite Hsize.
    replace (300 * 1024 * 1024 <=? size) with true; [reflexivity|].
    symmetry. apply Z.leb_le. unfold MB in Hge. lia. }
  rewrite Hrun. simpl fst. simpl snd.
  split; [reflexivity|]. split; [reflexivity|]. split; [discriminate|].
  split; [|repeat split; count_events; lia].
  intros w2 size2 bytes res Hsize2 Hlt Hbytes Hnet Hcode Htext.
  unfold upload_pdf.
  rewrite (async_retry_surfaces policy (upload_pdf_body apikey pdffile ocr) w2
             (log (EvNet (direct_request apikey ocr bytes)) (log (EvOpen pdffile) w2))
             (RequestError "parse_file_too_large")); [reflexivity| |reflexivity].
  unfold upload_pdf_body, bind, os_path_getsize. rewrite Hsize2.
  replace (300 * 1024 * 1024 <=? size2) with false
    by (symmetry; apply Z.leb_gt; unfold MB in Hlt; lia).
  unfold read_file. rewrite Hbytes.
  unfold send. fold (direct_request apikey ocr bytes).
  change (net (log (EvOpen pdffile) w2)) with (net w2).
  replace (net_calls (trace (log (EvOpen pdffile) w2))) with (net_calls (trace w2))
    by (count_events; simpl; lia).
  rewrite Hnet, Hcode, Htext. reflexivity.
Qed.

Lemma direct_request_is_direct (apikey : string) (ocr : bool) (bytes : string) :
  (req_url (direct_request apikey ocr bytes) =? parse_pdf_url)%string = true.
Proof. apply String.eqb_refl. Qed.

Lemma direct_request_not_staged (apikey : string) (ocr : bool) (bytes : string) :
  (req_url (direct_request apikey ocr bytes) =? preupload_url)%string = false.
Proof. reflexivity. Qed.

(** Below the ceiling, one attempt of [upload_pdf] on a readable file opens
    the file and makes the round trip of the direct path, whatever the
    service answers. *)
Lemma upload_pdf_body_direct (apikey pdffile : string) (ocr : bool)
    (w : World) (size : Z) (bytes : string) :
  getsize w pdffile = Some size ->
  size < 300 * MB ->
  file_content w pdffile = Some bytes ->
  exists r,
    upload_pdf_body apikey pdffile ocr w
    = (r, log (EvNet (direct_request apikey ocr bytes)) (log (EvOpen pdffile) w)).
Proof.
  intros Hsize Hlt Hbytes.
  unfold upload_pdf_body, bind, os_path_getsize. rewrite Hsize.
  replace (300 * 1024 * 1024 <=? size) with false
    by (symmetry; apply Z.leb_gt; unfold MB in Hlt; lia).
  unfold read_file. rewrite Hbytes.
  unfold send. fold (direct_request apikey ocr bytes).
  destruct (net _ _ _) as [post_res|e]; [|eexists; reflexivity].
  unfold lift, check, raise, ret.
  repeat (cbn beta iota;
          match goal with
          | |- context [if ?c then _ else _] => destruct c
          | |- context [match ?x with Ok _ => _ | Err _ => _ end] => destruct x
          | |- context [match ?x with Some _ => _ | None => _ end] => destruct x
          end);
    eexists; reflexivity.
Qed.

Lemma direct_only_attempt (apikey pdffile : string) (ocr : bool) (size : Z)
    (bytes : string) (staged others direct : nat) (w : World) :
  size < 300 * MB ->
  direct_only pdffile size bytes staged others direct w ->
  direct_only pdffile size bytes staged others (S direct)
    (snd (upload_pdf_body apikey pdffile ocr w)).
Proof.
  intros Hlt (Hsize & Hbytes & Hstaged & Hothers & Hdirect).
  destruct (upload_pdf_body_direct apikey pdffile ocr w size bytes Hsize Hlt Hbytes)
    as [r Hrun].
  rewrite Hrun. unfold direct_only. simpl snd.
  repeat split; try assumption.
  - count_events. rewrite direct_request_not_staged. lia.
  - count_events. rewrite direct_request_is_direct. lia.
  - count_events. rewrite direct_request_is_direct. lia.
Qed.

Lemma direct_only_sleep (pdffile : string) (size : Z) (bytes : string)
    (staged others direct : nat) (w : World) (d : Z) :
  direct_only pdffile size bytes staged others direct w ->
  direct_only pdffile size bytes staged others direct (log (EvSleep d) w).
Proof.
  intros (Hsize & Hbytes & Hstaged & Hothers & Hdirect).
  unfold direct_only. repeat split; try assumption; count_events; lia.
Qed.

Lemma direct_only_weaken (pdffile : string) (size : Z) (bytes : string)
    (staged others direct : nat) (w : World) :
  direct_only pdffile size bytes staged others (S direct) w ->
  direct_only pdffile size bytes staged others direct w.
Proof.
  intros (Hsize & Hbytes & Hstaged & Hothers & Hdirect).
  unfold direct_only. repeat split; try assumption. lia.
Qed.

(** C1, as the code has it: below the 300 MB ceiling, at or above 100 MB as
    well as below it, every attempt of [upload_pdf] on a readable file opens
    the file and makes exactly one round trip, to the parse endpoint of the
    direct path; over the whole decorated run at least one such call is
    made, every call made is a direct one, and none goes to the pre-upload
    endpoint of the staged path. *)
Theorem upload_pdf_direct_below_ceiling (apikey pdffile : string) (ocr : bool)
    (w : World) (size : Z) (bytes : string) :
  getsize w pdffile = Some size ->
  size < 300 * MB ->
  file_content w pdffile = Some bytes ->
  (exists r,
     upload_pdf_body apikey pdffile ocr w
     = (r, log (EvNet (direct_request apikey ocr bytes)) (log (EvOpen pdffile) w)))
  /\ calls_to preupload_url (trace (snd (upload_pdf apikey pdffile ocr w)))
     = calls_to preupload_url (trace w)
  /\ (1 + calls_to parse_pdf_url (trace w)
      <= calls_to parse_pdf_url (trace (snd (upload_pdf apikey pdffile ocr w))))%nat
  /\ (net_calls (trace (snd (upload_pdf apikey pdffile ocr w))) - net_calls (trace w)
      = calls_to parse_pdf_url (trace (snd (upload_pdf apikey pdffile ocr w)))
        - calls_to parse_pdf_url (trace w))%nat.
Proof.
  intros Hsize Hlt Hbytes.
  split; [eapply upload_pdf_body_direct; eassumption|].
  set (direct := calls_to parse_pdf_url (trace w)).
  set (others := (net_calls (trace w) - direct)%nat).
  assert (Hle : (direct <= net_calls (trace w))%nat).
  { unfold direct, calls_to, net_calls. clear.
    induction (trace w) as [|e t IH]; simpl; [lia|].
    destruct e; simpl; try lia. destruct (req_url r =? parse_pdf_url)%string; simpl; lia. }
  assert (Hstart : direct_only pdffile size bytes
                     (calls_to preupload_url (trace w)) others direct w).
  { unfold direct_only. repeat split; try assumption; unfold others; fold direct; lia. }
  assert (Hend : direct_only pdffile size bytes
                   (calls_to preupload_url (trace w)) others (S direct)
                   (snd (upload_pdf apikey pdffile ocr w))).
  { unfold upload_pdf, async_retry. rewrite retry_loop_unfold.
    pose proof (direct_only_attempt apikey pdffile ocr size bytes _ _ _ w Hlt Hstart)
      as Hfirst.
    destruct (upload_pdf_body apikey pdffile ocr w) as [[uid|e] w1]; simpl in Hfirst;
      [exact Hfirst|].
    destruct (retryable policy e); [|exact Hfirst].
    destruct (max_retries policy) as [|left']; [exact Hfirst|].
    apply retry_loop_invariant.
    - intros w2 Hw2. apply direct_only_weaken.
      apply direct_only_attempt; [exact Hlt | exact Hw2].
    - intros w2 d Hw2. apply direct_only_sleep. exact Hw2.
    - apply direct_only_sleep. exact Hfirst. }
  destruct Hend as (_ & _ & Hstaged & Hothers & Hdirect).
  repeat split; [exact Hstaged | fold direct; lia | fold direct; unfold others in Hothers; lia].
Qed.

End Upload.

(** C1, as the claim states it, fails at a readable file of exactly 100 MB:
    [upload_pdf] makes one call to the parse endpoint of the direct path and
    none to the pre-upload endpoint of the staged path. *)
Lemma upload_pdf_100MB_goes_direct :
  let w := sample_world (100 * MB) (answers (envelope [("uid", JStr "u-1")])) in
  let run := @upload_pdf sample_client "key" "doc.pdf" true w in
  getsize w "doc.pdf" = Some (100 * MB)
  /\ 100 * MB <= 100 * MB < 300 * MB
  /\ fst run = Ok (JStr "u-1")
  /\ calls_to preupload_url (trace (snd run)) = 0%nat
  /\ calls_to parse_pdf_url (trace (snd run)) = 1%nat
  /\ ~ (calls_to preupload_url (trace (snd run)) = 1%nat
        /\ calls_to parse_pdf_url (trace (snd run)) = 0%nat).
Proof.
  cbv zeta. repeat split; try reflexivity; try (vm_compute; congruence).
  intros [Hstaged _]. vm_compute in Hstaged. discriminate.
Qed.

(** The staged uploader on a file of 5 MB, the direct uploader on files of
    300 MB and of 150 MB. *)
Lemma upload_pdf_big_lower_bound_witness :
  let w := sample_world (5 * MB) always_429 in
  @upload_pdf_big sample_client "key" "doc.pdf" true w
  = (Err (FileError "PDF file size should be bigger than 100MB!"), w).
Proof.
  cbv zeta.
  apply (@upload_pdf_big_lower_bound sample_client "key" "doc.pdf" true
           (sample_world (5 * MB) always_429) (5 * MB)).
  - reflexivity.
  - vm_compute. reflexivity.
Defined.

Lemma upload_pdf_ceiling_witness :
  let w := sample_world (300 * MB) always_429 in
  let remote :=
    sample_world (5 * MB) (replies (mkResponse 400 "parse_file_too_large" None)) in
  @upload_pdf sample_client "key" "doc.pdf" true w
  = (Err (RequestError "parse_file_too_large"),
     log (EvWarn "Now not support PDF file > 300MB!") w)
  /\ input_error (RequestError "parse_file_too_large") = false
  /\ fst (@upload_pdf sample_client "key" "doc.pdf" true remote)
     = fst (@upload_pdf sample_client "key" "doc.pdf" true w)
  /\ net_calls (trace (snd (@upload_pdf sample_client "key" "doc.pdf" true w)))
     = net_calls (trace w).
Proof.
  cbv zeta.
  destruct (@upload_pdf_ceiling sample_client "key" "doc.pdf" true
              (sample_world (300 * MB) always_429) (300 * MB))
    as (Hrun & Hinput & _ & Hremote & _ & _ & Hcalls & _).
  - reflexivity.
  - vm_compute. discriminate.
  - split; [exact Hrun|]. split; [exact Hinput|]. split; [|exact Hcalls].
    apply (Hremote
             (sample_world (5 * MB) (replies (mkResponse 400 "parse_file_too_large" None)))
             (5 * MB) "%PDF-1.7" (mkResponse 400 "parse_file_too_large" None));
      reflexivity.
Defined.

Lemma upload_pdf_direct_below_ceiling_witness :
  let w := sample_world (150 * MB) (answers (envelope [("uid", JStr "u-1")])) in
  calls_to preupload_url (trace (snd (@upload_pdf sample_client "key" "doc.pdf" true w)))
  = calls_to preupload_url (trace w).
Proof.
  cbv zeta.
  apply (@upload_pdf_direct_below_ceiling sample_client "key" "doc.pdf" true
           (sample_world (150 * MB) (answers (envelope [("uid", JStr "u-1")])))
           (150 * MB) "%PDF-1.7").
  - reflexivity.
  - vm_compute. reflexivity.
  - reflexivity.
Defined.

(** ** The result decoder *)

Lemma string_app_assoc (a b c : string) : (a ++ b) ++ c = a ++ b ++ c.
Proof. induction a as [|x a IH]; simpl; [reflexivity | rewrite IH; reflexivity]. Qed.

Lemma string_app_nil_r (a : string) : a ++ "" = a.
Proof. induction a as [|x a IH]; simpl; [reflexivity | rewrite IH; reflexivity]. Qed.

(** Induction on a string two characters at a time, as the scan of
    [re_sub_escaped] consumes it. *)
Lemma string_pair_ind (P : string -> Prop) :
  P "" ->
  (forall c, P (String c "")) ->
  (forall c d s, P s -> P (String d s) -> P (String c (String d s))) ->
  forall s, P s.
Proof.
  intros Hnil Hone Htwo s.
  assert (Hboth : P s /\ forall c, P (String c s)).
  { induction s as [|d s [IHs IHc]]; split; auto. }
  apply Hboth.
Qed.

Section Scan.
Variables (cls : ascii -> bool) (repl : string).
Hypothesis cls_backslash : cls backslash = false.

Lemma re_sub_escaped_one (c : ascii) :
  re_sub_escaped cls repl (String c "") = String c "".
Proof. simpl. destruct (Ascii.eqb c backslash); reflexivity. Qed.

Lemma re_sub_escaped_two (c d : ascii) (s : string) :
  re_sub_escaped cls repl (String c (String d s))
  = if (Ascii.eqb c backslash && cls d)%bool
    then repl ++ re_sub_escaped cls repl s
    else String c (re_sub_escaped cls repl (String d s)).
Proof.
  change (re_sub_escaped cls repl (String c (String d s)))
    with (if Ascii.eqb c backslash
          then if cls d then repl ++ re_sub_escaped cls repl s
               else String c (re_sub_escaped cls repl (String d s))
          else String c (re_sub_escaped cls repl (String d s))).
  destruct (Ascii.eqb c backslash), (cls d); reflexivity.
Qed.

(** The scan of a concatenation is the concatenation of the scans when the
    right part does not start with a character of the class: no match can
    span the cut. *)
Lemma re_sub_escaped_app (a : string) (r : ascii) (rest : string) :
  cls r = false ->
  re_sub_escaped cls repl (a ++ String r rest)
  = re_sub_escaped cls repl a ++ re_sub_escaped cls repl (String r rest).
Proof.
  intros Hr. induction a as [|c|c d a IHa IHda] using string_pair_ind.
  - reflexivity.
  - change (String c "" ++ String r rest) with (String c (String r rest)).
    rewrite re_sub_escaped_two, re_sub_escaped_one, Hr, andb_false_r. reflexivity.
  - change (String c (String d a) ++ String r rest)
      with (String c (String d (a ++ String r rest))).
    rewrite !(re_sub_escaped_two c d).
    destruct (Ascii.eqb c backslash && cls d)%bool.
    + rewrite IHa. rewrite string_app_assoc. reflexivity.
    + change (String d (a ++ String r rest)) with (String d a ++ String r rest).
      rewrite IHda. reflexivity.
Qed.

(** A text without an occurrence is left as it is. *)
Lemma re_sub_escaped_none (s : string) :
  has_escaped cls s = false -> re_sub_escaped cls repl s = s.
Proof.
  induction s as [|c|c d s IHs IHds] using string_pair_ind; intros Hnone.
  - reflexivity.
  - apply re_sub_escaped_one.
  - change (has_escaped cls (String c (String d s)))
      with ((Ascii.eqb c backslash && cls d) || has_escaped cls (String d s))%bool
      in Hnone.
    apply orb_false_iff in Hnone. destruct Hnone as [Hhere Hlater].
    rewrite re_sub_escaped_two, Hhere. f_equal. apply IHds. exact Hlater.
Qed.

End Scan.

Lemma re_sub_escaped_plain (cls : ascii -> bool) (repl : string) (c : ascii) (s : string) :
  Ascii.eqb c backslash = false ->
  re_sub_escaped cls repl (String c s) = String c (re_sub_escaped cls repl s).
Proof. intros Hc. simpl. rewrite Hc. reflexivity. Qed.

(** An escaped parenthesis anywhere in a text becomes one dollar sign, and
    what stands before and after it is rewritten on its own. *)
Lemma escape_to_dollar_paren (d : ascii) (a b : string) :
  is_paren d = true ->
  escape_to_dollar (a ++ String backslash (String d b))
  = escape_to_dollar a ++ "$" ++ escape_to_dollar b.
Proof.
  intros Hd. unfold escape_to_dollar.
  rewrite (re_sub_escaped_app is_paren "$" a backslash) by reflexivity.
  rewrite re_sub_escaped_two, Hd.
  change (Ascii.eqb backslash backslash && true)%bool with true. cbn iota.
  change ("$" ++ re_sub_escaped is_paren "$" b)
    with (String "$" (re_sub_escaped is_paren "$" b)).
  rewrite (re_sub_escaped_app is_bracket "$$" _ "$") by reflexivity.
  rewrite re_sub_escaped_plain by reflexivity. reflexivity.
Qed.

(** An escaped bracket anywhere in a text becomes two dollar signs. *)
Lemma escape_to_dollar_bracket (d : ascii) (a b : string) :
  is_bracket d = true ->
  escape_to_dollar (a ++ String backslash (String d b))
  = escape_to_dollar a ++ "$$" ++ escape_to_dollar b.
Proof.
  intros Hd. unfold escape_to_dollar.
  assert (Hparen : is_paren d = false).
  { unfold is_bracket in Hd. apply orb_true_iff in Hd.
    destruct Hd as [Hd|Hd]; apply Ascii.eqb_eq in Hd; subst d; reflexivity. }
  assert (Hplain : Ascii.eqb d backslash = false).
  { unfold is_bracket in Hd. apply orb_true_iff in Hd.
    destruct Hd as [Hd|Hd]; apply Ascii.eqb_eq in Hd; subst d; reflexivity. }
  rewrite (re_sub_escaped_app is_paren "$" a backslash) by reflexivity.
  rewrite re_sub_escaped_two, Hparen, andb_false_r.
  rewrite (re_sub_escaped_plain is_paren "$" d) by exact Hplain.
  rewrite (re_sub_escaped_app is_bracket "$$" _ backslash) by reflexivity.
  rewrite re_sub_escaped_two, Hd.
  change (Ascii.eqb backslash backslash && true)%bool with true. reflexivity.
Qed.

Section Decode.
Context `{Collaborators}.

Lemma get_entry (page : list (string * json)) (k : string) (default : json) :
  get (JObj page) k default = Ok (entry page k default).
Proof. unfold get, entry. destruct (lookup k page); reflexivity. Qed.

(** One page that is a dict with a string for its text. *)
Lemma decode_page_text (convert : bool) (page : list (string * json)) (s : string) :
  page_md page = Some s ->
  decode_page convert (JObj page)
  = Ok (JStr (if convert then escape_to_dollar s else s), page_location page).
Proof.
  intros Hmd. unfold decode_page. rewrite !get_entry.
  assert (Htext : entry page "md" (JStr "") = JStr s).
  { unfold page_md in Hmd. unfold entry.
    destruct (lookup "md" page) as [[| | |t| |]|]; inversion Hmd; reflexivity. }
  rewrite Htext. destruct convert; reflexivity.
Qed.

Lemma decode_pages_texts (convert : bool) (pages : list (list (string * json))) :
  forall (mds : list string) (texts locations : list json),
  map page_md pages = map Some mds ->
  decode_pages convert (map JObj pages) texts locations
  = Ok ((texts ++ map (fun s => JStr (if convert then escape_to_dollar s else s)) mds)%list,
        (locations ++ map page_location pages)%list).
Proof.
  induction pages as [|page pages IH]; intros mds texts locations Hmds.
  - destruct mds; [|discriminate]. simpl. rewrite !app_nil_r. reflexivity.
  - destruct mds as [|s mds]; [discriminate|].
    simpl in Hmds. injection Hmds as Hmd Hrest.
    cbn [map decode_pages]. rewrite (decode_page_text convert page s Hmd).
    rewrite (IH mds _ _ Hrest). rewrite <- !app_assoc. reflexivity.
Qed.

(** C5: on a response whose pages are dicts with a string (or nothing) for
    their text, [decode_data] returns one text per page, in order: with the
    flag set, the page text rewritten by [escape_to_dollar]; without it,
    the page text as it is.  [escape_to_dollar] turns every escaped
    parenthesis into one dollar sign and every escaped bracket into two,
    wherever they stand, and leaves a text without them unchanged. *)
Theorem decode_data_escape (data result_ : list (string * json))
    (pages : list (list (string * json))) (mds : list string)
    (convert : bool) (w : World) :
  lookup "result" data = Some (JObj result_) ->
  lookup "pages" result_ = Some (JArr (map JObj pages)) ->
  map page_md pages = map Some mds ->
  decode_data (JObj data) convert w
  = (Ok (map (fun s => JStr (if convert then escape_to_dollar s else s)) mds,
         map page_location pages), w)
  /\ (forall a b, escape_to_dollar (a ++ "\(" ++ b)
                  = escape_to_dollar a ++ "$" ++ escape_to_dollar b)
  /\ (forall a b, escape_to_dollar (a ++ "\)" ++ b)
                  = escape_to_dollar a ++ "$" ++ escape_to_dollar b)
  /\ (forall a b, escape_to_dollar (a ++ "\[" ++ b)
                  = escape_to_dollar a ++ "$$" ++ escape_to_dollar b)
  /\ (forall a b, escape_to_dollar (a ++ "\]" ++ b)
                  = escape_to_dollar a ++ "$$" ++ escape_to_dollar b)
  /\ (forall s, has_escaped is_paren s = false -> has_escaped is_bracket s = false ->
                escape_to_dollar s = s).
Proof.
  intros Hresult Hpages Hmds.
  split; [|repeat split].
  - unfold decode_data, bind, lift, contains, getitem, iter, ret.
    rewrite Hresult. cbn beta iota. cbn [negb]. cbn beta iota.
    rewrite Hpages. cbn beta iota. cbn [negb]. cbn beta iota.
    rewrite (decode_pages_texts convert pages mds [] [] Hmds). reflexivity.
  - intros a b. apply (escape_to_dollar_paren "(" a b). reflexivity.
  - intros a b. apply (escape_to_dollar_paren ")" a b). reflexivity.
  - intros a b. apply (escape_to_dollar_bracket "[" a b). reflexivity.
  - intros a b. apply (escape_to_dollar_bracket "]" a b). reflexivity.
  - intros s Hparen Hbracket. unfold escape_to_dollar.
    rewrite (re_sub_escaped_none is_paren "$" s Hparen).
    apply re_sub_escaped_none. exact Hbracket.
Qed.

(** A "result" that is [null] is not a container: the test
    ["pages" not in data["result"]] raises on it, before any warning. *)
Lemma decode_data_null_result (data : list (string * json)) (convert : bool) (w : World) :
  lookup "result" data = Some JNull ->
  decode_data (JObj data) convert w = (Err TypeError, w).
Proof.
  intros Hresult. unfold decode_data, bind, lift, contains, getitem, ret.
  rewrite Hresult. reflexivity.
Qed.

(** C6, where the code departs from it: a response whose "result" is
    [null] has no pages, and [decode_data] raises [TypeError] on it at the
    test ["pages" not in data["result"]] instead of returning two empty
    lists. *)
Theorem decode_data_null_result_raises (convert : bool) (w : World) :
  decode_data (JObj [("result", JNull)]) convert w = (Err TypeError, w).
Proof. reflexivity. Qed.

(** Where the guard of [decode_data] does apply: no "result" key, or a
    "result" dict without a "pages" key, gives two empty lists and the
    warning. *)
Lemma decode_data_no_pages (data : list (string * json)) (convert : bool) (w : World) :
  lookup "result" data = None
  \/ (exists result_, lookup "result" data = Some (JObj result_)
                      /\ lookup "pages" result_ = None) ->
  decode_data (JObj data) convert w
  = (Ok ([], []), log (EvWarn "Although parsed successfully, the content is empty!") w).
Proof.
  intros [Hnone | (result_ & Hresult & Hpages)];
    unfold decode_data, bind, lift, contains, getitem, ret, warning.
  - rewrite Hnone. reflexivity.
  - rewrite Hresult. cbn beta iota. cbn [negb]. cbn beta iota.
    rewrite Hpages. reflexivity.
Qed.

End Decode.

Lemma decode_data_escape_witness :
  decode_data
    (JObj [("status", JStr "success");
           ("result", JObj [("pages", JArr (map JObj
              [[("md", JStr "Let \(x\) be \[x^2\]"); ("page_idx", JNum 0)];
               [("url", JStr "https://cdn.example/p1")]]))])])
    true (sample_world 1 always_429)
  = (Ok ([JStr "Let $x$ be $$x^2$$"; JStr ""],
         map page_location
           [[("md", JStr "Let \(x\) be \[x^2\]"); ("page_idx", JNum 0)];
            [("url", JStr "https://cdn.example/p1")]]),
     sample_world 1 always_429).
Proof.
  apply (decode_data_escape
           [("status", JStr "success");
            ("result", JObj [("pages", JArr (map JObj
               [[("md", JStr "Let \(x\) be \[x^2\]"); ("page_idx", JNum 0)];
                [("url", JStr "https://cdn.example/p1")]]))])]
           [("pages", JArr (map JObj
               [[("md", JStr "Let \(x\) be \[x^2\]"); ("page_idx", JNum 0)];
                [("url", JStr "https://cdn.example/p1")]]))]
           [[("md", JStr "Let \(x\) be \[x^2\]"); ("page_idx", JNum 0)];
            [("url", JStr "https://cdn.example/p1")]]
           ["Let \(x\) be \[x^2\]"; ""]
           true (sample_world 1 always_429)); reflexivity.
Defined.

(** ** The status poller *)

Section Status.
Context `{Collaborators}.

Lemma get_code_envelope (data : list (string * json)) (res : response) :
  get_code (JObj data) res = Ok (envelope_code data res).
Proof. unfold get_code, envelope_code. destruct (lookup "code" data); reflexivity. Qed.

(** One attempt of the poller on an answer 200 with an accepted envelope
    whose state is "success": after the round trip it runs [decode_data] on
    the embedded data and returns progress 100 and the label "Success" with
    the decoder's two lists, whatever "progress" the envelope carries; it
    raises what the decoder raises. *)
Lemma uid_status_body_success (apikey uid : string) (convert : bool) (w : World)
    (res : response) (data inner : list (string * json)) :
  net w (net_calls (trace w)) (status_request apikey uid) = Replied res ->
  status_code res = 200 ->
  json_body res = Some (JObj data) ->
  code_check (envelope_code data res) = None ->
  lookup "data" data = Some (JObj inner) ->
  lookup "status" inner = Some (JStr "success") ->
  uid_status_body apikey uid convert w
  = (match decode_data (JObj inner) convert (log (EvNet (status_request apikey uid)) w) with
     | (Ok (texts, locations), w') => (Ok (JNum 100, JStr "Success", texts, locations), w')
     | (Err e, w') => (Err e, w')
     end).
Proof.
  intros Hnet Hcode Hjson Hcheck Hdata Hstatus.
  unfold uid_status_body, bind, send. fold (status_request apikey uid).
  rewrite Hnet, Hcode. cbn [Z.eqb Pos.eqb negb].
  unfold json_loads, lift, ret, check. rewrite Hjson.
  rewrite get_code_envelope, Hcheck.
  unfold getitem, get. rewrite Hdata, Hstatus.
  cbn beta iota.
  change (eq_str (JStr "success") "processing") with false.
  change (eq_str (JStr "success") "success") with true.
  unfold ret. cbn beta iota.
  destruct (lookup "progress" inner); cbn beta iota;
    destruct (decode_data (JObj inner) convert _) as [[[texts locations]|e] w'];
    reflexivity.
Qed.

(** When the decoder returns, the decorated poller returns the snapshot of
    that attempt: progress 100, "Success" and the decoder's lists. *)
Lemma uid_status_success (apikey uid : string) (convert : bool) (w : World)
    (res : response) (data inner : list (string * json)) :
  net w (net_calls (trace w)) (status_request apikey uid) = Replied res ->
  status_code res = 200 ->
  json_body res = Some (JObj data) ->
  code_check (envelope_code data res) = None ->
  lookup "data" data = Some (JObj inner) ->
  lookup "status" inner = Some (JStr "success") ->
  uid_status_body apikey uid convert w
  = (match decode_data (JObj inner) convert (log (EvNet (status_request apikey uid)) w) with
     | (Ok (texts, locations), w') => (Ok (JNum 100, JStr "Success", texts, locations), w')
     | (Err e, w') => (Err e, w')
     end)
  /\ forall texts locations w',
       decode_data (JObj inner) convert (log (EvNet (status_request apikey uid)) w)
       = (Ok (texts, locations), w') ->
       uid_status apikey uid convert w
       = (Ok (JNum 100, JStr "Success", texts, locations), w').
Proof.
  intros Hnet Hcode Hjson Hcheck Hdata Hstatus.
  pose proof (uid_status_body_success apikey uid convert w res data inner
                Hnet Hcode Hjson Hcheck Hdata Hstatus) as Hbody.
  split; [exact Hbody|].
  intros texts locations w' Hdecode.
  unfold uid_status. apply async_retry_returns. rewrite Hbody, Hdecode. reflexivity.
Qed.

(** C3, where the code departs from it: a poll answered 200 with an
    accepted envelope whose state is "success" and whose "result" is [null]
    does not return progress 100 and "Success".  The attempt calls
    [decode_data] on the embedded data and raises the [TypeError] of its
    test ["pages" not in data["result"]] after the round trip; as long as
    the service gives this answer the decorated poller returns no snapshot,
    whatever the retry policy does with the error, and a policy that does
    not retry it surfaces the [TypeError] after the single round trip. *)
Theorem uid_status_success_null_result (apikey uid : string) (convert : bool)
    (w : World) (res : response) (data inner : list (string * json)) :
  net w (net_calls (trace w)) (status_request apikey uid) = Replied res ->
  status_code res = 200 ->
  json_body res = Some (JObj data) ->
  code_check (envelope_code data res) = None ->
  lookup "data" data = Some (JObj inner) ->
  lookup "status" inner = Some (JStr "success") ->
  lookup "result" inner = Some JNull ->
  uid_status_body apikey uid convert w
  = (Err TypeError, log (EvNet (status_request apikey uid)) w)
  /\ ((forall k, net w k (status_request apikey uid) = Replied res) ->
      forall snapshot w', uid_status apikey uid convert w <> (Ok snapshot, w'))
  /\ (retry_unclassified policy = false ->
      uid_status apikey uid convert w
      = (Err TypeError, log (EvNet (status_request apikey uid)) w)).
Proof.
  intros Hnet Hcode Hjson Hcheck Hdata Hstatus Hresult.
  assert (Hbody : forall w0,
            net w0 (net_calls (trace w0)) (status_request apikey uid) = Replied res ->
            uid_status_body apikey uid convert w0
            = (Err TypeError, log (EvNet (status_request apikey uid)) w0)).
  { intros w0 Hnet0.
    rewrite (uid_status_body_success apikey uid convert w0 res data inner
               Hnet0 Hcode Hjson Hcheck Hdata Hstatus).
    rewrite (decode_data_null_result inner convert _ Hresult). reflexivity. }
  split; [apply Hbody; exact Hnet|]. split.
  - intros Hall snapshot w' Hok.
    destruct (retry_loop_fails policy (uid_status_body apikey uid convert)
                (fun w0 => forall k, net w0 k (status_request apikey uid) = Replied res))
      with (left := max_retries policy) (attempt := 0%nat) (w := w)
      as (e & w1 & Hrun).
    + intros w0 Hw0. exists TypeError, (log (EvNet (status_request apikey uid)) w0).
      split; [apply Hbody, Hw0 | exact Hw0].
    + intros w0 d Hw0. exact Hw0.
    + exact Hall.
    + unfold uid_status, async_retry in Hok. rewrite Hrun in Hok. discriminate.
  - intros Hpolicy. unfold uid_status.
    apply async_retry_surfaces; [apply Hbody; exact Hnet | exact Hpolicy].
Qed.

(** C4: a poll answered 200 with an accepted envelope whose state is
    "failed" raises a [RequestError], which is permanent: the decorated
    poller surfaces it after the single round trip, without a retry and
    without a snapshot. *)
Theorem uid_status_failed (apikey uid : string) (convert : bool) (w : World)
    (res : response) (data inner : list (string * json)) :
  net w (net_calls (trace w)) (status_request apikey uid) = Replied res ->
  status_code res = 200 ->
  json_body res = Some (JObj data) ->
  code_check (envelope_code data res) = None ->
  lookup "data" data = Some (JObj inner) ->
  lookup "status" inner = Some (JStr "failed") ->
  uid_status apikey uid convert w
  = (Err (RequestError ("Failed to deal with file! " ++ text res)),
     log (EvNet (status_request apikey uid)) w)
  /\ retryable policy (RequestError ("Failed to deal with file! " ++ text res)) = false
  /\ forall snapshot w', uid_status apikey uid convert w <> (Ok snapshot, w').
Proof.
  intros Hnet Hcode Hjson Hcheck Hdata Hstatus.
  assert (Hrun : uid_status apikey uid convert w
                 = (Err (RequestError ("Failed to deal with file! " ++ text res)),
                    log (EvNet (status_request apikey uid)) w)).
  { unfold uid_status. apply async_retry_surfaces; [|reflexivity].
    unfold uid_status_body, bind, send. fold (status_request apikey uid).
    rewrite Hnet, Hcode. cbn [Z.eqb Pos.eqb negb].
    unfold json_loads, lift, ret, check. rewrite Hjson.
    rewrite get_code_envelope, Hcheck.
    unfold getitem, get. rewrite Hdata, Hstatus.
    cbn beta iota.
    change (eq_str (JStr "failed") "processing") with false.
    change (eq_str (JStr "failed") "success") with false.
    change (eq_str (JStr "failed") "failed") with true.
    unfold ret, raise. cbn beta iota.
    destruct (lookup "progress" inner); reflexivity. }
  split; [exact Hrun|]. split; [reflexivity|].
  intros snapshot w' Hok. rewrite Hrun in Hok. discriminate.
Qed.

End Status.

Lemma uid_status_success_witness :
  let body := envelope [("status", JStr "success"); ("progress", JNum 37)] in
  let w := sample_world 1 (answers body) in
  @uid_status_body sample_client "key" "u-1" false w
  = (match decode_data
             (JObj [("status", JStr "success"); ("progress", JNum 37)]) false
             (log (EvNet (status_request "key" "u-1")) w) with
     | (Ok (texts, locations), w') => (Ok (JNum 100, JStr "Success", texts, locations), w')
     | (Err e, w') => (Err e, w')
     end).
Proof.
  cbv zeta.
  apply (@uid_status_success sample_client "key" "u-1" false
           (sample_world 1
              (answers (envelope [("status", JStr "success"); ("progress", JNum 37)])))
           (ok_response (envelope [("status", JStr "success"); ("progress", JNum 37)]))
           [("code", JStr "success");
            ("data", JObj [("status", JStr "success"); ("progress", JNum 37)])]
           [("status", JStr "success"); ("progress", JNum 37)]); reflexivity.
Defined.

Lemma uid_status_success_null_result_witness :
  let body := envelope [("status", JStr "success"); ("progress", JNum 100);
                        ("result", JNull)] in
  let w := sample_world 1 (answers body) in
  @uid_status_body sample_client "key" "u-1" false w
  = (Err TypeError, log (EvNet (status_request "key" "u-1")) w)
  /\ @uid_status sample_client "key" "u-1" false w
     = (Err TypeError, log (EvNet (status_request "key" "u-1")) w)
  /\ forall snapshot w', @uid_status sample_client "key" "u-1" false w <> (Ok snapshot, w').
Proof.
  cbv zeta.
  destruct (@uid_status_success_null_result sample_client "key" "u-1" false
              (sample_world 1
                 (answers (envelope [("status", JStr "success"); ("progress", JNum 100);
                                     ("result", JNull)])))
              (ok_response (envelope [("status", JStr "success"); ("progress", JNum 100);
                                      ("result", JNull)]))
              [("code", JStr "success");
               ("data", JObj [("status", JStr "success"); ("progress", JNum 100);
                              ("result", JNull)])]
              [("status", JStr "success"); ("progress", JNum 100); ("result", JNull)])
    as (Hbody & Hnever & Hrun); try reflexivity.
  split; [exact Hbody|]. split; [apply Hrun; reflexivity|].
  apply Hnever. intros k. reflexivity.
Defined.

Lemma uid_status_failed_witness :
  let body := envelope [("status", JStr "failed"); ("progress", JNum 12)] in
  let w := sample_world 1 (answers body) in
  @uid_status sample_client "key" "u-1" false w
  = (Err (RequestError "Failed to deal with file! {...}"),
     log (EvNet (status_request "key" "u-1")) w).
Proof.
  cbv zeta.
  apply (@uid_status_failed sample_client "key" "u-1" false
           (sample_world 1
              (answers (envelope [("status", JStr "failed"); ("progress", JNum 12)])))
           (ok_response (envelope [("status", JStr "failed"); ("progress", JNum 12)]))
           [("code", JStr "success");
            ("data", JObj [("status", JStr "failed"); ("progress", JNum 12)])]
           [("status", JStr "failed"); ("progress", JNum 12)]); reflexivity.
Defined.

(** ** The conversion requester *)

Section Conversion.
Context `{Collaborators}.

(** C7: a target format other than "md", "tex" and "docx" makes
    [convert_parse] raise a [ValueError] in the world it started from: no
    round trip has been made.  The error is permanent, the retry policy
    surfaces it at once, and it is none of the failures a round trip
    produces. *)
Theorem convert_parse_invalid_format (apikey uid to : string)
    (filename : option string) (w : World) :
  to <> "md" -> to <> "tex" -> to <> "docx" ->
  convert_parse apikey uid to filename w = (Err invalid_format, w)
  /\ net_calls (trace (snd (convert_parse apikey uid to filename w))) = net_calls (trace w)
  /\ permanent invalid_format = true
  /\ (forall msg, invalid_format <> TransportError msg)
  /\ (forall msg, invalid_format <> PyException msg)
  /\ (forall msg, invalid_format <> RequestError msg)
  /\ invalid_format <> RateLimit.
Proof.
  intros Hmd Htex Hdocx.
  assert (Hrun : convert_parse apikey uid to filename w = (Err invalid_format, w)).
  { unfold convert_parse. apply async_retry_surfaces; [|reflexivity].
    unfold convert_parse_body, in_strs. cbn [existsb].
    apply String.eqb_neq in Hmd, Htex, Hdocx. rewrite Hmd, Htex, Hdocx.
    reflexivity. }
  rewrite Hrun.
  repeat split; try discriminate; intros; discriminate.
Qed.

(** The three outcomes of [convert_parse] on an answer 200 whose data
    carries a status. *)
Lemma convert_parse_body_outcome (apikey uid to : string) (filename : option string)
    (w : World) (res : response) (data inner : list (string * json)) (status : json) :
  in_strs to ["md"; "tex"; "docx"] = true ->
  net w (net_calls (trace w)) (convert_request apikey uid to filename) = Replied res ->
  status_code res = 200 ->
  json_body res = Some (JObj data) ->
  lookup "data" data = Some (JObj inner) ->
  lookup "status" inner = Some status ->
  convert_parse_body apikey uid to filename w
  = (if eq_str status "processing" then Ok ("Processing", JStr "")
     else if eq_str status "success" then Ok ("Success", entry inner "url" (JStr ""))
     else Err (RequestError ("Conversion uid " ++ uid ++ " file failed: "
                               ++ py_str (JObj data))),
     log (EvNet (convert_request apikey uid to filename)) w).
Proof.
  intros Hto Hnet Hcode Hjson Hdata Hstatus.
  unfold convert_parse_body, bind, send. rewrite Hto. cbn [negb].
  fold (convert_request apikey uid to filename).
  rewrite Hnet, Hcode. cbn [Z.eqb Pos.eqb negb].
  unfold json_loads, lift. rewrite Hjson.
  unfold getitem. rewrite Hdata, Hstatus. rewrite get_entry.
  unfold ret, raise.
  destruct (eq_str status "processing"); [reflexivity|].
  destruct (eq_str status "success"); reflexivity.
Qed.

Lemma get_convert_result_body_outcome (apikey uid : string)
    (w : World) (res : response) (data inner : list (string * json)) (status : json) :
  net w (net_calls (trace w)) (convert_result_request apikey uid) = Replied res ->
  status_code res = 200 ->
  json_body res = Some (JObj data) ->
  lookup "data" data = Some (JObj inner) ->
  lookup "status" inner = Some status ->
  get_convert_result_body apikey uid w
  = (if eq_str status "processing" then Ok ("Processing", JStr "")
     else if eq_str status "success" then Ok ("Success", entry inner "url" (JStr ""))
     else Err (RequestError ("Get conversion result for uid " ++ uid ++ " failed: "
                               ++ py_str (JObj data))),
     log (EvNet (convert_result_request apikey uid)) w).
Proof.
  intros Hnet Hcode Hjson Hdata Hstatus.
  unfold get_convert_result_body, bind, send.
  fold (convert_result_request apikey uid).
  rewrite Hnet, Hcode. cbn [Z.eqb Pos.eqb negb].
  unfold json_loads, lift. rewrite Hjson.
  unfold getitem. rewrite Hdata, Hstatus. rewrite get_entry.
  unfold ret, raise.
  destruct (eq_str status "processing"); [reflexivity|].
  destruct (eq_str status "success"); reflexivity.
Qed.

End Conversion.

Lemma eq_str_other (v : json) (s : string) : v <> JStr s -> eq_str v s = false.
Proof.
  intros Hv. unfold eq_str, is_str. destruct v; try reflexivity.
  apply String.eqb_neq. congruence.
Qed.

Section TriState.
Context `{Collaborators}.

(** C8, as the code has it: on an answer 200 whose data carries a status,
    [convert_parse] and [get_convert_result] both return ("Processing", "")
    for "processing", return "Success" with the "url" entry of the data for
    "success" (the empty string when the answer has no such entry), and for
    any other status raise a [RequestError], never retried, whose message
    holds the uid and the decoded answer. *)
Theorem convert_tri_state (apikey uid to : string) (filename : option string)
    (w : World) (res : response) (data inner : list (string * json)) (status : json) :
  in_strs to ["md"; "tex"; "docx"] = true ->
  net w (net_calls (trace w)) (convert_request apikey uid to filename) = Replied res ->
  net w (net_calls (trace w)) (convert_result_request apikey uid) = Replied res ->
  status_code res = 200 ->
  json_body res = Some (JObj data) ->
  lookup "data" data = Some (JObj inner) ->
  lookup "status" inner = Some status ->
  (status = JStr "processing" ->
     convert_parse apikey uid to filename w
     = (Ok ("Processing", JStr ""), log (EvNet (convert_request apikey uid to filename)) w)
     /\ get_convert_result apikey uid w
        = (Ok ("Processing", JStr ""), log (EvNet (convert_result_request apikey uid)) w))
  /\ (status = JStr "success" ->
     convert_parse apikey uid to filename w
     = (Ok ("Success", entry inner "url" (JStr "")),
        log (EvNet (convert_request apikey uid to filename)) w)
     /\ get_convert_result apikey uid w
        = (Ok ("Success", entry inner "url" (JStr "")),
           log (EvNet (convert_result_request apikey uid)) w))
  /\ (status <> JStr "processing" -> status <> JStr "success" ->
     convert_parse apikey uid to filename w
     = (Err (RequestError ("Conversion uid " ++ uid ++ " file failed: "
                             ++ py_str (JObj data))),
        log (EvNet (convert_request apikey uid to filename)) w)
     /\ get_convert_result apikey uid w
        = (Err (RequestError ("Get conversion result for uid " ++ uid ++ " failed: "
                                ++ py_str (JObj data))),
           log (EvNet (convert_result_request apikey uid)) w)
     /\ forall msg, retryable policy (RequestError msg) = false).
Proof.
  intros Hto Hnet1 Hnet2 Hcode Hjson Hdata Hstatus.
  pose proof (convert_parse_body_outcome apikey uid to filename w res data inner status
                Hto Hnet1 Hcode Hjson Hdata Hstatus) as Hconvert.
  pose proof (get_convert_result_body_outcome apikey uid w res data inner status
                Hnet2 Hcode Hjson Hdata Hstatus) as Hresult.
  repeat split.
  - subst status. unfold convert_parse. apply async_retry_returns. exact Hconvert.
  - subst status. unfold get_convert_result. apply async_retry_returns. exact Hresult.
  - subst status. unfold convert_parse. apply async_retry_returns. exact Hconvert.
  - subst status. unfold get_convert_result. apply async_retry_returns. exact Hresult.
  - unfold convert_parse. apply async_retry_surfaces; [|reflexivity].
    rewrite Hconvert, !eq_str_other by assumption. reflexivity.
  - unfold get_convert_result. apply async_retry_surfaces; [|reflexivity].
    rewrite Hresult, !eq_str_other by assumption. reflexivity.
Qed.

End TriState.

(** C8, as the claim states it, fails on a "success" answer without a "url"
    entry: both calls return the empty location with the label "Success". *)
Lemma convert_success_without_url :
  let body := JObj [("data", JObj [("status", JStr "success")])] in
  let w := sample_world 1 (answers body) in
  fst (@convert_parse sample_client "key" "u-1" "md" None w) = Ok ("Success", JStr "")
  /\ fst (@get_convert_result sample_client "key" "u-1" w) = Ok ("Success", JStr "")
  /\ ~ (exists location, location <> JStr ""
          /\ fst (@convert_parse sample_client "key" "u-1" "md" None w)
             = Ok ("Success", location)).
Proof.
  cbv zeta. repeat split.
  intros (location & Hnonempty & Hrun). vm_compute in Hrun. congruence.
Qed.

Lemma convert_parse_invalid_format_witness :
  net_calls (trace (snd (@convert_parse sample_client "key" "u-1" "pdf" None
                           (sample_world 1 always_429))))
  = net_calls (trace (sample_world 1 always_429)).
Proof.
  apply (@convert_parse_invalid_format sample_client "key" "u-1" "pdf" None
           (sample_world 1 always_429)); discriminate.
Defined.

Lemma convert_tri_state_witness :
  let body := JObj [("data", JObj [("status", JStr "success");
                                   ("url", JStr "https://cdn.example/u-1.zip")])] in
  let w := sample_world 1 (answers body) in
  @convert_parse sample_client "key" "u-1" "md" (Some "paper") w
  = (Ok ("Success", JStr "https://cdn.example/u-1.zip"),
     log (EvNet (convert_request "key" "u-1" "md" (Some "paper"))) w)
  /\ @get_convert_result sample_client "key" "u-1" w
     = (Ok ("Success", JStr "https://cdn.example/u-1.zip"),
        log (EvNet (convert_result_request "key" "u-1")) w).
Proof.
  cbv zeta.
  apply (@convert_tri_state sample_client "key" "u-1" "md" (Some "paper")
           (sample_world 1
              (answers (JObj [("data", JObj [("status", JStr "success");
                                             ("url", JStr "https://cdn.example/u-1.zip")])])))
           (ok_response (JObj [("data", JObj [("status", JStr "success");
                                              ("url", JStr "https://cdn.example/u-1.zip")])]))
           [("data", JObj [("status", JStr "success");
                           ("url", JStr "https://cdn.example/u-1.zip")])]
           [("status", JStr "success"); ("url", JStr "https://cdn.example/u-1.zip")]
           (JStr "success")); reflexivity.
Defined.

(** ** The retry policy on a rate-limit failure *)

Section RateLimited.
Context {A : Type} (p : RetryPolicy) (op : M A).

(** The operation does not sleep on its own, so every sleep of a run is a
    backoff of the policy. *)
Hypothesis op_no_sleep : forall w, sleeps (trace (snd (op w))) = sleeps (trace w).

Lemma retry_loop_sleeps_bounds (left attempt : nat) (w : World) :
  (sleeps (trace w) <= sleeps (trace (snd (retry_loop p left attempt op w)))
   <= sleeps (trace w) + left)%nat.
Proof.
  revert attempt w. induction left as [|left IH]; intros attempt w;
    rewrite retry_loop_unfold; pose proof (op_no_sleep w) as Hop;
    destruct (op w) as [[a|e] w1]; simpl in Hop |- *; try lia;
    destruct (retryable p e); simpl; try lia.
  specialize (IH (S attempt) (log (EvSleep (backoff p attempt)) w1)).
  revert IH. count_events. lia.
Qed.

Lemma retry_loop_surfaced (left attempt : nat) (w : World) (e : exn) :
  fst (retry_loop p left attempt op w) = Err e -> retryable p e = false.
Proof.
  revert attempt w. induction left as [|left IH]; intros attempt w;
    rewrite retry_loop_unfold;
    destruct (op w) as [[a|e1] w1]; simpl; try discriminate;
    destruct (retryable p e1) eqn:He1; simpl; intros Hrun;
    try (injection Hrun as <-; (reflexivity || exact He1)).
  eapply IH. exact Hrun.
Qed.

Lemma retry_loop_exhausts (Inv : World -> Prop) :
  (forall w, Inv w ->
     exists w1, op w = (Err RateLimit, w1) /\ forall d, Inv (log (EvSleep d) w1)) ->
  forall left attempt w, Inv w ->
    fst (retry_loop p left attempt op w) = Err (RetryExhausted RateLimit)
    /\ sleeps (trace (snd (retry_loop p left attempt op w))) = (sleeps (trace w) + left)%nat.
Proof.
  intros Hlimited left.
  induction left as [|left IH]; intros attempt w Hw;
    rewrite retry_loop_unfold; pose proof (op_no_sleep w) as Hop;
    destruct (Hlimited w Hw) as (w1 & Hrun & Hnext); rewrite Hrun in Hop |- *;
    simpl in Hop |- *.
  - split; [reflexivity | lia].
  - destruct (IH (S attempt) _ (Hnext (backoff p attempt))) as [Hres Hsleeps].
    split; [exact Hres|]. rewrite Hsleeps. count_events. lia.
Qed.

(** C9, for the rate-limit signal: under the retry policy, for every
    wrapped operation that does not sleep itself, the retries of a run are
    at most [max_retries]; an attempt that ends in [RateLimit] (what
    [upload_pdf] raises on HTTP 429) while a retry is left is followed by
    the backoff and a further attempt; no retryable failure surfaces as it
    is; and when every attempt ends in [RateLimit] the run ends, after
    exactly [max_retries] retries, in [RetryExhausted]. *)
Theorem async_retry_rate_limit (w : World) :
  (sleeps (trace (snd (async_retry p op w))) <= sleeps (trace w) + max_retries p)%nat
  /\ (forall w1, op w = (Err RateLimit, w1) -> (1 <= max_retries p)%nat ->
        async_retry p op w
        = retry_loop p (max_retries p - 1) 1 op (log (EvSleep (backoff p 0)) w1)
        /\ (sleeps (trace w) + 1 <= sleeps (trace (snd (async_retry p op w))))%nat)
  /\ (forall e, fst (async_retry p op w) = Err e -> retryable p e = false)
  /\ (forall Inv : World -> Prop,
        Inv w ->
        (forall w0, Inv w0 ->
           exists w1, op w0 = (Err RateLimit, w1) /\ forall d, Inv (log (EvSleep d) w1)) ->
        fst (async_retry p op w) = Err (RetryExhausted RateLimit)
        /\ sleeps (trace (snd (async_retry p op w)))
           = (sleeps (trace w) + max_retries p)%nat).
Proof.
  split; [apply retry_loop_sleeps_bounds|].
  split; [|split].
  - intros w1 Hfirst Hbudget.
    assert (Hstep : async_retry p op w
                    = retry_loop p (max_retries p - 1) 1 op
                        (log (EvSleep (backoff p 0)) w1)).
    { unfold async_retry. rewrite retry_loop_unfold, Hfirst. simpl.
      destruct (max_retries p) as [|left]; [lia|].
      replace (S left - 1)%nat with left by lia. reflexivity. }
    split; [exact Hstep|]. rewrite Hstep.
    pose proof (retry_loop_sleeps_bounds (max_retries p - 1) 1
                  (log (EvSleep (backoff p 0)) w1)) as Hb.
    pose proof (op_no_sleep w) as Hop. rewrite Hfirst in Hop. simpl in Hop.
    revert Hb. count_events. lia.
  - intros e. apply retry_loop_surfaced.
  - intros Inv Hstart Hlimited. eapply retry_loop_exhausts; eassumption.
Qed.

End RateLimited.

Section UploadRateLimit.
Context `{Collaborators}.

(** [upload_pdf] never sleeps inside an attempt. *)
Lemma upload_pdf_body_no_sleep (apikey pdffile : string) (ocr : bool) (w : World) :
  sleeps (trace (snd (upload_pdf_body apikey pdffile ocr w))) = sleeps (trace w).
Proof.
  destruct (getsize w pdffile) as [size|] eqn:Hsize.
  - destruct (Z.ltb_spec size (300 * MB)) as [Hlt|Hge].
    + destruct (file_content w pdffile) as [bytes|] eqn:Hbytes.
      * destruct (upload_pdf_body_direct apikey pdffile ocr w size bytes Hsize Hlt Hbytes)
          as [r Hrun].
        rewrite Hrun. simpl snd. count_events. lia.
      * unfold upload_pdf_body, bind, os_path_getsize. rewrite Hsize.
        replace (300 * 1024 * 1024 <=? size) with false
          by (symmetry; apply Z.leb_gt; unfold MB in Hlt; lia).
        unfold read_file. rewrite Hbytes. simpl snd. count_events. lia.
    + unfold upload_pdf_body, bind, os_path_getsize. rewrite Hsize.
      replace (300 * 1024 * 1024 <=? size) with true
        by (symmetry; apply Z.leb_le; unfold MB in Hge; lia).
      simpl snd. count_events. lia.
  - unfold upload_pdf_body, bind, os_path_getsize. rewrite Hsize. reflexivity.
Qed.

(** Lines 61-62 of ConvertV2.py: the direct upload turns an answer 429 into
    the rate-limit signal. *)
Lemma upload_pdf_body_rate_limit (apikey pdffile : string) (ocr : bool)
    (w : World) (size : Z) (bytes : string) (res : response) :
  getsize w pdffile = Some size ->
  size < 300 * MB ->
  file_content w pdffile = Some bytes ->
  net w (net_calls (trace w)) (direct_request apikey ocr bytes) = Replied res ->
  status_code res = 429 ->
  upload_pdf_body apikey pdffile ocr w
  = (Err RateLimit,
     log (EvNet (direct_request apikey ocr bytes)) (log (EvOpen pdffile) w)).
Proof.
  intros Hsize Hlt Hbytes Hnet Hcode.
  unfold upload_pdf_body, bind, os_path_getsize. rewrite Hsize.
  replace (300 * 1024 * 1024 <=? size) with false
    by (symmetry; apply Z.leb_gt; unfold MB in Hlt; lia).
  unfold read_file. rewrite Hbytes.
  unfold send. fold (direct_request apikey ocr bytes).
  replace (net_calls (trace (log (EvOpen pdffile) w))) with (net_calls (trace w))
    by (count_events; lia).
  change (net (log (EvOpen pdffile) w)) with (net w).
  rewrite Hnet, Hcode. reflexivity.
Qed.

(** The direct upload against a service that answers 429 throughout: the
    run ends in [RetryExhausted] after [max_retries] backoffs. *)
Lemma upload_pdf_rate_limited (apikey pdffile : string) (ocr : bool)
    (w : World) (size : Z) (bytes : string) :
  size < 300 * MB ->
  rate_limited pdffile size bytes w ->
  fst (upload_pdf apikey pdffile ocr w) = Err (RetryExhausted RateLimit)
  /\ sleeps (trace (snd (upload_pdf apikey pdffile ocr w)))
     = (sleeps (trace w) + max_retries policy)%nat.
Proof.
  intros Hlt Hw. unfold upload_pdf, async_retry.
  apply (retry_loop_exhausts policy (upload_pdf_body apikey pdffile ocr)
           (upload_pdf_body_no_sleep apikey pdffile ocr)
           (rate_limited pdffile size bytes)); [|exact Hw].
  intros w0 (Hsize & Hbytes & Hnet).
  destruct (Hnet (net_calls (trace w0)) (direct_request apikey ocr bytes))
    as (res & Hreply & Hcode).
  eexists. split.
  - eapply upload_pdf_body_rate_limit; eassumption.
  - intros d. repeat split; assumption.
Qed.

End UploadRateLimit.

Lemma async_retry_rate_limit_witness :
  let w := sample_world (5 * MB) limited_once in
  (sleeps (trace w) + 1
   <= sleeps (trace (snd (@upload_pdf sample_client "key" "doc.pdf" true w))))%nat.
Proof.
  cbv zeta.
  apply (proj1 (proj2 (async_retry_rate_limit sample_policy
                         (@upload_pdf_body sample_client "key" "doc.pdf" true)
                         (@upload_pdf_body_no_sleep sample_client "key" "doc.pdf" true)
                         (sample_world (5 * MB) limited_once))))
    with (w1 := log (EvNet (direct_request "key" true "%PDF-1.7"))
                  (log (EvOpen "doc.pdf") (sample_world (5 * MB) limited_once))).
  - reflexivity.
  - simpl. lia.
Defined.

(** The direct upload against the two sample services: one retry after the
    backoff when only the first round trip is answered 429, and three round
    trips with two backoffs between them, then [RetryExhausted], when every
    round trip is. *)
Example upload_pdf_limited_once :
  let run := @upload_pdf sample_client "key" "doc.pdf" true
               (sample_world (5 * MB) limited_once) in
  fst run = Ok (JStr "u-1")
  /\ trace (snd run)
     = [EvOpen "doc.pdf"; EvNet (direct_request "key" true "%PDF-1.7"); EvSleep 1;
        EvOpen "doc.pdf"; EvNet (direct_request "key" true "%PDF-1.7")].
Proof. split; reflexivity. Qed.

Example upload_pdf_always_limited :
  let run := @upload_pdf sample_client "key" "doc.pdf" true
               (sample_world (5 * MB) always_429) in
  fst run = Err (RetryExhausted RateLimit)
  /\ net_calls (trace (snd run)) = 3%nat
  /\ sleeps (trace (snd run)) = 2%nat.
Proof. repeat split; reflexivity. Qed.

(** C9, as the claim states it, fails on an answer 429 in two places.  When
    the object storage answers 429 to the second round trip of the staged
    upload, the decorated [upload_pdf_big] raises a [RequestError] with
    retries left and makes no further attempt: one pre-upload call, two
    round trips, no backoff.  And the legacy [uuid2file], against a service
    that answers 429 throughout, retries as long as the call stack lasts:
    with fifty frames, fifty round trips and a [RecursionError], not a
    retry-exhausted error. *)
Lemma http_429_outside_retry_policy :
  let w := sample_world (150 * MB) storage_limited in
  let run := @upload_pdf_big sample_client "key" "doc.pdf" true w in
  let legacy := @uuid2file sample_client 50 "key" "u-1" "md" None
                  (sample_world 1 always_429) in
  (forall r, storage_limited 1 r = Replied too_many)
  /\ status_code too_many = 429
  /\ (1 <= max_retries (@policy sample_client))%nat
  /\ fst run = Err (RequestError "Too Many Requests")
  /\ calls_to preupload_url (trace (snd run)) = 1%nat
  /\ net_calls (trace (snd run)) = 2%nat
  /\ sleeps (trace (snd run)) = 0%nat
  /\ ~ (sleeps (trace w) + 1 <= sleeps (trace (snd run)))%nat
  /\ fst legacy = Err RecursionError
  /\ net_calls (trace (snd legacy)) = 50%nat.
Proof.
  cbv zeta. repeat split; try (vm_compute; reflexivity).
  - simpl. lia.
  - vm_compute. lia.
Qed.

(** ** The decorated operations do not sleep inside an attempt *)

Section NoSleep.
Context `{Collaborators}.

(** Case analysis on every test of a body, then a count of the events it
    has logged. *)
Ltac body_cases :=
  repeat (cbn beta iota;
          match goal with
          | |- context [if ?c then _ else _] => destruct c
          | |- context [match ?x with Ok _ => _ | Err _ => _ end] => destruct x
          | |- context [match ?x with Some _ => _ | None => _ end] => destruct x
          | |- context [match ?x with Replied _ => _ | Failed _ => _ end] => destruct x
          end);
  simpl snd; count_events; lia.

Lemma decode_data_no_sleep (data : json) (convert : bool) (w : World) :
  sleeps (trace (snd (decode_data data convert w))) = sleeps (trace w).
Proof.
  unfold decode_data, bind, lift, ret, warning. body_cases.
Qed.

Lemma upload_pdf_big_body_no_sleep (apikey pdffile : string) (ocr : bool) (w : World) :
  sleeps (trace (snd (upload_pdf_big_body apikey pdffile ocr w))) = sleeps (trace w).
Proof.
  unfold upload_pdf_big_body, bind, os_path_getsize, open_file, send, lift, check,
    raise, ret.
  body_cases.
Qed.

Lemma uid_status_body_no_sleep (apikey uid : string) (convert : bool) (w : World) :
  sleeps (trace (snd (uid_status_body apikey uid convert w))) = sleeps (trace w).
Proof.
  unfold uid_status_body, bind, send.
  destruct (net w _ _) as [res|e]; [|simpl snd; count_events; lia].
  destruct (negb (status_code res =? 200)); [simpl snd; count_events; lia|].
  unfold lift, check, raise, ret, warning.
  repeat (cbn beta iota;
          match goal with
          | |- context [decode_data ?d ?c ?w0] =>
              let Hd := fresh "Hd" in
              pose proof (decode_data_no_sleep d c w0) as Hd;
              destruct (decode_data d c w0) as [[?|?] ?]; simpl snd in Hd
          | |- context [if ?c then _ else _] => destruct c
          | |- context [match ?x with Ok _ => _ | Err _ => _ end] => destruct x
          | |- context [match ?x with Some _ => _ | None => _ end] => destruct x
          end);
    simpl snd; try (rewrite Hd); count_events; lia.
Qed.

Lemma convert_parse_body_no_sleep (apikey uid to : string) (filename : option string)
    (w : World) :
  sleeps (trace (snd (convert_parse_body apikey uid to filename w))) = sleeps (trace w).
Proof.
  unfold convert_parse_body, bind, send, lift, raise, ret. body_cases.
Qed.

Lemma get_convert_result_body_no_sleep (apikey uid : string) (w : World) :
  sleeps (trace (snd (get_convert_result_body apikey uid w))) = sleeps (trace w).
Proof.
  unfold get_convert_result_body, bind, send, lift, raise, ret. body_cases.
Qed.

End NoSleep.

(** ** The legacy export path on a rate-limit response *)

Section LegacyRateLimit.
Context `{Collaborators}.

(** Lines 64-71 of doc2x.py: on an answer 429, [uuid2file] sleeps twice ten
    seconds and calls itself, with the output format it has rewritten. *)
Lemma uuid2file_rate_limit_retry (depth : nat) (api_key uuid output_format : string)
    (output_path : option string) (w : World) (res : response) :
  net w (net_calls (trace w)) (export_request api_key uuid output_format) = Replied res ->
  status_code res = 429 ->
  uuid2file (S depth) api_key uuid output_format output_path w
  = uuid2file depth api_key uuid
      (if (output_format =? "docx")%string then output_format else "zip") output_path
      (after_rate_limit (export_request api_key uuid output_format) w).
Proof.
  intros Hnet Hcode.
  cbn [uuid2file]. unfold bind at 1. unfold send.
  fold (export_request api_key uuid output_format).
  rewrite Hnet, Hcode. cbn [Z.eqb Pos.eqb].
  unfold bind, print, sleep, ret. fold (after_rate_limit (export_request api_key uuid output_format) w).
  destruct (uuid2file depth api_key uuid _ output_path _) as [[path|e] w']; reflexivity.
Qed.

Lemma answers_429_after (r : request) (w : World) :
  answers_429 w -> answers_429 (after_rate_limit r w).
Proof. intros Hw. exact Hw. Qed.

(** Against a service that answers 429 throughout, [uuid2file] has no
    bound of its own on the attempts: it makes one round trip per frame of
    the call stack and ends in Python's [RecursionError], never in a
    retry-exhausted error. *)
Lemma uuid2file_retries_unbounded (depth : nat) :
  forall (api_key uuid output_format : string) (output_path : option string) (w : World),
  answers_429 w ->
  fst (uuid2file depth api_key uuid output_format output_path w) = Err RecursionError
  /\ net_calls (trace (snd (uuid2file depth api_key uuid output_format output_path w)))
     = (net_calls (trace w) + depth)%nat
  /\ sleeps (trace (snd (uuid2file depth api_key uuid output_format output_path w)))
     = (sleeps (trace w) + 2 * depth)%nat.
Proof.
  induction depth as [|depth IH]; intros api_key uuid output_format output_path w Hw.
  - simpl. repeat split; lia.
  - destruct (Hw (net_calls (trace w)) (export_request api_key uuid output_format))
      as (res & Hnet & Hcode).
    rewrite (uuid2file_rate_limit_retry depth _ _ _ _ w res Hnet Hcode).
    destruct (IH api_key uuid
                (if (output_format =? "docx")%string then output_format else "zip")
                output_path
                (after_rate_limit (export_request api_key uuid output_format) w)
                (answers_429_after _ w Hw)) as (Hres & Hcalls & Hsleeps).
    rewrite Hres, Hcalls, Hsleeps. unfold after_rate_limit.
    repeat split; count_events; lia.
Qed.

End LegacyRateLimit.

(** * Further properties of the code *)

(** ** Round trips *)

Lemma send_run (r : request) (w : World) :
  send r w
  = (match net w (net_calls (trace w)) r with
     | Replied res => Ok res
     | Failed e => Err e
     end, log (EvNet r) w).
Proof. unfold send. destruct (net w _ r); reflexivity. Qed.

Lemma net_log (e : event) (w : World) : net (log e w) = net w.
Proof. reflexivity. Qed.

Lemma net_calls_log (e : event) (w : World) :
  net_calls (trace (log e w))
  = if is_net e then S (net_calls (trace w)) else net_calls (trace w).
Proof. count_events. destruct (is_net e); lia. Qed.

(** Replaces the tests on sizes by their values. *)
Ltac size_tests :=
  repeat match goal with
         | H : ?a < ?b * MB |- context [?c <=? ?a] =>
             replace (c <=? a) with false
               by (symmetry; apply Z.leb_gt; unfold MB in H; lia)
         | H : ?b * MB <= ?a |- context [?a <? ?c] =>
             replace (a <? c) with false
               by (symmetry; apply Z.ltb_ge; unfold MB in H; lia)
         end.

Section UploadPaths.
Context `{Collaborators}.

(** A file below the ceiling that cannot be opened: the attempt of
    [upload_pdf] ends in the [FileError] of the [try] around the read, after
    the open and before any round trip. *)
Theorem upload_pdf_unreadable_file (apikey pdffile : string) (ocr : bool)
    (w : World) (size : Z) :
  getsize w pdffile = Some size ->
  size < 300 * MB ->
  file_content w pdffile = None ->
  upload_pdf_body apikey pdffile ocr w
  = (Err (FileError ("Open file error! " ++ exn_str (OSError pdffile))),
     log (EvOpen pdffile) w)
  /\ net_calls (trace (snd (upload_pdf_body apikey pdffile ocr w))) = net_calls (trace w).
Proof.
  intros Hsize Hlt Hnone.
  assert (Hrun : upload_pdf_body apikey pdffile ocr w
                 = (Err (FileError ("Open file error! " ++ exn_str (OSError pdffile))),
                    log (EvOpen pdffile) w)).
  { unfold upload_pdf_body, bind, os_path_getsize. rewrite Hsize. size_tests.
    unfold read_file. rewrite Hnone. reflexivity. }
  split; [exact Hrun|]. rewrite Hrun. simpl snd. rewrite net_calls_log. reflexivity.
Qed.

(** A path that does not exist: both uploaders let the error of
    [os.path.getsize] through, in the world they started from; it is not
    turned into a [FileError]. *)
Theorem upload_missing_file (apikey pdffile : string) (ocr : bool) (w : World) :
  getsize w pdffile = None ->
  upload_pdf_body apikey pdffile ocr w = (Err (OSError pdffile), w)
  /\ upload_pdf_big_body apikey pdffile ocr w = (Err (OSError pdffile), w).
Proof.
  intros Hnone.
  unfold upload_pdf_body, upload_pdf_big_body, bind, os_path_getsize.
  rewrite Hnone. split; reflexivity.
Qed.

(** The direct path up to the answer of the parse endpoint. *)
Lemma upload_pdf_body_answered (apikey pdffile : string) (ocr : bool)
    (w : World) (size : Z) (bytes : string) (res : response) :
  getsize w pdffile = Some size ->
  size < 300 * MB ->
  file_content w pdffile = Some bytes ->
  net w (net_calls (trace w)) (direct_request apikey ocr bytes) = Replied res ->
  upload_pdf_body apikey pdffile ocr w
  = (if status_code res =? 200 then
       (response_data <- lift (json_loads res) ;;
        code <- lift (get response_data "code" response_data) ;;
        check (CodeValue code) ;;
        data <- lift (getitem response_data "data") ;;
        lift (getitem data "uid"))
     else if status_code res =? 429 then raise RateLimit
     else if status_code res =? 400 then raise (RequestError (text res))
     else raise (upload_error res))
    (log (EvNet (direct_request apikey ocr bytes)) (log (EvOpen pdffile) w)).
Proof.
  intros Hsize Hlt Hbytes Hnet.
  unfold upload_pdf_body. unfold bind at 1. unfold os_path_getsize. rewrite Hsize.
  size_tests. unfold bind at 1. unfold read_file. rewrite Hbytes.
  unfold bind at 1. fold (direct_request apikey ocr bytes).
  rewrite send_run, net_log, net_calls_log. cbn [is_net]. rewrite Hnet.
  reflexivity.
Qed.

(** The direct path on success: an answer 200 whose envelope is accepted
    and carries data with a uid makes the decorated [upload_pdf] return that
    uid after the open and one round trip. *)
Theorem upload_pdf_returns_uid (apikey pdffile : string) (ocr : bool)
    (w : World) (size : Z) (bytes : string) (res : response)
    (data inner : list (string * json)) (uid : json) :
  getsize w pdffile = Some size ->
  size < 300 * MB ->
  file_content w pdffile = Some bytes ->
  net w (net_calls (trace w)) (direct_request apikey ocr bytes) = Replied res ->
  status_code res = 200 ->
  json_body res = Some (JObj data) ->
  code_check (body_code data) = None ->
  lookup "data" data = Some (JObj inner) ->
  lookup "uid" inner = Some uid ->
  upload_pdf apikey pdffile ocr w
  = (Ok uid, log (EvNet (direct_request apikey ocr bytes)) (log (EvOpen pdffile) w)).
Proof.
  intros Hsize Hlt Hbytes Hnet Hcode Hjson Hcheck Hdata Huid.
  unfold upload_pdf. apply async_retry_returns.
  rewrite (upload_pdf_body_answered apikey pdffile ocr w size bytes res) by assumption.
  rewrite Hcode. cbn [Z.eqb Pos.eqb].
  unfold bind, lift, json_loads, check, ret. rewrite Hjson, get_entry.
  unfold body_code in Hcheck. rewrite Hcheck.
  unfold getitem. rewrite Hdata, Huid. reflexivity.
Qed.

(** The direct path on any status but 200: 429 is the rate-limit signal,
    400 a [RequestError] with the text of the answer, every other status a
    plain exception that holds the status and the text. *)
Theorem upload_pdf_rejected_status (apikey pdffile : string) (ocr : bool)
    (w : World) (size : Z) (bytes : string) (res : response) :
  getsize w pdffile = Some size ->
  size < 300 * MB ->
  file_content w pdffile = Some bytes ->
  net w (net_calls (trace w)) (direct_request apikey ocr bytes) = Replied res ->
  status_code res <> 200 ->
  upload_pdf_body apikey pdffile ocr w
  = (Err (if status_code res =? 429 then RateLimit
          else if status_code res =? 400 then RequestError (text res)
          else PyException ("Upload file error! " ++ py_str (JNum (status_code res))
                              ++ ":" ++ text res)),
     log (EvNet (direct_request apikey ocr bytes)) (log (EvOpen pdffile) w)).
Proof.
  intros Hsize Hlt Hbytes Hnet Hcode.
  rewrite (upload_pdf_body_answered apikey pdffile ocr w size bytes res) by assumption.
  apply Z.eqb_neq in Hcode. rewrite Hcode.
  destruct (status_code res =? 429); [reflexivity|].
  destruct (status_code res =? 400); reflexivity.
Qed.

(** The direct path on an answer 200 whose envelope [code_check] rejects:
    the attempt raises what [code_check] raises, and the uid of the answer,
    if there is one, is not returned. *)
Theorem upload_pdf_rejected_envelope (apikey pdffile : string) (ocr : bool)
    (w : World) (size : Z) (bytes : string) (res : response)
    (data : list (string * json)) (e : exn) :
  getsize w pdffile = Some size ->
  size < 300 * MB ->
  file_content w pdffile = Some bytes ->
  net w (net_calls (trace w)) (direct_request apikey ocr bytes) = Replied res ->
  status_code res = 200 ->
  json_body res = Some (JObj data) ->
  code_check (body_code data) = Some e ->
  upload_pdf_body apikey pdffile ocr w
  = (Err e, log (EvNet (direct_request apikey ocr bytes)) (log (EvOpen pdffile) w)).
Proof.
  intros Hsize Hlt Hbytes Hnet Hcode Hjson Hcheck.
  rewrite (upload_pdf_body_answered apikey pdffile ocr w size bytes res) by assumption.
  rewrite Hcode. cbn [Z.eqb Pos.eqb].
  unfold bind, lift, json_loads, check, raise. rewrite Hjson, get_entry.
  unfold body_code in Hcheck. rewrite Hcheck. reflexivity.
Qed.

End UploadPaths.

Section StagedPaths.
Context `{Collaborators}.

(** The staged path up to the answer of the pre-upload endpoint. *)
Lemma upload_pdf_big_body_answered (apikey pdffile : string) (ocr : bool)
    (w : World) (size : Z) (bytes : string) (res : response) :
  getsize w pdffile = Some size ->
  100 * MB <= size ->
  file_content w pdffile = Some bytes ->
  net w (net_calls (trace w)) (preupload_request apikey pdffile ocr) = Replied res ->
  upload_pdf_big_body apikey pdffile ocr w
  = (if status_code res =? 200 then
       (response_data <- lift (json_loads res) ;;
        code <- lift (get response_data "code" response_data) ;;
        check (CodeValue code) ;;
        upload_data <- lift (getitem response_data "data") ;;
        upload_url <- lift (getitem upload_data "url") ;;
        form <- lift (getitem upload_data "form") ;;
        uid <- lift (getitem form "x-amz-meta-uid") ;;
        target <- lift (as_str upload_url) ;;
        s3_res <- send (storage_request target form pdffile) ;;
        if status_code s3_res =? 204 then ret uid
        else raise (RequestError (text s3_res)))
     else if status_code res =? 400 then raise (RequestError (text res))
     else raise (upload_error res))
    (log (EvNet (preupload_request apikey pdffile ocr)) (log (EvOpen pdffile) w)).
Proof.
  intros Hsize Hge Hbytes Hnet.
  unfold upload_pdf_big_body. unfold bind at 1. unfold os_path_getsize. rewrite Hsize.
  size_tests. unfold bind at 1. unfold open_file. rewrite Hbytes.
  unfold bind at 1. fold (preupload_request apikey pdffile ocr).
  rewrite send_run, net_log, net_calls_log. cbn [is_net]. rewrite Hnet.
  reflexivity.
Qed.

(** The staged path up to the answer of the object storage, for an
    accepted pre-upload that names a destination, a form and a uid. *)
Lemma upload_pdf_big_body_stored (apikey pdffile : string) (ocr : bool)
    (w : World) (size : Z) (bytes : string) (res s3 : response)
    (data upload form : list (string * json)) (target : string) (uid : json) :
  getsize w pdffile = Some size ->
  100 * MB <= size ->
  file_content w pdffile = Some bytes ->
  net w (net_calls (trace w)) (preupload_request apikey pdffile ocr) = Replied res ->
  status_code res = 200 ->
  json_body res = Some (JObj data) ->
  code_check (body_code data) = None ->
  lookup "data" data = Some (JObj upload) ->
  lookup "url" upload = Some (JStr target) ->
  lookup "form" upload = Some (JObj form) ->
  lookup "x-amz-meta-uid" form = Some uid ->
  net w (S (net_calls (trace w))) (storage_request target (JObj form) pdffile)
  = Replied s3 ->
  upload_pdf_big_body apikey pdffile ocr w
  = (if status_code s3 =? 204 then Ok uid else Err (RequestError (text s3)),
     log (EvNet (storage_request target (JObj form) pdffile))
       (log (EvNet (preupload_request apikey pdffile ocr)) (log (EvOpen pdffile) w))).
Proof.
  intros Hsize Hge Hbytes Hnet Hcode Hjson Hcheck Hdata Hurl Hform Huid Hs3.
  rewrite (upload_pdf_big_body_answered apikey pdffile ocr w size bytes res)
    by assumption.
  rewrite Hcode. cbn [Z.eqb Pos.eqb].
  unfold bind, lift, json_loads, check, ret, raise. rewrite Hjson, get_entry.
  unfold body_code in Hcheck. rewrite Hcheck.
  unfold getitem. rewrite Hdata, Hurl, Hform, Huid. cbn [as_str].
  rewrite send_run, !net_log, !net_calls_log. cbn [is_net]. rewrite Hs3.
  destruct (status_code s3 =? 204); reflexivity.
Qed.

(** The staged path on success: the pre-upload is accepted and the object
    storage answers 204; the decorated [upload_pdf_big] returns the uid of
    the form after the open and exactly two round trips, the pre-upload and
    the transmission to the destination it named. *)
Theorem upload_pdf_big_returns_uid (apikey pdffile : string) (ocr : bool)
    (w : World) (size : Z) (bytes : string) (res s3 : response)
    (data upload form : list (string * json)) (target : string) (uid : json) :
  getsize w pdffile = Some size ->
  100 * MB <= size ->
  file_content w pdffile = Some bytes ->
  net w (net_calls (trace w)) (preupload_request apikey pdffile ocr) = Replied res ->
  status_code res = 200 ->
  json_body res = Some (JObj data) ->
  code_check (body_code data) = None ->
  lookup "data" data = Some (JObj upload) ->
  lookup "url" upload = Some (JStr target) ->
  lookup "form" upload = Some (JObj form) ->
  lookup "x-amz-meta-uid" form = Some uid ->
  net w (S (net_calls (trace w))) (storage_request target (JObj form) pdffile)
  = Replied s3 ->
  status_code s3 = 204 ->
  upload_pdf_big apikey pdffile ocr w
  = (Ok uid,
     log (EvNet (storage_request target (JObj form) pdffile))
       (log (EvNet (preupload_request apikey pdffile ocr)) (log (EvOpen pdffile) w))).
Proof.
  intros Hsize Hge Hbytes Hnet Hcode Hjson Hcheck Hdata Hurl Hform Huid Hs3 H204.
  unfold upload_pdf_big. apply async_retry_returns.
  rewrite (upload_pdf_big_body_stored apikey pdffile ocr w size bytes res s3
             data upload form target uid) by assumption.
  rewrite H204. reflexivity.
Qed.

(** The staged path when the object storage answers anything but 204: the
    attempt raises a [RequestError] with the text of that answer and the uid
    the pre-upload had issued is not returned. *)
Theorem upload_pdf_big_storage_rejects (apikey pdffile : string) (ocr : bool)
    (w : World) (size : Z) (bytes : string) (res s3 : response)
    (data upload form : list (string * json)) (target : string) (uid : json) :
  getsize w pdffile = Some size ->
  100 * MB <= size ->
  file_content w pdffile = Some bytes ->
  net w (net_calls (trace w)) (preupload_request apikey pdffile ocr) = Replied res ->
  status_code res = 200 ->
  json_body res = Some (JObj data) ->
  code_check (body_code data) = None ->
  lookup "data" data = Some (JObj upload) ->
  lookup "url" upload = Some (JStr target) ->
  lookup "form" upload = Some (JObj form) ->
  lookup "x-amz-meta-uid" form = Some uid ->
  net w (S (net_calls (trace w))) (storage_request target (JObj form) pdffile)
  = Replied s3 ->
  status_code s3 <> 204 ->
  upload_pdf_big_body apikey pdffile ocr w
  = (Err (RequestError (text s3)),
     log (EvNet (storage_request target (JObj form) pdffile))
       (log (EvNet (preupload_request apikey pdffile ocr)) (log (EvOpen pdffile) w))).
Proof.
  intros Hsize Hge Hbytes Hnet Hcode Hjson Hcheck Hdata Hurl Hform Huid Hs3 H204.
  rewrite (upload_pdf_big_body_stored apikey pdffile ocr w size bytes res s3
             data upload form target uid) by assumption.
  apply Z.eqb_neq in H204. rewrite H204. reflexivity.
Qed.

(** The staged path when the pre-upload answers anything but 200: 400 is a
    [RequestError] with the text of the answer, and every other status, 429
    included, a plain exception; the attempt ends after this one round trip
    and nothing is sent to an object storage. *)
Theorem upload_pdf_big_preupload_rejected (apikey pdffile : string) (ocr : bool)
    (w : World) (size : Z) (bytes : string) (res : response) :
  getsize w pdffile = Some size ->
  100 * MB <= size ->
  file_content w pdffile = Some bytes ->
  net w (net_calls (trace w)) (preupload_request apikey pdffile ocr) = Replied res ->
  status_code res <> 200 ->
  upload_pdf_big_body apikey pdffile ocr w
  = (Err (if status_code res =? 400 then RequestError (text res)
          else PyException ("Upload file error! " ++ py_str (JNum (status_code res))
                              ++ ":" ++ text res)),
     log (EvNet (preupload_request apikey pdffile ocr)) (log (EvOpen pdffile) w)).
Proof.
  intros Hsize Hge Hbytes Hnet Hcode.
  rewrite (upload_pdf_big_body_answered apikey pdffile ocr w size bytes res)
    by assumption.
  apply Z.eqb_neq in Hcode. rewrite Hcode.
  destruct (status_code res =? 400); reflexivity.
Qed.

End StagedPaths.

(** ** The file name of the pre-upload *)









(** A name of sixteen characters of two bytes each is sent whole, and a
    name of twenty-two such characters is cut after the twentieth. *)
Example take_chars_two_byte_characters :
  let e_acute := String (ascii_of_nat 195) (String (ascii_of_nat 169) "") in
  let name16 := fold_right append ".pdf" (repeat e_acute 12) in
  let name22 := fold_right append "" (repeat e_acute 22) in
  take_chars 20 name16 = name16
  /\ take_chars 20 name22 = fold_right append "" (repeat e_acute 20)
  /\ String.length (take_chars 20 name22) = 40%nat.
Proof. repeat split; vm_compute; reflexivity. Qed.

(** ** The decoder on any response *)

Lemma decode_pages_lengths (convert : bool) (pages : list json) :
  forall texts locations texts' locations',
  decode_pages convert pages texts locations = Ok (texts', locations') ->
  List.length texts' = (List.length texts + List.length pages)%nat
  /\ List.length locations' = (List.length locations + List.length pages)%nat.
Proof.
  induction pages as [|page pages IH]; intros texts locations texts' locations' Hrun.
  - simpl in Hrun. injection Hrun as <- <-. simpl. lia.
  - cbn [decode_pages] in Hrun.
    destruct (decode_page convert page) as [[text location]|e]; [|discriminate].
    apply IH in Hrun. rewrite !length_app in Hrun. simpl in *. lia.
Qed.

(** Whatever the response, the two lists that [decode_data] returns have
    the same length; when the pages of the response are a list, that length
    is the number of pages. *)
Theorem decode_data_parallel (data : json) (convert : bool) (w w' : World)
    (texts locations : list json) :
  decode_data data convert w = (Ok (texts, locations), w') ->
  List.length texts = List.length locations
  /\ forall result_ pages,
       getitem data "result" = Ok result_ ->
       getitem result_ "pages" = Ok (JArr pages) ->
       List.length texts = List.length pages.
Proof.
  unfold decode_data, bind, lift, ret, warning. intros Hrun.
  destruct (contains "result" data) as [[|]|e] eqn:Hhas; cbn beta iota in Hrun;
    cbn [negb] in Hrun; cbn beta iota in Hrun; try discriminate.
  - destruct (getitem data "result") as [result_|e] eqn:Hresult; cbn beta iota in Hrun;
      [|discriminate].
    destruct (contains "pages" result_) as [[|]|e] eqn:Hin; cbn beta iota in Hrun;
      cbn [negb] in Hrun; cbn beta iota in Hrun; try discriminate.
    + destruct (getitem result_ "pages") as [pages|e] eqn:Hpages; cbn beta iota in Hrun;
        [|discriminate].
      destruct (iter pages) as [items|e] eqn:Hiter; cbn beta iota in Hrun;
        [|discriminate].
      destruct (decode_pages convert items [] []) as [[t l]|e] eqn:Hdecoded;
        [|discriminate].
      injection Hrun as <- <- _.
      apply decode_pages_lengths in Hdecoded. simpl in Hdecoded.
      split; [lia|].
      intros result0 pages0 Hres Hpg. injection Hres as <-.
      rewrite Hpages in Hpg. injection Hpg as ->.
      simpl in Hiter. injection Hiter as <-. lia.
    + injection Hrun as <- <- _. split; [reflexivity|].
      intros result0 pages0 Hres Hpg. injection Hres as <-.
      unfold getitem in Hpg. unfold contains in Hin.
      destruct result_; try discriminate.
      destruct (lookup "pages" items); discriminate.
  - injection Hrun as <- <- _. split; [reflexivity|].
    intros result0 pages0 Hres. unfold getitem in Hres. unfold contains in Hhas.
    destruct data; try discriminate.
    destruct (lookup "result" items); discriminate.
Qed.

Lemma decode_page_plain (page : list (string * json)) :
  decode_page false (JObj page)
  = Ok (entry page "md" (JStr ""), page_location page).
Proof. unfold decode_page. rewrite !get_entry. reflexivity. Qed.

Lemma decode_pages_plain (pages : list (list (string * json))) :
  forall texts locations,
  decode_pages false (map JObj pages) texts locations
  = Ok ((texts ++ map (fun page => entry page "md" (JStr "")) pages)%list,
        (locations ++ map page_location pages)%list).
Proof.
  induction pages as [|page pages IH]; intros texts locations.
  - simpl. rewrite !app_nil_r. reflexivity.
  - cbn [map decode_pages]. rewrite decode_page_plain, IH, <- !app_assoc. reflexivity.
Qed.

(** Without the escape flag, a response whose pages are dicts is always
    decoded, whatever the pages hold: each text is the "md" entry as it is,
    a string or not, or the empty string when the page has none, and each
    location gets its defaults independently. *)
Theorem decode_data_plain (data result_ : list (string * json))
    (pages : list (list (string * json))) (w : World) :
  lookup "result" data = Some (JObj result_) ->
  lookup "pages" result_ = Some (JArr (map JObj pages)) ->
  decode_data (JObj data) false w
  = (Ok (map (fun page => entry page "md" (JStr "")) pages,
         map page_location pages), w).
Proof.
  intros Hresult Hpages.
  unfold decode_data, bind, lift, contains, getitem, iter, ret.
  rewrite Hresult. cbn beta iota. cbn [negb]. cbn beta iota.
  rewrite Hpages. cbn beta iota. cbn [negb]. cbn beta iota.
  rewrite decode_pages_plain. reflexivity.
Qed.

Lemma decode_pages_stops (convert : bool) (good : list (list (string * json)))
    (mds : list string) (bad : json) (rest : list json) (e : exn) :
  forall texts locations,
  map page_md good = map Some mds ->
  decode_page convert bad = Err e ->
  decode_pages convert (map JObj good ++ bad :: rest) texts locations = Err e.
Proof.
  revert mds. induction good as [|page good IH]; intros mds texts locations Hmds Hbad.
  - cbn [map app decode_pages]. rewrite Hbad. reflexivity.
  - destruct mds as [|s mds]; [discriminate|].
    simpl in Hmds. injection Hmds as Hmd Hrest.
    cbn [map app decode_pages]. rewrite (decode_page_text convert page s Hmd).
    apply (IH mds); assumption.
Qed.

(** One page that cannot be decoded fails the whole decode: after any
    number of pages with a text, a page that is not a dict raises
    [AttributeError], and with the escape flag a page whose "md" entry is
    not a string raises [TypeError]; the texts of the earlier pages are not
    returned. *)
Theorem decode_data_bad_page (data result_ : list (string * json))
    (good : list (list (string * json))) (mds : list string)
    (bad : json) (rest : list json) (convert : bool) (w : World) :
  lookup "result" data = Some (JObj result_) ->
  lookup "pages" result_ = Some (JArr (map JObj good ++ bad :: rest)) ->
  map page_md good = map Some mds ->
  ((forall page, bad <> JObj page) ->
     decode_data (JObj data) convert w = (Err AttributeError, w))
  /\ (forall page, bad = JObj page -> page_md page = None -> convert = true ->
        decode_data (JObj data) convert w = (Err TypeError, w)).
Proof.
  intros Hresult Hpages Hmds.
  assert (Hrun : forall e, decode_page convert bad = Err e ->
                           decode_data (JObj data) convert w = (Err e, w)).
  { intros e Hbad.
    unfold decode_data, bind, lift, contains, getitem, iter, ret.
    rewrite Hresult. cbn beta iota. cbn [negb]. cbn beta iota.
    rewrite Hpages. cbn beta iota. cbn [negb]. cbn beta iota.
    rewrite (decode_pages_stops convert good mds bad rest e [] [] Hmds Hbad).
    reflexivity. }
  split.
  - intros Hnot. apply Hrun. unfold decode_page, get.
    destruct bad; try reflexivity. elim (Hnot items). reflexivity.
  - intros page -> Hmd ->. apply Hrun. unfold decode_page. rewrite !get_entry.
    unfold page_md in Hmd. unfold entry.
    destruct (lookup "md" page) as [[| | |s| |]|]; try discriminate; reflexivity.
Qed.

(** ** The rewritten text holds no escaped delimiter *)

Lemma has_escaped_cons (cls : ascii -> bool) (c : ascii) (s : string) :
  has_escaped cls (String c s)
  = ((Ascii.eqb c backslash && head_cls cls s) || has_escaped cls s)%bool.
Proof. destruct s; simpl; [rewrite andb_false_r|]; reflexivity. Qed.

Section Rescan.
Variables (seen cls : ascii -> bool) (repl : string).
Hypothesis repl_head : forall s, head_cls seen (repl ++ s) = false.
Hypothesis repl_inside : forall s, has_escaped seen (repl ++ s) = has_escaped seen s.

(** The first character of a scanned text is the first character of the
    text or of the replacement. *)
Lemma head_re_sub_escaped (d : ascii) (s : string) :
  head_cls seen (re_sub_escaped cls repl (String d s)) = true -> seen d = true.
Proof.
  destruct s as [|e s].
  - rewrite re_sub_escaped_one. intros Hd. exact Hd.
  - rewrite re_sub_escaped_two.
    destruct (Ascii.eqb d backslash && cls e)%bool.
    + rewrite repl_head. discriminate.
    + intros Hd. exact Hd.
Qed.

(** A scanned text holds no escaped character of the class [seen] when
    the text held none, or when the scan removes all of them. *)
Lemma has_escaped_re_sub_escaped (s : string) :
  (has_escaped seen s = false \/ forall d, seen d = true -> cls d = true) ->
  has_escaped seen (re_sub_escaped cls repl s) = false.
Proof.
  induction s as [|c|c d s IHs IHds] using string_pair_ind; intros Hin.
  - reflexivity.
  - rewrite re_sub_escaped_one. reflexivity.
  - assert (Htail : has_escaped seen (String d s) = false
                    \/ forall d0, seen d0 = true -> cls d0 = true).
    { destruct Hin as [Hin|Hin]; [left|right; exact Hin].
      rewrite has_escaped_cons in Hin. apply orb_false_iff in Hin. apply Hin. }
    assert (Htail2 : has_escaped seen s = false
                     \/ forall d0, seen d0 = true -> cls d0 = true).
    { destruct Htail as [Ht|Ht]; [left|right; exact Ht].
      rewrite has_escaped_cons in Ht. apply orb_false_iff in Ht. apply Ht. }
    rewrite re_sub_escaped_two.
    destruct (Ascii.eqb c backslash && cls d)%bool eqn:Hmatch.
    + rewrite repl_inside. apply IHs. exact Htail2.
    + rewrite has_escaped_cons. rewrite (IHds Htail), orb_false_r.
      destruct (Ascii.eqb c backslash) eqn:Hc; [|reflexivity].
      destruct (head_cls seen (re_sub_escaped cls repl (String d s))) eqn:Hhead;
        [|reflexivity].
      apply head_re_sub_escaped in Hhead. exfalso.
      destruct Hin as [Hin|Hin].
      * rewrite has_escaped_cons in Hin. cbn [head_cls] in Hin.
        rewrite Hc, Hhead in Hin. discriminate.
      * rewrite (Hin d Hhead) in Hmatch. discriminate.
Qed.

End Rescan.

(** After the rewriting of the escape flag no escaped parenthesis and no
    escaped bracket is left in a text, so rewriting a second time changes
    nothing. *)
Theorem escape_to_dollar_clean (s : string) :
  has_escaped is_paren (escape_to_dollar s) = false
  /\ has_escaped is_bracket (escape_to_dollar s) = false
  /\ escape_to_dollar (escape_to_dollar s) = escape_to_dollar s.
Proof.
  assert (Hparen : has_escaped is_paren (escape_to_dollar s) = false).
  { unfold escape_to_dollar.
    apply (has_escaped_re_sub_escaped is_paren is_bracket "$$").
    - intros t. reflexivity.
    - intros t. change ("$$" ++ t) with (String "$" (String "$" t)).
      rewrite !has_escaped_cons. reflexivity.
    - left. apply (has_escaped_re_sub_escaped is_paren is_paren "$").
      + intros t. reflexivity.
      + intros t. change ("$" ++ t) with (String "$" t).
        rewrite has_escaped_cons. reflexivity.
      + right. intros d Hd. exact Hd. }
  assert (Hbracket : has_escaped is_bracket (escape_to_dollar s) = false).
  { unfold escape_to_dollar.
    apply (has_escaped_re_sub_escaped is_bracket is_bracket "$$").
    - intros t. reflexivity.
    - intros t. change ("$$" ++ t) with (String "$" (String "$" t)).
      rewrite !has_escaped_cons. reflexivity.
    - right. intros d Hd. exact Hd. }
  split; [exact Hparen|]. split; [exact Hbracket|].
  unfold escape_to_dollar at 1.
  rewrite (re_sub_escaped_none is_paren "$" _ Hparen).
  apply re_sub_escaped_none. exact Hbracket.
Qed.

(** ** The status poller on the other answers *)

Section Polling.
Context `{Collaborators}.

(** The poll up to the answer of the status endpoint. *)
Lemma uid_status_body_answered (apikey uid : string) (convert : bool)
    (w : World) (res : response) (data inner : list (string * json)) :
  net w (net_calls (trace w)) (status_request apikey uid) = Replied res ->
  status_code res = 200 ->
  json_body res = Some (JObj data) ->
  code_check (envelope_code data res) = None ->
  lookup "data" data = Some (JObj inner) ->
  uid_status_body apikey uid convert w
  = (let progress := entry inner "progress" (JNum 0) in
     let status := entry inner "status" (JStr "") in
     if eq_str status "processing" then
       ret (progress, JStr "Processing file", [], [])
     else if eq_str status "success" then
       decoded <- decode_data (JObj inner) convert ;;
       ret (JNum 100, JStr "Success", fst decoded, snd decoded)
     else if eq_str status "failed" then
       raise (RequestError ("Failed to deal with file! " ++ text res))
     else
       warning ("Unknown status: " ++ py_str status) ;;
       ret (progress, status, [], []))
    (log (EvNet (status_request apikey uid)) w).
Proof.
  intros Hnet Hcode Hjson Hcheck Hdata.
  unfold uid_status_body. unfold bind at 1. fold (status_request apikey uid).
  rewrite send_run, Hnet, Hcode. cbn [Z.eqb Pos.eqb negb].
  unfold json_loads. rewrite Hjson.
  unfold bind at 1. unfold ret at 1.
  unfold bind at 1. unfold lift at 1. rewrite get_code_envelope.
  unfold bind at 1. unfold check. rewrite Hcheck. unfold ret at 1.
  unfold bind at 1. unfold lift at 1. unfold getitem at 1. rewrite Hdata.
  unfold bind at 1. unfold lift at 1. rewrite get_entry.
  unfold bind at 1. unfold lift at 1. unfold getitem at 1. rewrite Hdata.
  unfold bind at 1. unfold lift at 1. rewrite get_entry.
  cbv zeta.
  destruct (eq_str (entry inner "status" (JStr "")) "processing"); [reflexivity|].
  destruct (eq_str (entry inner "status" (JStr "")) "success").
  - unfold bind at 1. unfold lift at 1. unfold getitem. rewrite Hdata. reflexivity.
  - reflexivity.
Qed.

(** A poll answered 200 with an accepted envelope: while the state is
    "processing" the snapshot carries the progress of the answer (0 when it
    has none), the label "Processing file" and no pages; a state that is
    none of "processing", "success" and "failed", or no state at all, gives
    a warning and the progress and the state of the answer as they are,
    with no pages. *)
Theorem uid_status_in_progress (apikey uid : string) (convert : bool)
    (w : World) (res : response) (data inner : list (string * json)) :
  net w (net_calls (trace w)) (status_request apikey uid) = Replied res ->
  status_code res = 200 ->
  json_body res = Some (JObj data) ->
  code_check (envelope_code data res) = None ->
  lookup "data" data = Some (JObj inner) ->
  (lookup "status" inner = Some (JStr "processing") ->
     uid_status apikey uid convert w
     = (Ok (entry inner "progress" (JNum 0), JStr "Processing file", [], []),
        log (EvNet (status_request apikey uid)) w))
  /\ (entry inner "status" (JStr "") <> JStr "processing" ->
      entry inner "status" (JStr "") <> JStr "success" ->
      entry inner "status" (JStr "") <> JStr "failed" ->
      uid_status apikey uid convert w
      = (Ok (entry inner "progress" (JNum 0), entry inner "status" (JStr ""), [], []),
         log (EvWarn ("Unknown status: " ++ py_str (entry inner "status" (JStr ""))))
           (log (EvNet (status_request apikey uid)) w))).
Proof.
  intros Hnet Hcode Hjson Hcheck Hdata.
  pose proof (uid_status_body_answered apikey uid convert w res data inner
                Hnet Hcode Hjson Hcheck Hdata) as Hbody.
  cbv zeta in Hbody. split.
  - intros Hstatus. unfold uid_status. apply async_retry_returns.
    rewrite Hbody. unfold entry at 1. rewrite Hstatus. reflexivity.
  - intros Hp Hs Hf. unfold uid_status. apply async_retry_returns.
    rewrite Hbody. rewrite !eq_str_other by assumption. reflexivity.
Qed.

(** A poll whose answer is not 200, or is 200 with a body that is not
    JSON, raises a plain exception that holds the status and the text of
    the answer: no status, 429 included, is told apart. *)
Theorem uid_status_bad_answer (apikey uid : string) (convert : bool)
    (w : World) (res : response) :
  net w (net_calls (trace w)) (status_request apikey uid) = Replied res ->
  (status_code res <> 200 ->
     uid_status_body apikey uid convert w
     = (Err (PyException ("Get status error! " ++ py_str (JNum (status_code res))
                            ++ ":" ++ text res)),
        log (EvNet (status_request apikey uid)) w))
  /\ (status_code res = 200 -> json_body res = None ->
      uid_status_body apikey uid convert w
      = (Err (PyException ("Get status error with " ++ exn_str JSONDecodeError ++ "! "
                             ++ py_str (JNum (status_code res)) ++ ":" ++ text res)),
         log (EvNet (status_request apikey uid)) w)).
Proof.
  intros Hnet. split.
  - intros Hcode. unfold uid_status_body. unfold bind at 1.
    fold (status_request apikey uid). rewrite send_run, Hnet.
    apply Z.eqb_neq in Hcode. rewrite Hcode. reflexivity.
  - intros Hcode Hjson. unfold uid_status_body. unfold bind at 1.
    fold (status_request apikey uid). rewrite send_run, Hnet, Hcode.
    cbn [Z.eqb Pos.eqb negb]. unfold json_loads. rewrite Hjson. reflexivity.
Qed.

End Polling.

(** ** One round trip per attempt *)

Lemma round_trips_app (t1 t2 : list event) :
  round_trips (t1 ++ t2)%list = (round_trips t1 ++ round_trips t2)%list.
Proof. unfold round_trips. apply flat_map_app. Qed.

Lemma round_trips_log (e : event) (w : World) :
  round_trips (trace (log e w))
  = (round_trips (trace w) ++ match e with EvNet r => [r] | _ => [] end)%list.
Proof. rewrite trace_log, round_trips_app. simpl. rewrite app_nil_r. reflexivity. Qed.

Lemma decode_data_round_trips (data : json) (convert : bool) (w : World) :
  round_trips (trace (snd (decode_data data convert w))) = round_trips (trace w).
Proof.
  unfold decode_data, bind, lift, ret, warning.
  repeat (cbn beta iota;
          match goal with
          | |- context [if ?c then _ else _] => destruct c
          | |- context [match ?x with Ok _ => _ | Err _ => _ end] => destruct x
          end);
    simpl snd; rewrite ?round_trips_log, ?app_nil_r; reflexivity.
Qed.

Section SingleRoundTrip.
Context `{Collaborators}.

(** Whatever the service answers, one attempt of [uid_status] and of
    [get_convert_result] makes exactly one round trip, the query for the
    uid, and so does one attempt of [convert_parse] on a supported format;
    on an unsupported format [convert_parse] makes none. *)
Theorem single_round_trip (apikey uid to : string) (filename : option string)
    (convert : bool) (w : World) :
  round_trips (trace (snd (uid_status_body apikey uid convert w)))
  = (round_trips (trace w) ++ [status_request apikey uid])%list
  /\ round_trips (trace (snd (get_convert_result_body apikey uid w)))
     = (round_trips (trace w) ++ [convert_result_request apikey uid])%list
  /\ round_trips (trace (snd (convert_parse_body apikey uid to filename w)))
     = (round_trips (trace w)
        ++ (if in_strs to ["md"; "tex"; "docx"]
            then [convert_request apikey uid to filename] else []))%list.
Proof.
  split; [|split].
  - unfold uid_status_body. unfold bind at 1. fold (status_request apikey uid).
    rewrite send_run.
    destruct (net w (net_calls (trace w)) (status_request apikey uid)) as [res|e];
      [|simpl snd; rewrite round_trips_log; reflexivity].
    destruct (negb (status_code res =? 200));
      [simpl snd; rewrite round_trips_log; reflexivity|].
    unfold bind, lift, check, raise, ret, warning.
    repeat (cbn beta iota;
            match goal with
            | |- context [decode_data ?d ?c ?w0] =>
                let Hd := fresh "Hd" in
                pose proof (decode_data_round_trips d c w0) as Hd;
                destruct (decode_data d c w0) as [[?|?] ?]; simpl snd in Hd
            | |- context [if ?c then _ else _] => destruct c
            | |- context [match ?x with Ok _ => _ | Err _ => _ end] => destruct x
            | |- context [match ?x with Some _ => _ | None => _ end] => destruct x
            end);
      simpl snd; try (rewrite Hd); rewrite ?round_trips_log, ?app_nil_r; reflexivity.
  - unfold get_convert_result_body. unfold bind at 1.
    fold (convert_result_request apikey uid). rewrite send_run.
    unfold bind, lift, raise, ret.
    repeat (cbn beta iota;
            match goal with
            | |- context [if ?c then _ else _] => destruct c
            | |- context [match ?x with Ok _ => _ | Err _ => _ end] => destruct x
            | |- context [match ?x with Replied _ => _ | Failed _ => _ end] => destruct x
            end);
      simpl snd; rewrite ?round_trips_log, ?app_nil_r; reflexivity.
  - unfold convert_parse_body.
    destruct (in_strs to ["md"; "tex"; "docx"]); cbn [negb];
      [|simpl snd; rewrite app_nil_r; reflexivity].
    unfold bind at 1. fold (convert_request apikey uid to filename). rewrite send_run.
    unfold bind, lift, raise, ret.
    repeat (cbn beta iota;
            match goal with
            | |- context [if ?c then _ else _] => destruct c
            | |- context [match ?x with Ok _ => _ | Err _ => _ end] => destruct x
            | |- context [match ?x with Replied _ => _ | Failed _ => _ end] => destruct x
            end);
      simpl snd; rewrite ?round_trips_log, ?app_nil_r; reflexivity.
Qed.

(** An answer other than 200 to [convert_parse] or to [get_convert_result]
    raises a plain exception that holds the status and the text: no status,
    429 included, is told apart. *)
Theorem convert_bad_answer (apikey uid to : string) (filename : option string)
    (w : World) (res : response) :
  in_strs to ["md"; "tex"; "docx"] = true ->
  net w (net_calls (trace w)) (convert_request apikey uid to filename) = Replied res ->
  net w (net_calls (trace w)) (convert_result_request apikey uid) = Replied res ->
  status_code res <> 200 ->
  convert_parse_body apikey uid to filename w
  = (Err (PyException ("Conversion request failed: " ++ py_str (JNum (status_code res))
                         ++ ":" ++ text res)),
     log (EvNet (convert_request apikey uid to filename)) w)
  /\ get_convert_result_body apikey uid w
     = (Err (PyException ("Get conversion result failed: "
                            ++ py_str (JNum (status_code res)) ++ ":" ++ text res)),
        log (EvNet (convert_result_request apikey uid)) w).
Proof.
  intros Hto Hnet1 Hnet2 Hcode. apply Z.eqb_neq in Hcode. split.
  - unfold convert_parse_body. rewrite Hto. cbn [negb]. unfold bind at 1.
    fold (convert_request apikey uid to filename).
    rewrite send_run, Hnet1, Hcode. reflexivity.
  - unfold get_convert_result_body. unfold bind at 1.
    fold (convert_result_request apikey uid).
    rewrite send_run, Hnet2, Hcode. reflexivity.
Qed.

End SingleRoundTrip.

(** The payload of [convert_parse] carries the output file name exactly
    when one is given, it is not empty, and the format is "md" or "tex";
    for "docx" the name is left out. *)
Theorem convert_payload_filename (uid to : string) (filename : option string) :
  (forall name, filename = Some name -> name <> "" -> to = "md" \/ to = "tex" ->
     convert_payload uid to filename
     = JObj [("uid", JStr uid); ("to", JStr to); ("filename", JStr name)])
  /\ (filename = None \/ filename = Some "" \/ (to <> "md" /\ to <> "tex") ->
      convert_payload uid to filename = JObj [("uid", JStr uid); ("to", JStr to)]).
Proof.
  split.
  - intros name -> Hname Hto. unfold convert_payload, truthy.
    destruct name as [|c name]; [congruence|].
    destruct Hto as [-> | ->]; reflexivity.
  - intros [-> | [-> | [Hmd Htex]]]; try reflexivity.
    unfold convert_payload. destruct filename as [name|]; [|reflexivity].
    unfold in_strs. cbn [existsb].
    apply String.eqb_neq in Hmd, Htex. rewrite Hmd, Htex.
    rewrite andb_false_r. reflexivity.
Qed.

(** ** The trace only grows *)

Lemma grows_ret {A} (a : A) : grows (ret a).
Proof. intros w. exists []. simpl. rewrite app_nil_r. reflexivity. Qed.

Lemma grows_raise {A} (e : exn) : grows (@raise A e).
Proof. intros w. exists []. simpl. rewrite app_nil_r. reflexivity. Qed.

Lemma grows_lift {A} (r : result A) : grows (lift r).
Proof. intros w. exists []. simpl. rewrite app_nil_r. reflexivity. Qed.

Lemma grows_bind {A B} (m : M A) (k : A -> M B) :
  grows m -> (forall a, grows (k a)) -> grows (bind m k).
Proof.
  intros Hm Hk w. unfold bind. destruct (Hm w) as [evs Hevs].
  destruct (m w) as [[a|e] w1]; simpl in Hevs.
  - destruct (Hk a w1) as [evs' Hevs']. exists (evs ++ evs')%list.
    rewrite Hevs', Hevs, app_assoc. reflexivity.
  - exists evs. exact Hevs.
Qed.

Lemma grows_send (r : request) : grows (send r).
Proof. intros w. exists [EvNet r]. rewrite send_run. reflexivity. Qed.

Lemma grows_print (msg : string) : grows (print msg).
Proof. intros w. exists [EvPrint msg]. reflexivity. Qed.

Lemma grows_sleep (d : Z) : grows (sleep d).
Proof. intros w. exists [EvSleep d]. reflexivity. Qed.

Lemma grows_local (e : event) (path : string) : grows (local e path).
Proof. intros w. exists [e]. unfold local. destruct (local_ok w e); reflexivity. Qed.

Create HintDb grows.

#[local] Hint Resolve grows_ret grows_raise grows_lift grows_send grows_print
  grows_sleep grows_local : grows.

(** Splits a computation along its binds and tests. *)
Ltac grows_steps :=
  repeat first
    [ apply grows_bind; [|intros ?]
    | match goal with
      | |- grows (if ?c then _ else _) => destruct c
      | |- grows (match ?x with Ok _ => _ | Err _ => _ end) => destruct x
      | |- grows (match ?x with Some _ => _ | None => _ end) => destruct x
      | |- grows (match ?x with [] => _ | _ :: _ => _ end) => destruct x
      end
    | solve [auto with grows] ].

(** What a round trip followed by a computation that only adds events
    leaves in the trace: the request first. *)
Lemma first_round_trip {A B} (pre : M A) (r : A -> request) (k : response -> M B)
    (w w1 : World) (a : A) :
  pre w = (Ok a, w1) ->
  (forall res, grows (k res)) ->
  exists rest,
    trace (snd (bind pre (fun x => bind (send (r x)) k) w))
    = (trace w1 ++ EvNet (r a) :: rest)%list.
Proof.
  intros Hpre Hk. unfold bind at 1. rewrite Hpre. unfold bind. rewrite send_run.
  destruct (net w1 (net_calls (trace w1)) (r a)) as [res|e].
  - destruct (Hk res (log (EvNet (r a)) w1)) as [evs Hevs].
    exists evs. rewrite Hevs, trace_log, <- app_assoc. reflexivity.
  - exists []. reflexivity.
Qed.

Section LegacyGrows.
Context `{Collaborators}.

Lemma get_limit_grows (api_key : string) : grows (get_limit api_key).
Proof. unfold get_limit. grows_steps. Qed.

Lemma un_zip_grows (zip_path : string) : grows (un_zip zip_path).
Proof.
  intros w. unfold un_zip.
  assert (Hboth : grows (local (EvExtract zip_path (extract_path zip_path)) zip_path ;;
                         local (EvRemove zip_path) zip_path)) by grows_steps.
  destruct (Hboth w) as [evs Hevs]. unfold extract_path in Hevs.
  destruct ((local _ zip_path ;; local _ zip_path) w) as [[u|e] w1];
    exists evs; exact Hevs.
Qed.

Lemma uuid2file_grows (depth : nat) :
  forall api_key uuid output_format output_path,
  grows (uuid2file depth api_key uuid output_format output_path).
Proof.
  induction depth as [|depth IH]; intros api_key uuid output_format output_path.
  - apply grows_raise.
  - cbn [uuid2file].
    pose proof get_limit_grows. pose proof un_zip_grows.
    grows_steps; auto with grows.
Qed.

End LegacyGrows.

(** ** The legacy export *)

Section LegacyExport.
Context `{Collaborators}.

(** [un_zip] removes the archive only after it has been extracted: when
    the extraction fails the error is a [RuntimeError] and the archive is
    still there; when both steps succeed the result is the folder next to
    the archive that bears its base name. *)
Theorem un_zip_keeps_failed_archive (zip_path : string) (w : World) :
  (local_ok w (EvExtract zip_path (extract_path zip_path)) = false ->
     un_zip zip_path w
     = (Err (RuntimeError ("Unzip failed: " ++ exn_str (OSError zip_path))),
        log (EvExtract zip_path (extract_path zip_path)) w))
  /\ (local_ok w (EvExtract zip_path (extract_path zip_path)) = true ->
      local_ok w (EvRemove zip_path) = true ->
      un_zip zip_path w
      = (Ok (extract_path zip_path),
         log (EvRemove zip_path) (log (EvExtract zip_path (extract_path zip_path)) w))).
Proof.
  unfold un_zip, extract_path, bind, local. split.
  - intros Hfail. rewrite Hfail. reflexivity.
  - intros Hextract Hremove. rewrite Hextract. cbn [local_ok log]. rewrite Hremove.
    reflexivity.
Qed.

(** An answer to [uuid2file] that is neither 200 nor 429 raises a
    [RuntimeError] with the status and the text after this one round trip:
    nothing is written and no retry is made. *)
Theorem uuid2file_failed_status (depth : nat) (api_key uuid output_format : string)
    (output_path : option string) (w : World) (res : response) :
  net w (net_calls (trace w)) (export_request api_key uuid output_format) = Replied res ->
  status_code res <> 200 ->
  status_code res <> 429 ->
  uuid2file (S depth) api_key uuid output_format output_path w
  = (Err (RuntimeError ("Uuid2file failed, status code: "
                          ++ py_str (JNum (status_code res)) ++ ":" ++ text res)),
     log (EvNet (export_request api_key uuid output_format)) w).
Proof.
  intros Hnet H200 H429. cbn [uuid2file]. unfold bind at 1.
  fold (export_request api_key uuid output_format). rewrite send_run, Hnet.
  apply Z.eqb_neq in H200, H429. rewrite H200, H429. reflexivity.
Qed.

(** [uuid2file] on an answer 200, with a local file system that does not
    fail and a limit query that succeeds: the content of the answer is
    written under the name "uuid.docx" or "uuid.zip" in the given folder (or
    at the given path when it already ends with that format, or under
    "doc2xoutput" in the working directory when none is given), an archive
    is extracted and removed, the remaining limit is queried and printed,
    and the result is the file for "docx" and the extracted folder for any
    other format. *)
Theorem uuid2file_saves_export (depth : nat) (api_key uuid output_format : string)
    (output_path : option string) (w : World) (res limit : response)
    (body data : list (string * json)) (remain : json) :
  net w (net_calls (trace w)) (export_request api_key uuid output_format) = Replied res ->
  status_code res = 200 ->
  (forall e, local_ok w e = true) ->
  net w (S (net_calls (trace w))) (limit_request api_key) = Replied limit ->
  status_code limit = 200 ->
  json_body limit = Some (JObj body) ->
  lookup "data" body = Some (JObj data) ->
  lookup "remain" data = Some remain ->
  let saved_as := archive_format output_format in
  let target := export_target uuid saved_as output_path in
  let saved := log (EvWrite target (text res))
                 (log (EvMakedirs (os_path_dirname target))
                    (log (EvNet (export_request api_key uuid output_format)) w)) in
  let told w0 := log (EvPrint ("Doc2x remaining page limit: " ++ py_str remain))
                   (log (EvNet (limit_request api_key)) w0) in
  uuid2file (S depth) api_key uuid output_format output_path w
  = if (output_format =? "docx")%string
    then (Ok target, told saved)
    else (Ok (extract_path target),
          told (log (EvRemove target) (log (EvExtract target (extract_path target)) saved))).
Proof.
  intros Hnet Hcode Hlocal Hlimit Hlcode Hljson Hdata Hremain. cbv zeta.
  cbn [uuid2file]. unfold bind at 1.
  fold (export_request api_key uuid output_format). rewrite send_run, Hnet, Hcode.
  cbn [Z.eqb Pos.eqb].
  fold (archive_format output_format).
  fold (export_target uuid (archive_format output_format) output_path).
  set (target := export_target uuid (archive_format output_format) output_path).
  unfold bind at 1. unfold local at 1. cbn [local_ok log]. rewrite Hlocal.
  unfold bind at 1. unfold local at 1. cbn [local_ok log]. rewrite Hlocal.
  unfold archive_format at 1.
  destruct (output_format =? "docx")%string eqn:Hfmt.
  - apply String.eqb_eq in Hfmt. subst output_format.
    change ("docx" =? "zip")%string with false. cbv iota.
    unfold bind at 1. unfold ret at 1.
    unfold bind at 1. unfold get_limit. unfold bind at 1.
    fold (limit_request api_key). rewrite send_run.
    rewrite !net_log, !net_calls_log. cbn [is_net]. rewrite Hlimit, Hlcode.
    cbn [Z.eqb Pos.eqb].
    unfold bind, lift, json_loads, getitem, print, ret.
    rewrite Hljson, Hdata, Hremain. reflexivity.
  - change ("zip" =? "zip")%string with true. cbv iota.
    unfold bind at 1. unfold un_zip. fold (extract_path target).
    unfold bind at 1. unfold local at 1. cbn [local_ok log]. rewrite Hlocal.
    unfold local at 1. cbn [local_ok log]. rewrite Hlocal.
    unfold bind at 1. unfold get_limit. unfold bind at 1.
    fold (limit_request api_key). rewrite send_run.
    rewrite !net_log, !net_calls_log. cbn [is_net]. rewrite Hlimit, Hlcode.
    cbn [Z.eqb Pos.eqb].
    unfold bind, lift, json_loads, getitem, print, ret.
    rewrite Hljson, Hdata, Hremain. reflexivity.
Qed.

(** Whatever follows, a call of [uuid2file] starts with its request. *)
Lemma uuid2file_first_event (depth : nat) (api_key uuid output_format : string)
    (output_path : option string) (w : World) :
  exists rest,
    trace (snd (uuid2file (S depth) api_key uuid output_format output_path w))
    = (trace w ++ EvNet (export_request api_key uuid output_format) :: rest)%list.
Proof.
  cbn [uuid2file]. unfold bind at 1.
  fold (export_request api_key uuid output_format). rewrite send_run.
  destruct (net w (net_calls (trace w)) (export_request api_key uuid output_format))
    as [res|e]; [|exists []; reflexivity].
  match goal with
  | |- context [trace (snd (?m ?w0))] => assert (Hgrows : grows m)
  end.
  { pose proof get_limit_grows. pose proof un_zip_grows.
    pose proof (uuid2file_grows depth).
    grows_steps; auto with grows. }
  destruct (Hgrows (log (EvNet (export_request api_key uuid output_format)) w))
    as [evs Hevs].
  exists evs. rewrite Hevs, trace_log, <- app_assoc. reflexivity.
Qed.

(** After an answer 429, [uuid2file] waits twice ten seconds and asks
    again, but for the format it works with: the second request of an
    export that was asked as anything but "docx" names the format "zip". *)
Theorem uuid2file_retry_asks_archive (depth : nat) (api_key uuid output_format : string)
    (output_path : option string) (w : World) (res : response) :
  net w (net_calls (trace w)) (export_request api_key uuid output_format) = Replied res ->
  status_code res = 429 ->
  exists rest,
    trace (snd (uuid2file (S (S depth)) api_key uuid output_format output_path w))
    = (trace w
       ++ [EvNet (export_request api_key uuid output_format);
           EvPrint "Too many requests, wait for 20s and try again"; EvSleep 10;
           EvPrint "10s left"; EvSleep 10;
           EvNet (export_request api_key uuid (archive_format output_format))]
       ++ rest)%list.
Proof.
  intros Hnet Hcode.
  rewrite (uuid2file_rate_limit_retry (S depth) _ _ _ _ w res Hnet Hcode).
  fold (archive_format output_format).
  destruct (uuid2file_first_event depth api_key uuid (archive_format output_format)
              output_path
              (after_rate_limit (export_request api_key uuid output_format) w))
    as [rest Hrest].
  exists rest. rewrite Hrest. unfold after_rate_limit.
  rewrite !trace_log, <- !app_assoc. reflexivity.
Qed.

End LegacyExport.

(** ** The legacy conversions [pdf2file] and [pic2file] *)

Section LegacyConversions.
Context `{Collaborators}.
Variable loads : string -> option json.
Variable index_error : exn.

Lemma flag_text_again (flag : json) : flag_text (JStr (flag_text flag)) = "true".
Proof. unfold flag_text. destruct (truth flag); reflexivity. Qed.

Lemma grows_rewrapped {A} (m : M A) (f : exn -> exn) :
  grows m ->
  grows (fun w => match m w with
                  | (Ok a, w') => (Ok a, w')
                  | (Err e, w') => (Err (f e), w')
                  end).
Proof.
  intros Hm w. destruct (Hm w) as [evs Hevs]. exists evs.
  destruct (m w) as [[a|e] w1]; exact Hevs.
Qed.

Lemma platform2file_grows (endpoint field failed : string) (depth : nat) :
  forall api_key file output_path output_format flag,
  grows (platform2file loads index_error endpoint field failed depth api_key file
           output_path output_format flag).
Proof.
  induction depth as [|depth IH]; intros api_key file output_path output_format flag.
  - apply grows_raise.
  - cbn [platform2file].
    assert (Hopen : grows (open_rb file)).
    { intros w. exists [EvOpen file]. unfold open_rb.
      destruct (file_content w file); reflexivity. }
    pose proof get_limit_grows.
    grows_steps; auto with grows.
    apply (grows_rewrapped (uuid2file depth api_key _ output_format output_path)).
    apply uuid2file_grows.
Qed.

(** Whatever follows, a call on a readable file starts with the open and
    the request, which carries the flag as text. *)
Lemma platform2file_first_events (endpoint field failed : string) (depth : nat)
    (api_key file : string) (output_path : option string) (output_format : string)
    (flag : json) (w : World) (bytes : string) :
  file_content w file = Some bytes ->
  exists rest,
    trace (snd (platform2file loads index_error endpoint field failed (S depth)
                  api_key file output_path output_format flag w))
    = (trace w ++ EvOpen file
         :: EvNet (platform_request endpoint field api_key file (flag_text flag))
         :: rest)%list.
Proof.
  intros Hbytes. cbn [platform2file]. unfold bind at 1. unfold open_rb. rewrite Hbytes.
  unfold bind at 1. rewrite send_run.
  destruct (net _ _ _) as [res|e];
    [|exists []; simpl snd; rewrite !trace_log, <- app_assoc; reflexivity].
  match goal with
  | |- context [trace (snd (?m ?w0))] => assert (Hgrows : grows m)
  end.
  { pose proof get_limit_grows.
    pose proof (platform2file_grows endpoint field failed depth).
    grows_steps; auto with grows.
    apply (grows_rewrapped (uuid2file depth api_key _ output_format output_path)).
    apply uuid2file_grows. }
  match goal with
  | |- context [trace (snd (_ ?w0))] => destruct (Hgrows w0) as [evs Hevs]
  end.
  exists evs. rewrite Hevs, !trace_log, <- !app_assoc. reflexivity.
Qed.

(** On an answer 429 the function waits and calls itself with the flag it
    has already turned into text. *)
Lemma platform2file_rate_limit_retry (endpoint field failed : string) (depth : nat)
    (api_key file : string) (output_path : option string) (output_format : string)
    (flag : json) (w : World) (bytes : string) (res : response) :
  file_content w file = Some bytes ->
  net w (net_calls (trace w))
    (platform_request endpoint field api_key file (flag_text flag)) = Replied res ->
  status_code res = 429 ->
  platform2file loads index_error endpoint field failed (S depth) api_key file
    output_path output_format flag w
  = platform2file loads index_error endpoint field failed depth api_key file
      output_path output_format (JStr (flag_text flag))
      (after_rate_limit (platform_request endpoint field api_key file (flag_text flag))
         (log (EvOpen file) w)).
Proof.
  intros Hbytes Hnet Hcode.
  cbn [platform2file]. unfold bind at 1. unfold open_rb. rewrite Hbytes.
  unfold bind at 1. rewrite send_run, net_log, net_calls_log. cbn [is_net].
  rewrite Hnet, Hcode. cbn [Z.eqb Pos.eqb].
  unfold bind, print, sleep, ret.
  fold (after_rate_limit (platform_request endpoint field api_key file (flag_text flag))
          (log (EvOpen file) w)).
  destruct (platform2file loads index_error endpoint field failed depth api_key file
              output_path output_format (JStr (flag_text flag)) _) as [[path|e] w'];
    reflexivity.
Qed.

(** After an answer 429, [pdf2file] and [pic2file] ask again with the flag
    "true", whatever the caller passed: the second request of a conversion
    asked with [ocr] or [img_correction] false carries "true". *)
Theorem legacy_retry_sends_true (depth : nat) (api_key file : string)
    (output_path : option string) (output_format : string) (flag : json)
    (w : World) (bytes : string) (res : response) :
  file_content w file = Some bytes ->
  net w (net_calls (trace w))
    (platform_request "/platform/pdf" "ocr" api_key file (flag_text flag)) = Replied res ->
  net w (net_calls (trace w))
    (platform_request "/platform/img" "img_correction" api_key file (flag_text flag))
  = Replied res ->
  status_code res = 429 ->
  (exists rest,
     round_trips (trace (snd (pdf2file loads index_error (S (S depth)) api_key file
                                output_path output_format flag w)))
     = (round_trips (trace w)
        ++ [platform_request "/platform/pdf" "ocr" api_key file (flag_text flag);
            platform_request "/platform/pdf" "ocr" api_key file "true"]
        ++ rest)%list)
  /\ (exists rest,
        round_trips (trace (snd (pic2file loads index_error (S (S depth)) api_key file
                                   output_path output_format flag w)))
        = (round_trips (trace w)
           ++ [platform_request "/platform/img" "img_correction" api_key file
                 (flag_text flag);
               platform_request "/platform/img" "img_correction" api_key file "true"]
           ++ rest)%list).
Proof.
  intros Hbytes Hpdf Himg Hcode.
  assert (Hboth : forall endpoint field failed,
            net w (net_calls (trace w))
              (platform_request endpoint field api_key file (flag_text flag))
            = Replied res ->
            exists rest,
              round_trips (trace (snd (platform2file loads index_error endpoint field
                                         failed (S (S depth)) api_key file output_path
                                         output_format flag w)))
              = (round_trips (trace w)
                 ++ [platform_request endpoint field api_key file (flag_text flag);
                     platform_request endpoint field api_key file "true"]
                 ++ rest)%list).
  { intros endpoint field failed Hnet.
    rewrite (platform2file_rate_limit_retry endpoint field failed (S depth) api_key
               file output_path output_format flag w bytes res Hbytes Hnet Hcode).
    destruct (platform2file_first_events endpoint field failed depth api_key file
                output_path output_format (JStr (flag_text flag))
                (after_rate_limit
                   (platform_request endpoint field api_key file (flag_text flag))
                   (log (EvOpen file) w)) bytes Hbytes) as [rest Hrest].
    exists (round_trips rest). rewrite Hrest, flag_text_again. unfold after_rate_limit.
    rewrite !trace_log, <- !app_assoc, !round_trips_app. simpl.
    reflexivity. }
  split; [apply Hboth; exact Hpdf | apply Hboth; exact Himg].
Qed.

(** [pdf2file] and [pic2file] check the output format only after the file
    has been sent and the answer read: an output format that is none of
    "text", "md", "latex", "docx" and "md_dollar" raises the [ValueError]
    after the open and the round trip of the conversion. *)
Theorem legacy_format_checked_late (depth : nat) (api_key file : string)
    (output_path : option string) (output_format : string) (flag : json)
    (w : World) (bytes : string) (res : response)
    (first uuid : json) (more : list json) :
  file_content w file = Some bytes ->
  net w (net_calls (trace w))
    (platform_request "/platform/pdf" "ocr" api_key file (flag_text flag)) = Replied res ->
  net w (net_calls (trace w))
    (platform_request "/platform/img" "img_correction" api_key file (flag_text flag))
  = Replied res ->
  status_code res = 200 ->
  parse_lines loads (split_lines (text res)) [] = Ok (first :: more) ->
  getitem first "uuid" = Ok uuid ->
  in_strs output_format ["text"; "md"; "latex"; "docx"; "md_dollar"] = false ->
  pdf2file loads index_error (S depth) api_key file output_path output_format flag w
  = (Err (ValueError
            "output_format should be one of 'text', 'md', 'latex', 'docx', 'md_dollar'"),
     log (EvNet (platform_request "/platform/pdf" "ocr" api_key file (flag_text flag)))
       (log (EvOpen file) w))
  /\ pic2file loads index_error (S depth) api_key file output_path output_format flag w
     = (Err (ValueError
               "output_format should be one of 'text', 'md', 'latex', 'docx', 'md_dollar'"),
        log (EvNet (platform_request "/platform/img" "img_correction" api_key file
                      (flag_text flag)))
          (log (EvOpen file) w)).
Proof.
  intros Hbytes Hpdf Himg Hcode Hparse Huuid Hfmt.
  unfold in_strs in Hfmt. cbn [existsb] in Hfmt.
  apply orb_false_iff in Hfmt. destruct Hfmt as [Htext Hrest].
  split; unfold pdf2file, pic2file; cbn [platform2file];
    unfold bind at 1; unfold open_rb; rewrite Hbytes;
    unfold bind at 1; rewrite send_run, net_log, net_calls_log; cbn [is_net];
    [rewrite Hpdf | rewrite Himg]; rewrite Hcode; cbn [Z.eqb Pos.eqb];
    unfold bind, lift, ret, raise; rewrite Hparse, Huuid, Htext;
    unfold in_strs; cbn [existsb]; rewrite Hrest; reflexivity.
Qed.

Lemma join_texts_from (events : list json) (text : string) :
  join_texts events text
  = text ++ fold_right append ""
              (map (fun event => match first_page_md event with
                                 | Some s => s
                                 | None => ""
                                 end) events).
Proof.
  revert text. induction events as [|event events IH]; intros text.
  - simpl. rewrite string_app_nil_r. reflexivity.
  - cbn [join_texts map fold_right]. destruct (first_page_md event) as [s|].
    + rewrite IH, string_app_assoc. reflexivity.
    + rewrite IH. reflexivity.
Qed.

(** [pdf2file] with the output format "text": on an answer 200 whose
    events start with one that has a uuid, and a limit query that succeeds,
    the result is the texts of the first pages of the events, in order, an
    event without such a text adding nothing; the limit query is the second
    and last round trip. *)
Theorem pdf2file_text (depth : nat) (api_key file : string)
    (output_path : option string) (flag : json)
    (w : World) (bytes : string) (res limit : response)
    (first uuid remain : json) (more : list json) (body data : list (string * json)) :
  file_content w file = Some bytes ->
  net w (net_calls (trace w))
    (platform_request "/platform/pdf" "ocr" api_key file (flag_text flag)) = Replied res ->
  status_code res = 200 ->
  parse_lines loads (split_lines (text res)) [] = Ok (first :: more) ->
  getitem first "uuid" = Ok uuid ->
  net w (S (net_calls (trace w))) (limit_request api_key) = Replied limit ->
  status_code limit = 200 ->
  json_body limit = Some (JObj body) ->
  lookup "data" body = Some (JObj data) ->
  lookup "remain" data = Some remain ->
  pdf2file loads index_error (S depth) api_key file output_path "text" flag w
  = (Ok (fold_right append ""
           (map (fun event => match first_page_md event with
                              | Some s => s
                              | None => ""
                              end) (first :: more))),
     log (EvPrint ("Doc2x remaining page limit: " ++ py_str remain))
       (log (EvNet (limit_request api_key))
          (log (EvNet (platform_request "/platform/pdf" "ocr" api_key file
                         (flag_text flag)))
             (log (EvOpen file) w)))).
Proof.
  intros Hbytes Hnet Hcode Hparse Huuid Hlimit Hlcode Hljson Hdata Hremain.
  unfold pdf2file. cbn [platform2file].
  unfold bind at 1. unfold open_rb. rewrite Hbytes.
  unfold bind at 1. rewrite send_run, net_log, net_calls_log. cbn [is_net].
  rewrite Hnet, Hcode. cbn [Z.eqb Pos.eqb].
  unfold bind at 1. unfold lift at 1. rewrite Hparse.
  unfold bind at 1. unfold ret at 1.
  unfold bind at 1. unfold lift at 1. rewrite Huuid.
  change ("text" =? "text")%string with true. cbv iota.
  unfold bind at 1. unfold get_limit. unfold bind at 1.
  fold (limit_request api_key). rewrite send_run.
  rewrite !net_log, !net_calls_log. cbn [is_net]. rewrite Hlimit, Hlcode.
  cbn [Z.eqb Pos.eqb].
  unfold bind, lift, json_loads, getitem, print, ret.
  rewrite Hljson, Hdata, Hremain. rewrite join_texts_from. reflexivity.
Qed.

End LegacyConversions.

(** ** What [mds_replace_imgs] reports *)

Section ReplaceImagesReport.
Context `{Collaborators}.

Lemma collect_finished_result (finished : list (string * option exn)) :
  forall success_files fail_files Fail_flag w,
  fst (collect_finished finished success_files fail_files Fail_flag w)
  = Ok ((success_files
         ++ map fst (filter (fun task => negb (task_failed task)) finished))%list,
        (fail_files
         ++ flat_map (fun task => match snd task with
                                  | Some error =>
                                      [JObj [("error", JStr (exn_str error));
                                             ("path", JStr (fst task))]]
                                  | None => []
                                  end) finished)%list,
        (Fail_flag && negb (existsb task_failed finished))%bool).
Proof.
  induction finished as [|[mdfile [error|]] rest IH];
    intros success_files fail_files Fail_flag w.
  - simpl. rewrite !app_nil_r, andb_true_r. reflexivity.
  - cbn [collect_finished]. unfold bind, print. rewrite IH.
    cbn [filter task_failed snd negb map flat_map fst existsb orb].
    rewrite <- app_assoc, andb_false_r. reflexivity.
  - cbn [collect_finished]. rewrite IH.
    cbn [filter task_failed snd negb map flat_map fst existsb orb app].
    rewrite <- app_assoc. reflexivity.
Qed.

(** [mds_replace_imgs] with an accepted [replace]: the third component of
    what it returns is [True] when no markdown file was found and when at
    least one file failed, and [False] when every file was processed; the
    first two components are the files that were processed and one record
    for each that failed, in the order in which they finished.  Any other
    [replace] raises the [ValueError] before anything is printed. *)
Theorem mds_replace_imgs_report (replace : replace_arg) (mdfiles : list string)
    (finished : list (string * option exn)) (w : World) :
  (replace_accepted replace = false ->
     mds_replace_imgs replace mdfiles finished w
     = (Err (ValueError "The replace must be 'local' or a function."), w))
  /\ (replace_accepted replace = true -> mdfiles = [] ->
      fst (mds_replace_imgs replace mdfiles finished w) = Ok ([], [], true))
  /\ (replace_accepted replace = true -> mdfiles <> [] ->
      fst (mds_replace_imgs replace mdfiles finished w)
      = Ok (map fst (filter (fun task => negb (task_failed task)) finished),
            flat_map (fun task => match snd task with
                                  | Some error =>
                                      [JObj [("error", JStr (exn_str error));
                                             ("path", JStr (fst task))]]
                                  | None => []
                                  end) finished,
            existsb task_failed finished)).
Proof.
  unfold mds_replace_imgs. split; [|split].
  - intros Hno. rewrite Hno. reflexivity.
  - intros Hyes ->. rewrite Hyes. reflexivity.
  - intros Hyes Hfiles. rewrite Hyes. cbn [negb].
    destruct mdfiles as [|mdfile mdfiles]; [congruence|]. cbn [List.length Nat.eqb].
    unfold bind at 1.
    pose proof (collect_finished_result finished [] [] true w) as Hcollect.
    destruct (collect_finished finished [] [] true w) as [[collected|e] w1];
      simpl in Hcollect; [|discriminate].
    injection Hcollect as ->. unfold bind, print, ret.
    destruct (existsb task_failed finished); reflexivity.
Qed.

End ReplaceImagesReport.

(** * The further properties on concrete inputs *)

(** Closes a hypothesis that a concrete input decides. *)
Ltac decided :=
  first [ reflexivity | discriminate | vm_compute; reflexivity | vm_compute; discriminate ].

Lemma upload_pdf_unreadable_file_witness :
  let w := locked_world (5 * MB) always_429 in
  @upload_pdf_body sample_client "key" "doc.pdf" true w
  = (Err (FileError "Open file error! <exception>"), log (EvOpen "doc.pdf") w)
  /\ net_calls (trace (snd (@upload_pdf_body sample_client "key" "doc.pdf" true w)))
     = net_calls (trace w).
Proof.
  cbv zeta.
  apply (@upload_pdf_unreadable_file sample_client "key" "doc.pdf" true
           (locked_world (5 * MB) always_429) (5 * MB)); decided.
Defined.

Lemma upload_missing_file_witness :
  let w := sample_world (5 * MB) always_429 in
  @upload_pdf_body sample_client "key" "nope.pdf" true w = (Err (OSError "nope.pdf"), w)
  /\ @upload_pdf_big_body sample_client "key" "nope.pdf" true w
     = (Err (OSError "nope.pdf"), w).
Proof.
  cbv zeta.
  apply (@upload_missing_file sample_client "key" "nope.pdf" true
           (sample_world (5 * MB) always_429)).
  reflexivity.
Defined.

Lemma upload_pdf_returns_uid_witness :
  let w := sample_world (5 * MB) (answers (envelope [("uid", JStr "u-1")])) in
  @upload_pdf sample_client "key" "doc.pdf" true w
  = (Ok (JStr "u-1"),
     log (EvNet (direct_request "key" true "%PDF-1.7")) (log (EvOpen "doc.pdf") w)).
Proof.
  cbv zeta.
  apply (@upload_pdf_returns_uid sample_client "key" "doc.pdf" true
           (sample_world (5 * MB) (answers (envelope [("uid", JStr "u-1")])))
           (5 * MB) "%PDF-1.7" (ok_response (envelope [("uid", JStr "u-1")]))
           [("code", JStr "success"); ("data", JObj [("uid", JStr "u-1")])]
           [("uid", JStr "u-1")] (JStr "u-1")); decided.
Defined.

Lemma upload_pdf_rejected_status_witness :
  let w := sample_world (5 * MB) (replies (mkResponse 400 "bad request" None)) in
  @upload_pdf_body sample_client "key" "doc.pdf" true w
  = (Err (RequestError "bad request"),
     log (EvNet (direct_request "key" true "%PDF-1.7")) (log (EvOpen "doc.pdf") w)).
Proof.
  cbv zeta.
  apply (@upload_pdf_rejected_status sample_client "key" "doc.pdf" true
           (sample_world (5 * MB) (replies (mkResponse 400 "bad request" None)))
           (5 * MB) "%PDF-1.7" (mkResponse 400 "bad request" None)); decided.
Defined.

Lemma upload_pdf_rejected_envelope_witness :
  let body := JObj [("code", JStr "parse_error"); ("data", JObj [("uid", JStr "u-1")])] in
  let w := sample_world (5 * MB) (answers body) in
  @upload_pdf_body sample_client "key" "doc.pdf" true w
  = (Err (RequestError "parse_error"),
     log (EvNet (direct_request "key" true "%PDF-1.7")) (log (EvOpen "doc.pdf") w)).
Proof.
  cbv zeta.
  apply (@upload_pdf_rejected_envelope sample_client "key" "doc.pdf" true
           (sample_world (5 * MB)
              (answers (JObj [("code", JStr "parse_error");
                              ("data", JObj [("uid", JStr "u-1")])])))
           (5 * MB) "%PDF-1.7"
           (ok_response (JObj [("code", JStr "parse_error");
                               ("data", JObj [("uid", JStr "u-1")])]))
           [("code", JStr "parse_error"); ("data", JObj [("uid", JStr "u-1")])]); decided.
Defined.

Lemma upload_pdf_big_returns_uid_witness :
  let w := sample_world (150 * MB) storage_accepts in
  let form := JObj [("x-amz-meta-uid", JStr "u-2")] in
  @upload_pdf_big sample_client "key" "doc.pdf" true w
  = (Ok (JStr "u-2"),
     log (EvNet (storage_request "https://oss.example/bucket" form "doc.pdf"))
       (log (EvNet (preupload_request "key" "doc.pdf" true)) (log (EvOpen "doc.pdf") w))).
Proof.
  cbv zeta.
  apply (@upload_pdf_big_returns_uid sample_client "key" "doc.pdf" true
           (sample_world (150 * MB) storage_accepts) (150 * MB) "%PDF-1.7"
           (ok_response (envelope [("url", JStr "https://oss.example/bucket");
                                   ("form", JObj [("x-amz-meta-uid", JStr "u-2")])]))
           (mkResponse 204 "" None)
           [("code", JStr "success");
            ("data", JObj [("url", JStr "https://oss.example/bucket");
                           ("form", JObj [("x-amz-meta-uid", JStr "u-2")])])]
           [("url", JStr "https://oss.example/bucket");
            ("form", JObj [("x-amz-meta-uid", JStr "u-2")])]
           [("x-amz-meta-uid", JStr "u-2")]
           "https://oss.example/bucket" (JStr "u-2")); decided.
Defined.

Lemma upload_pdf_big_storage_rejects_witness :
  let w := sample_world (150 * MB) storage_limited in
  let form := JObj [("x-amz-meta-uid", JStr "u-2")] in
  @upload_pdf_big_body sample_client "key" "doc.pdf" true w
  = (Err (RequestError "Too Many Requests"),
     log (EvNet (storage_request "https://oss.example/bucket" form "doc.pdf"))
       (log (EvNet (preupload_request "key" "doc.pdf" true)) (log (EvOpen "doc.pdf") w))).
Proof.
  cbv zeta.
  apply (@upload_pdf_big_storage_rejects sample_client "key" "doc.pdf" true
           (sample_world (150 * MB) storage_limited) (150 * MB) "%PDF-1.7"
           (ok_response (envelope [("url", JStr "https://oss.example/bucket");
                                   ("form", JObj [("x-amz-meta-uid", JStr "u-2")])]))
           too_many
           [("code", JStr "success");
            ("data", JObj [("url", JStr "https://oss.example/bucket");
                           ("form", JObj [("x-amz-meta-uid", JStr "u-2")])])]
           [("url", JStr "https://oss.example/bucket");
            ("form", JObj [("x-amz-meta-uid", JStr "u-2")])]
           [("x-amz-meta-uid", JStr "u-2")]
           "https://oss.example/bucket" (JStr "u-2")); decided.
Defined.

Lemma upload_pdf_big_preupload_rejected_witness :
  let w := sample_world (150 * MB) always_429 in
  @upload_pdf_big_body sample_client "key" "doc.pdf" true w
  = (Err (PyException "Upload file error! 429:Too Many Requests"),
     log (EvNet (preupload_request "key" "doc.pdf" true)) (log (EvOpen "doc.pdf") w)).
Proof.
  cbv zeta.
  apply (@upload_pdf_big_preupload_rejected sample_client "key" "doc.pdf" true
           (sample_world (150 * MB) always_429) (150 * MB) "%PDF-1.7" too_many); decided.
Defined.

Lemma decode_data_parallel_witness :
  List.length [JStr "a"; JNull] = List.length [page_location [("md", JStr "a")];
                                               page_location [("md", JNull)]].
Proof.
  apply (decode_data_parallel
           (JObj [("result", JObj [("pages", JArr [JObj [("md", JStr "a")];
                                                   JObj [("md", JNull)]])])])
           false (sample_world 1 always_429) (sample_world 1 always_429)
           [JStr "a"; JNull]
           [page_location [("md", JStr "a")]; page_location [("md", JNull)]]).
  reflexivity.
Defined.

Lemma decode_data_plain_witness :
  decode_data
    (JObj [("result", JObj [("pages", JArr (map JObj [[("md", JNum 7)]; []]))])])
    false (sample_world 1 always_429)
  = (Ok ([JNum 7; JStr ""], map page_location [[("md", JNum 7)]; []]),
     sample_world 1 always_429).
Proof.
  apply (decode_data_plain
           [("result", JObj [("pages", JArr (map JObj [[("md", JNum 7)]; []]))])]
           [("pages", JArr (map JObj [[("md", JNum 7)]; []]))]
           [[("md", JNum 7)]; []] (sample_world 1 always_429)); decided.
Defined.

Lemma decode_data_bad_page_witness :
  decode_data
    (JObj [("result", JObj [("pages", JArr [JObj [("md", JStr "a")];
                                             JObj [("md", JNull)]])])])
    true (sample_world 1 always_429)
  = (Err TypeError, sample_world 1 always_429).
Proof.
  apply (proj2 (decode_data_bad_page
                  [("result", JObj [("pages", JArr [JObj [("md", JStr "a")];
                                                    JObj [("md", JNull)]])])]
                  [("pages", JArr [JObj [("md", JStr "a")]; JObj [("md", JNull)]])]
                  [[("md", JStr "a")]] ["a"] (JObj [("md", JNull)]) [] true
                  (sample_world 1 always_429) eq_refl eq_refl eq_refl)
           [("md", JNull)]); reflexivity.
Defined.

Lemma decode_data_no_pages_witness :
  decode_data (JObj [("status", JStr "success")]) true (sample_world 1 always_429)
  = (Ok ([], []),
     log (EvWarn "Although parsed successfully, the content is empty!")
       (sample_world 1 always_429)).
Proof.
  apply (decode_data_no_pages [("status", JStr "success")] true
           (sample_world 1 always_429)).
  left. reflexivity.
Defined.

Lemma uid_status_in_progress_witness :
  let body := envelope [("status", JStr "processing"); ("progress", JNum 37)] in
  let w := sample_world 1 (answers body) in
  @uid_status sample_client "key" "u-1" false w
  = (Ok (JNum 37, JStr "Processing file", [], []),
     log (EvNet (status_request "key" "u-1")) w).
Proof.
  cbv zeta.
  apply (@uid_status_in_progress sample_client "key" "u-1" false
           (sample_world 1
              (answers (envelope [("status", JStr "processing"); ("progress", JNum 37)])))
           (ok_response (envelope [("status", JStr "processing"); ("progress", JNum 37)]))
           [("code", JStr "success");
            ("data", JObj [("status", JStr "processing"); ("progress", JNum 37)])]
           [("status", JStr "processing"); ("progress", JNum 37)]); reflexivity.
Defined.

Lemma uid_status_bad_answer_witness :
  let w := sample_world 1 always_429 in
  @uid_status_body sample_client "key" "u-1" false w
  = (Err (PyException "Get status error! 429:Too Many Requests"),
     log (EvNet (status_request "key" "u-1")) w).
Proof.
  cbv zeta.
  apply (@uid_status_bad_answer sample_client "key" "u-1" false
           (sample_world 1 always_429) too_many); decided.
Defined.

Lemma convert_bad_answer_witness :
  let w := sample_world 1 always_429 in
  @convert_parse_body sample_client "key" "u-1" "docx" None w
  = (Err (PyException "Conversion request failed: 429:Too Many Requests"),
     log (EvNet (convert_request "key" "u-1" "docx" None)) w)
  /\ @get_convert_result_body sample_client "key" "u-1" w
     = (Err (PyException "Get conversion result failed: 429:Too Many Requests"),
        log (EvNet (convert_result_request "key" "u-1")) w).
Proof.
  cbv zeta.
  apply (@convert_bad_answer sample_client "key" "u-1" "docx" None
           (sample_world 1 always_429) too_many); decided.
Defined.

Lemma uuid2file_retries_unbounded_witness :
  fst (@uuid2file sample_client 7 "key" "u-1" "md" None (sample_world 1 always_429))
  = Err RecursionError.
Proof.
  apply (@uuid2file_retries_unbounded sample_client 7 "key" "u-1" "md" None
           (sample_world 1 always_429)).
  intros k r. exists too_many. split; reflexivity.
Defined.

Lemma uuid2file_failed_status_witness :
  let w := sample_world 1 (replies (mkResponse 500 "oops" None)) in
  @uuid2file sample_client 3 "key" "u-1" "md" None w
  = (Err (RuntimeError "Uuid2file failed, status code: <int>:oops"),
     log (EvNet (export_request "key" "u-1" "md")) w).
Proof.
  cbv zeta.
  apply (@uuid2file_failed_status sample_client 2 "key" "u-1" "md" None
           (sample_world 1 (replies (mkResponse 500 "oops" None)))
           (mkResponse 500 "oops" None)); decided.
Defined.

Lemma uuid2file_saves_export_witness :
  let w := sample_world 1 export_then_limit in
  fst (@uuid2file sample_client 3 "key" "u-1" "docx" (Some "out/paper.docx") w)
  = Ok "out/paper.docx"
  /\ fst (@uuid2file sample_client 3 "key" "u-1" "md" (Some "out") w)
     = Ok (@extract_path sample_client "out/u-1.zip").
Proof.
  cbv zeta. split.
  - rewrite (@uuid2file_saves_export sample_client 2 "key" "u-1" "docx"
               (Some "out/paper.docx") (sample_world 1 export_then_limit)
               (mkResponse 200 "PK-archive" None) limit_response
               [("data", JObj [("remain", JNum 42)])] [("remain", JNum 42)] (JNum 42));
      decided.
  - rewrite (@uuid2file_saves_export sample_client 2 "key" "u-1" "md"
               (Some "out") (sample_world 1 export_then_limit)
               (mkResponse 200 "PK-archive" None) limit_response
               [("data", JObj [("remain", JNum 42)])] [("remain", JNum 42)] (JNum 42));
      decided.
Defined.

Lemma uuid2file_retry_asks_archive_witness :
  let w := sample_world 1 limited_once in
  exists rest,
    trace (snd (@uuid2file sample_client 2 "key" "u-1" "md" None w))
    = (trace w
       ++ [EvNet (export_request "key" "u-1" "md");
           EvPrint "Too many requests, wait for 20s and try again"; EvSleep 10;
           EvPrint "10s left"; EvSleep 10;
           EvNet (export_request "key" "u-1" "zip")]
       ++ rest)%list.
Proof.
  cbv zeta.
  apply (@uuid2file_retry_asks_archive sample_client 0 "key" "u-1" "md" None
           (sample_world 1 limited_once) too_many); decided.
Defined.

Lemma legacy_retry_sends_true_witness :
  let w := sample_world 1 limited_once in
  exists rest,
    round_trips (trace (snd (@pdf2file sample_client sample_loads sample_index_error 2
                               "key" "doc.pdf" None "text" (JBool false) w)))
    = (round_trips (trace w)
       ++ [platform_request "/platform/pdf" "ocr" "key" "doc.pdf" "false";
           platform_request "/platform/pdf" "ocr" "key" "doc.pdf" "true"]
       ++ rest)%list.
Proof.
  cbv zeta.
  apply (@legacy_retry_sends_true sample_client sample_loads sample_index_error 0
           "key" "doc.pdf" None "text" (JBool false)
           (sample_world 1 limited_once) "%PDF-1.7" too_many); decided.
Defined.

Lemma legacy_format_checked_late_witness :
  let w := sample_world 1 stream_then_limit in
  @pdf2file sample_client sample_loads sample_index_error 3 "key" "doc.pdf" None "pdf"
    (JBool true) w
  = (Err (ValueError
            "output_format should be one of 'text', 'md', 'latex', 'docx', 'md_dollar'"),
     log (EvNet (platform_request "/platform/pdf" "ocr" "key" "doc.pdf" "true"))
       (log (EvOpen "doc.pdf") w)).
Proof.
  cbv zeta.
  apply (@legacy_format_checked_late sample_client sample_loads sample_index_error 2
           "key" "doc.pdf" None "pdf" (JBool true)
           (sample_world 1 stream_then_limit) "%PDF-1.7"
           (mkResponse 200 sample_stream None)
           (nth 0 sample_events JNull) (JStr "u-9") [nth 1 sample_events JNull]);
    decided.
Defined.

Lemma pdf2file_text_witness :
  let w := sample_world 1 stream_then_limit in
  fst (@pdf2file sample_client sample_loads sample_index_error 3 "key" "doc.pdf" None
         "text" (JBool true) w)
  = Ok "Hello, world".
Proof.
  cbv zeta.
  rewrite (@pdf2file_text sample_client sample_loads sample_index_error 2
             "key" "doc.pdf" None (JBool true)
             (sample_world 1 stream_then_limit) "%PDF-1.7"
             (mkResponse 200 sample_stream None) limit_response
             (nth 0 sample_events JNull) (JStr "u-9") (JNum 42)
             [nth 1 sample_events JNull]
             [("data", JObj [("remain", JNum 42)])] [("remain", JNum 42)]);
    decided.
Defined.

(** ** The limit query after an export, the lines of a stream, the sleeps *)

Section AfterSaving.
Context `{Collaborators}.

(** [uuid2file] queries the remaining limit after it has saved the export:
    when that query is answered anything but 200, the call ends in the
    [RuntimeError] of [get_limit] although the answer has been written, and
    for a format other than "docx" extracted, and no path is returned. *)
Theorem uuid2file_fails_after_saving (depth : nat) (api_key uuid output_format : string)
    (output_path : option string) (w : World) (res limit : response) :
  net w (net_calls (trace w)) (export_request api_key uuid output_format) = Replied res ->
  status_code res = 200 ->
  (forall e, local_ok w e = true) ->
  net w (S (net_calls (trace w))) (limit_request api_key) = Replied limit ->
  status_code limit <> 200 ->
  let target := export_target uuid (archive_format output_format) output_path in
  fst (uuid2file (S depth) api_key uuid output_format output_path w)
  = Err (RuntimeError ("Get limit failed, status code: "
                         ++ py_str (JNum (status_code limit)) ++ ":" ++ text limit))
  /\ In (EvWrite target (text res))
       (trace (snd (uuid2file (S depth) api_key uuid output_format output_path w)))
  /\ (output_format <> "docx" ->
      In (EvExtract target (extract_path target))
        (trace (snd (uuid2file (S depth) api_key uuid output_format output_path w)))).
Proof.
  intros Hnet Hcode Hlocal Hlimit Hlcode. cbv zeta.
  apply Z.eqb_neq in Hlcode.
  set (target := export_target uuid (archive_format output_format) output_path).
  set (saved := log (EvWrite target (text res))
                  (log (EvMakedirs (os_path_dirname target))
                     (log (EvNet (export_request api_key uuid output_format)) w))).
  assert (Hrun : uuid2file (S depth) api_key uuid output_format output_path w
                 = (Err (RuntimeError ("Get limit failed, status code: "
                                         ++ py_str (JNum (status_code limit))
                                         ++ ":" ++ text limit)),
                    log (EvNet (limit_request api_key))
                      (if (output_format =? "docx")%string then saved
                       else log (EvRemove target)
                              (log (EvExtract target (extract_path target)) saved)))).
  { unfold saved. cbn [uuid2file]. unfold bind at 1.
    fold (export_request api_key uuid output_format). rewrite send_run, Hnet, Hcode.
    cbn [Z.eqb Pos.eqb].
    fold (archive_format output_format).
    fold (export_target uuid (archive_format output_format) output_path).
    fold target.
    unfold bind at 1. unfold local at 1. cbn [local_ok log]. rewrite Hlocal.
    unfold bind at 1. unfold local at 1. cbn [local_ok log]. rewrite Hlocal.
    unfold archive_format at 1.
    destruct (output_format =? "docx")%string eqn:Hfmt.
    - apply String.eqb_eq in Hfmt. subst output_format.
      change ("docx" =? "zip")%string with false. cbv iota.
      unfold bind at 1. unfold ret at 1.
      unfold bind at 1. unfold get_limit. unfold bind at 1.
      fold (limit_request api_key). rewrite send_run.
      rewrite !net_log, !net_calls_log. cbn [is_net].
      rewrite Hlimit, Hlcode. reflexivity.
    - change ("zip" =? "zip")%string with true. cbv iota.
      unfold bind at 1. unfold un_zip. fold (extract_path target).
      unfold bind at 1. unfold local at 1. cbn [local_ok log]. rewrite Hlocal.
      unfold local at 1. cbn [local_ok log]. rewrite Hlocal.
      unfold bind at 1. unfold get_limit. unfold bind at 1.
      fold (limit_request api_key). rewrite send_run.
      rewrite !net_log, !net_calls_log. cbn [is_net].
      rewrite Hlimit, Hlcode. reflexivity. }
  rewrite Hrun. cbn [fst snd]. split; [reflexivity|].
  assert (Hsaved : In (EvWrite target (text res)) (trace saved)).
  { unfold saved. rewrite trace_log. apply in_or_app. right. left. reflexivity. }
  split.
  - rewrite trace_log. apply in_or_app. left.
    destruct (output_format =? "docx")%string; [exact Hsaved|].
    rewrite !trace_log. do 2 (apply in_or_app; left). exact Hsaved.
  - intros Hfmt. apply String.eqb_neq in Hfmt. rewrite Hfmt.
    rewrite !trace_log. do 2 (apply in_or_app; left). apply in_or_app. right.
    left. reflexivity.
Qed.

(** No attempt of a decorated operation sleeps: every wait of a run is a
    backoff of the decorator. *)
Theorem attempts_never_sleep (apikey path uid to : string) (filename : option string)
    (flag : bool) (w : World) :
  sleeps (trace (snd (upload_pdf_body apikey path flag w))) = sleeps (trace w)
  /\ sleeps (trace (snd (upload_pdf_big_body apikey path flag w))) = sleeps (trace w)
  /\ sleeps (trace (snd (uid_status_body apikey uid flag w))) = sleeps (trace w)
  /\ sleeps (trace (snd (convert_parse_body apikey uid to filename w))) = sleeps (trace w)
  /\ sleeps (trace (snd (get_convert_result_body apikey uid w))) = sleeps (trace w).
Proof.
  repeat split.
  - apply upload_pdf_body_no_sleep.
  - apply upload_pdf_big_body_no_sleep.
  - apply uid_status_body_no_sleep.
  - apply convert_parse_body_no_sleep.
  - apply get_convert_result_body_no_sleep.
Qed.

End AfterSaving.

Section StreamLines.
Variable loads : string -> option json.

Lemma parse_lines_from (decoded : string -> json) (lines : list string) :
  (forall line, In line lines -> prefixb "data:" line = true ->
                loads (drop 6 line) = Some (decoded line)) ->
  forall text_json,
  parse_lines loads lines text_json
  = Ok (text_json ++ map decoded (filter (prefixb "data:") lines))%list.
Proof.
  induction lines as [|line lines IH]; intros Hall text_json.
  - simpl. rewrite app_nil_r. reflexivity.
  - cbn [parse_lines filter].
    assert (Hrest : forall l, In l lines -> prefixb "data:" l = true ->
                              loads (drop 6 l) = Some (decoded l)).
    { intros l Hl. apply Hall. right. exact Hl. }
    destruct (prefixb "data:" line) eqn:Hdata.
    + destruct line as [|c line]; [discriminate|].
      cbn [String.length Nat.ltb Nat.leb].
      change (String.length "data: ") with 6%nat.
      rewrite (Hall (String c line) (or_introl eq_refl) Hdata).
      rewrite (IH Hrest). cbn [map]. rewrite <- app_assoc. reflexivity.
    + destruct (0 <? String.length line)%nat; apply (IH Hrest).
Qed.

(** Of the lines of a streamed answer only those that start with "data:"
    count, and each is decoded from its seventh character on, whether or not
    a space follows the colon; blank lines and any other line are skipped.
    When every such line decodes, the events are their values in order. *)
Theorem stream_data_lines (decoded : string -> json) (lines : list string) :
  (forall line, In line lines -> prefixb "data:" line = true ->
                loads (drop 6 line) = Some (decoded line)) ->
  parse_lines loads lines []
  = Ok (map decoded (filter (prefixb "data:") lines))
  /\ parse_lines loads lines [] = parse_lines loads (filter (prefixb "data:") lines) [].
Proof.
  intros Hall. rewrite (parse_lines_from decoded lines Hall []).
  split; [reflexivity|].
  rewrite (parse_lines_from decoded (filter (prefixb "data:") lines)).
  - cbn [app]. f_equal. f_equal. clear. induction lines as [|l lines IH]; [reflexivity|].
    cbn [filter]. destruct (prefixb "data:" l) eqn:Hl; [|exact IH].
    cbn [filter]. rewrite Hl, <- IH. reflexivity.
  - intros line Hin. apply filter_In in Hin. apply Hall. apply Hin.
Qed.

End StreamLines.

Lemma uuid2file_fails_after_saving_witness :
  let w := sample_world 1 export_then_limited in
  fst (@uuid2file sample_client 3 "key" "u-1" "docx" (Some "out/paper.docx") w)
  = Err (RuntimeError "Get limit failed, status code: 429:Too Many Requests")
  /\ In (EvWrite "out/paper.docx" "PK-archive")
       (trace (snd (@uuid2file sample_client 3 "key" "u-1" "docx"
                      (Some "out/paper.docx") w))).
Proof.
  cbv zeta.
  destruct (@uuid2file_fails_after_saving sample_client 2 "key" "u-1" "docx"
              (Some "out/paper.docx") (sample_world 1 export_then_limited)
              (mkResponse 200 "PK-archive" None) too_many)
    as (Hfails & Hsaved & _); try decided.
  split; [exact Hfails | exact Hsaved].
Defined.

Lemma stream_data_lines_witness :
  parse_lines sample_loads (split_lines sample_stream) [] = Ok sample_events.
Proof.
  apply (stream_data_lines sample_loads
           (fun line => match sample_loads (drop 6 line) with
                        | Some v => v
                        | None => JNull
                        end)
           (split_lines sample_stream)).
  intros line Hin Hdata. vm_compute in Hin.
  destruct Hin as [<- | [<- | [<- | [<- | []]]]]; try discriminate; reflexivity.
Defined.
